(** * Purchase-order extraction pipeline: a shallow embedding

    The development embeds the two extraction modules of the converter,
    [simplified_data_extractor.py] (module functions, money kept as
    strings) and [data_extractor.py] (class [DataExtractor]), together
    with the pieces of the Python run time they rely on: [str] methods,
    [float]/[round]/[str] on binary64 numbers, [re.search], and the
    padding performed by [pandas.DataFrame].

    Conventions.
    - Text is a [string] of bytes; the model and Python agree on ASCII
      text (Python's [\s], [\d], [lower] and [strip] are Unicode aware).
    - A Python [float] is an IEEE binary64 number ([spec_float] with
      precision 53 and maximal exponent 1024).
    - A raised exception is a value of type [pyerr] in a result type.
    - [datetime.now().strftime('%m/%d/%Y')] is the parameter [today]. *)

From Stdlib Require Import ZArith Ascii String List Bool Lia.
From Stdlib Require Import Floats.SpecFloat.
From stdpp Require Import base option list gmap strings.

(** ** Python strings *)

Module PyStr.

Definition code (c : ascii) : nat := nat_of_ascii c.

Definition between (lo hi : nat) (c : ascii) : bool :=
  (lo <=? code c) && (code c <=? hi).

(** [str.isspace] on one ASCII character: TAB..CR, FS..US and space. *)
Definition is_space (c : ascii) : bool :=
  between 9 13 c || between 28 32 c.

Definition is_digit (c : ascii) : bool := between 48 57 c.
Definition is_upper (c : ascii) : bool := between 65 90 c.
Definition is_lower (c : ascii) : bool := between 97 122 c.
Definition is_alpha (c : ascii) : bool := is_upper c || is_lower c.
Definition is_alnum (c : ascii) : bool := is_alpha c || is_digit c.

Definition lower_char (c : ascii) : ascii :=
  if is_upper c then ascii_of_nat (code c + 32) else c.

Definition upper_char (c : ascii) : ascii :=
  if is_lower c then ascii_of_nat (code c - 32) else c.

Definition chars (s : string) : list ascii := list_ascii_of_string s.
Definition of_chars (l : list ascii) : string := string_of_list_ascii l.

(** [s.lower()] *)
Definition lower (s : string) : string := of_chars (map lower_char (chars s)).

(** [s.upper()] *)
Definition upper (s : string) : string := of_chars (map upper_char (chars s)).

Fixpoint drop_while (p : ascii -> bool) (l : list ascii) : list ascii :=
  match l with
  | c :: l' => if p c then drop_while p l' else l
  | [] => []
  end.

Definition strip_chars (l : list ascii) : list ascii :=
  rev (drop_while is_space (rev (drop_while is_space l))).

(** [s.strip()] *)
Definition strip (s : string) : string := of_chars (strip_chars (chars s)).

Fixpoint starts_with (p l : list ascii) : bool :=
  match p, l with
  | [], _ => true
  | a :: p', b :: l' => if Ascii.eqb a b then starts_with p' l' else false
  | _ :: _, [] => false
  end.

Fixpoint contains_chars (p l : list ascii) : bool :=
  starts_with p l ||
  match l with
  | [] => false
  | _ :: l' => contains_chars p l'
  end.

(** [sub in s] *)
Definition contains (sub s : string) : bool :=
  contains_chars (chars sub) (chars s).

(** [any(keyword in header for keyword in keywords)] *)
Definition any_in (keywords : list string) (header : string) : bool :=
  existsb (fun keyword => contains keyword header) keywords.

(** [re.sub(r'[^...]', '', s)] for a one-character class: the characters
    of the class are kept, the others are dropped. *)
Definition keep (p : ascii -> bool) (s : string) : string :=
  of_chars (filter (fun c => p c = true) (chars s)).

(** [s.replace(c, '')] for a one-character [c] *)
Definition remove_char (c : ascii) (s : string) : string :=
  of_chars (filter (fun d => Ascii.eqb c d = false) (chars s)).

(** [s[:n]] *)
Definition prefix (n : nat) (s : string) : string := of_chars (take n (chars s)).

(** [s == ''] as a test *)
Definition is_empty (s : string) : bool :=
  match s with EmptyString => true | _ => false end.

Definition digit_char (d : nat) : ascii := ascii_of_nat (48 + d).

Fixpoint pos_digits (fuel : nat) (n : N) (acc : list ascii) : list ascii :=
  match fuel with
  | 0 => acc
  | S fuel' =>
      let acc' := digit_char (N.to_nat (n mod 10)) :: acc in
      if (n <? 10)%N then acc' else pos_digits fuel' (n / 10)%N acc'
  end.

(** decimal digits of a natural number, most significant first *)
Definition N_digits (n : N) : list ascii :=
  pos_digits (S (N.to_nat (N.log2 n))) n [].

(** [str(z)] for a Python [int] *)
Definition str_int (z : Z) : string :=
  match z with
  | Zneg p => of_chars ("-"%char :: N_digits (Npos p))
  | _ => of_chars (N_digits (Z.to_N z))
  end.

End PyStr.

(** ** Python numbers *)

Module PyNum.
Import PyStr.

Definition prec : Z := 53.
Definition emax : Z := 1024.

(** A Python [float] *)
Definition pyfloat : Type := spec_float.

(** A Python number as the extractor meets them: the literals [0] and
    [1] are [int]s, everything parsed with [float(...)] is a [float]. *)
Inductive pynum : Type :=
| PInt (z : Z)
| PFloat (f : pyfloat).

Definition fadd : pyfloat -> pyfloat -> pyfloat := SFadd prec emax.
Definition fmul : pyfloat -> pyfloat -> pyfloat := SFmul prec emax.

(** the binary64 number nearest to the integer [z] ([float(z)]) *)
Definition float_of_Z (z : Z) : pyfloat := binary_normalize prec emax z 0 false.

(** the binary64 number nearest to [n / d], with the sign [neg] *)
Definition float_of_ratio (neg : bool) (n d : positive) : pyfloat :=
  SFdiv prec emax (S754_finite neg n 0) (S754_finite false d 0).

(** the binary64 number nearest to [n * 10 ^ e10], with the sign [neg]:
    what [strtod] computes from a decimal numeral *)
Definition float_of_decimal (neg : bool) (n : N) (e10 : Z) : pyfloat :=
  match n with
  | N0 => S754_zero neg
  | Npos p =>
      match e10 with
      | Zneg k => float_of_ratio neg p (Pos.pow 10 k)
      | _ => binary_normalize prec emax
               (cond_Zopp neg (Zpos p * 10 ^ e10)%Z) 0 false
      end
  end.

Definition to_float (x : pynum) : pyfloat :=
  match x with
  | PInt z => float_of_Z z
  | PFloat f => f
  end.

(** [x + y] *)
Definition add (x y : pynum) : pynum :=
  match x, y with
  | PInt a, PInt b => PInt (a + b)
  | _, _ => PFloat (fadd (to_float x) (to_float y))
  end.

(** [x * y] *)
Definition mul (x y : pynum) : pynum :=
  match x, y with
  | PInt a, PInt b => PInt (a * b)
  | _, _ => PFloat (fmul (to_float x) (to_float y))
  end.

(** [sum(xs)]: a left fold of [+] from the [int] 0, which is what
    CPython does up to version 3.11 (later versions add [float]s with a
    compensated sum) *)
Definition sum (xs : list pynum) : pynum := fold_left add xs (PInt 0).

(** *** [float(s)] *)

Definition digits_value (ds : list ascii) : N :=
  fold_left (fun acc c => (10 * acc + N.of_nat (code c - 48))%N) ds 0%N.

Fixpoint span_digits (l : list ascii) : list ascii * list ascii :=
  match l with
  | c :: l' =>
      if is_digit c then let '(ds, r) := span_digits l' in (c :: ds, r)
      else ([], l)
  | [] => ([], [])
  end.

(** underscores may separate digits and nothing else *)
Fixpoint drop_underscores (prev_digit : bool) (l : list ascii) : option (list ascii) :=
  match l with
  | [] => Some []
  | c :: l' =>
      if Ascii.eqb c "_" then
        match l' with
        | d :: _ => if prev_digit && is_digit d then drop_underscores false l' else None
        | [] => None
        end
      else option_map (cons c) (drop_underscores (is_digit c) l')
  end.

Definition split_sign (l : list ascii) : bool * list ascii :=
  match l with
  | c :: l' =>
      if Ascii.eqb c "-" then (true, l')
      else if Ascii.eqb c "+" then (false, l')
      else (false, l)
  | [] => (false, [])
  end.

(** the exponent part: nothing, or [e], an optional sign and digits *)
Definition parse_exponent (l : list ascii) : option Z :=
  match l with
  | [] => Some 0%Z
  | c :: l' =>
      if Ascii.eqb (lower_char c) "e" then
        let '(neg, l'') := split_sign l' in
        match span_digits l'' with
        | ((_ :: _) as ds, []) => Some (cond_Zopp neg (Z.of_N (digits_value ds)))
        | _ => None
        end
      else None
  end.

Definition parse_decimal (neg : bool) (l : list ascii) : option pyfloat :=
  let '(ip, r1) := span_digits l in
  let '(fp, r2) :=
    match r1 with
    | c :: r => if Ascii.eqb c "." then span_digits r else ([], r1)
    | [] => ([], [])
    end in
  match ip ++ fp with
  | [] => None
  | ds =>
      match parse_exponent r2 with
      | Some e => Some (float_of_decimal neg (digits_value ds) (e - Z.of_nat (length fp)))
      | None => None
      end
  end.

(** [float(s)]; [None] stands for [ValueError] *)
Definition float_of_str (s : string) : option pyfloat :=
  let '(neg, body) := split_sign (strip_chars (chars s)) in
  let word := of_chars (map lower_char body) in
  if String.eqb word "inf" || String.eqb word "infinity" then Some (S754_infinity neg)
  else if String.eqb word "nan" then Some S754_nan
  else match drop_underscores false body with
       | Some l => parse_decimal neg l
       | None => None
       end.

(** *** [round(x, 2)] *)

(** [n * 2 ^ e] rounded to the nearest integer, ties to even *)
Definition round_half_even (n e : Z) : Z :=
  match e with
  | Zneg k =>
      let d := Z.pow_pos 2 k in
      let q := (n / d)%Z in
      let r := (n mod d)%Z in
      match (2 * r ?= d)%Z with
      | Lt => q
      | Gt => (q + 1)%Z
      | Eq => if Z.even q then q else (q + 1)%Z
      end
  | _ => (n * 2 ^ e)%Z
  end.

(** [round(x, 2)] on a [float]: the exact value is rounded to two
    decimal places, ties to even, and the decimal is read back. *)
Definition fround2 (x : pyfloat) : pyfloat :=
  match x with
  | S754_finite s m e =>
      float_of_decimal s (Z.to_N (round_half_even (100 * Zpos m) e)) (-2)
  | _ => x
  end.

(** [round(x, 2)]: an [int] is returned as it is *)
Definition round2 (x : pynum) : pynum :=
  match x with
  | PInt z => PInt z
  | PFloat f => PFloat (fround2 f)
  end.

(** *** [str(x)] *)

(** [(q, c)]: the integer part [q] of [m * 2 ^ e * 10 ^ s] and the
    comparison [c] of its fractional part with one half *)
Definition scaled (m : positive) (e s : Z) : Z * comparison :=
  let num := (Zpos m * 2 ^ Z.max e 0 * 10 ^ Z.max s 0)%Z in
  let den := (2 ^ Z.max (- e) 0 * 10 ^ Z.max (- s) 0)%Z in
  let q := (num / den)%Z in
  let r := (num mod den)%Z in
  (q, if (r =? 0)%Z then Eq else
        match (2 * r ?= den)%Z with Lt => Lt | Gt => Gt | Eq => if Z.even q then Lt else Gt end).

(** the decimal exponent [d] with [10 ^ (d - 1) <= m * 2 ^ e < 10 ^ d] *)
Fixpoint adjust_decpt (fuel : nat) (m : positive) (e d : Z) : Z :=
  match fuel with
  | 0 => d
  | S fuel' =>
      if (fst (scaled m e (- d)) >=? 1)%Z then adjust_decpt fuel' m e (d + 1)%Z
      else if (fst (scaled m e (1 - d)) <? 1)%Z then adjust_decpt fuel' m e (d - 1)%Z
      else d
  end.

Definition decpt_of (m : positive) (e : Z) : Z :=
  let bits := (Zpos (digits2_pos m) + e)%Z in
  adjust_decpt 8 m e (bits * 30103 / 100000)%Z.

Definition reads_back (m : positive) (e : Z) (n : Z) (e10 : Z) : bool :=
  match float_of_decimal false (Z.to_N n) e10 with
  | S754_finite _ m' e' => Pos.eqb m m' && Z.eqb e e'
  | _ => false
  end.

(** the shortest decimal [n * 10 ^ e10] that [float] reads back as
    [m * 2 ^ e], the nearest one among those of that length *)
Fixpoint shortest_digits (fuel k : nat) (m : positive) (e decpt : Z) : Z * Z :=
  let e10 := (decpt - Z.of_nat k)%Z in
  let '(q, c) := scaled m e (- e10) in
  let '(first, second) :=
    match c with
    | Eq => (q, q)
    | Lt => (q, q + 1)%Z
    | Gt => (q + 1, q)%Z
    end in
  match fuel with
  | 0 => (first, e10)
  | S fuel' =>
      if reads_back m e first e10 then (first, e10)
      else if reads_back m e second e10 then (second, e10)
      else shortest_digits fuel' (S k) m e decpt
  end.

Fixpoint strip_zeros (fuel : nat) (n e10 : Z) : Z * Z :=
  match fuel with
  | 0 => (n, e10)
  | S fuel' =>
      if (n mod 10 =? 0)%Z && negb (n =? 0)%Z then strip_zeros fuel' (n / 10)%Z (e10 + 1)%Z
      else (n, e10)
  end.

Definition zeros (n : nat) : list ascii := repeat "0"%char n.

Definition two_digits (n : N) : list ascii :=
  if (n <? 10)%N then "0"%char :: N_digits n else N_digits n.

(** the layout of [repr]: positional for [-4 < decpt <= 16], with [.0]
    added to an integer; exponent notation otherwise *)
Definition layout (ds : list ascii) (decpt : Z) : list ascii :=
  let nd := Z.of_nat (length ds) in
  if (decpt <=? -4)%Z || (16 <? decpt)%Z then
    let mant := match ds with
                | [] => []
                | [d] => [d]
                | d :: rest => d :: "."%char :: rest
                end in
    let x := (decpt - 1)%Z in
    mant ++ "e"%char :: (if (x <? 0)%Z then "-"%char else "+"%char)
         :: two_digits (Z.to_N (Z.abs x))
  else if (decpt <=? 0)%Z then
    "0"%char :: "."%char :: zeros (Z.to_nat (- decpt)) ++ ds
  else if (nd <=? decpt)%Z then
    ds ++ zeros (Z.to_nat (decpt - nd)) ++ ["."%char; "0"%char]
  else
    take (Z.to_nat decpt) ds ++ "."%char :: drop (Z.to_nat decpt) ds.

Definition sign_chars (s : bool) (l : list ascii) : list ascii :=
  if s then "-"%char :: l else l.

(** [str(x)] (which is [repr(x)]) on a [float] *)
Definition str_float (x : pyfloat) : string :=
  match x with
  | S754_nan => "nan"
  | S754_infinity s => of_chars (sign_chars s (chars "inf"))
  | S754_zero s => of_chars (sign_chars s (chars "0.0"))
  | S754_finite s m e =>
      let '(n, e10) := shortest_digits 16 1 m e (decpt_of m e) in
      let '(n', e10') := strip_zeros 20 n e10 in
      let ds := N_digits (Z.to_N n') in
      of_chars (sign_chars s (layout ds (e10' + Z.of_nat (length ds))%Z))
  end.

(** [str(x)] *)
Definition str (x : pynum) : string :=
  match x with
  | PInt z => str_int z
  | PFloat f => str_float f
  end.

End PyNum.

(** ** Regular expressions: the part of Python's [re] the extractors use *)

Module Re.
Import PyStr.

(** One item of a bracketed set, or a class escape *)
Inductive citem : Type :=
| CChar (c : ascii)
| CRange (lo hi : ascii)
| CDigit (neg : bool)
| CSpace (neg : bool)
| CWord (neg : bool).

Inductive regex : Type :=
| Empty
| Lit (c : ascii)
| Any
| CSet (neg : bool) (items : list citem)
| Cat (r1 r2 : regex)
| Alt (r1 r2 : regex)
| Rep (lo : nat) (hi : option nat) (greedy : bool) (r : regex)
| Group (i : nat) (r : regex)
| Bol
| Eol
| EndZ.

(** [re.IGNORECASE], [re.MULTILINE], [re.DOTALL] *)
Record flags : Type := Flags { ignorecase : bool; multiline : bool; dotall : bool }.

Definition no_flags : flags := Flags false false false.
Definition I : flags := Flags true false false.
Definition IM : flags := Flags true true false.
Definition IS : flags := Flags true false true.

(** *** Parsing a pattern *)

Definition newline : ascii := ascii_of_nat 10.

(** the meaning of [\x] *)
Definition escape (x : ascii) : regex :=
  if Ascii.eqb x "d" then CSet false [CDigit false]
  else if Ascii.eqb x "D" then CSet false [CDigit true]
  else if Ascii.eqb x "s" then CSet false [CSpace false]
  else if Ascii.eqb x "S" then CSet false [CSpace true]
  else if Ascii.eqb x "w" then CSet false [CWord false]
  else if Ascii.eqb x "W" then CSet false [CWord true]
  else if Ascii.eqb x "n" then Lit newline
  else if Ascii.eqb x "t" then Lit (ascii_of_nat 9)
  else if Ascii.eqb x "r" then Lit (ascii_of_nat 13)
  else if Ascii.eqb x "Z" then EndZ
  else Lit x.

Definition escape_item (x : ascii) : citem :=
  match escape x with
  | CSet _ [it] => it
  | Lit c => CChar c
  | _ => CChar x
  end.

(** the items of a set, up to the closing bracket *)
Fixpoint parse_items (fuel : nat) (l : list ascii) : option (list citem * list ascii) :=
  match fuel with
  | 0 => None
  | S fuel' =>
      match l with
      | [] => None
      | "]"%char :: l' => Some ([], l')
      | "\"%char :: x :: l' =>
          match parse_items fuel' l' with
          | Some (its, r) => Some (escape_item x :: its, r)
          | None => None
          end
      | c :: "-"%char :: d :: l' =>
          if Ascii.eqb d "]" then
            match parse_items fuel' ("-"%char :: d :: l') with
            | Some (its, r) => Some (CChar c :: its, r)
            | None => None
            end
          else
            match parse_items fuel' l' with
            | Some (its, r) => Some (CRange c d :: its, r)
            | None => None
            end
      | c :: l' =>
          match parse_items fuel' l' with
          | Some (its, r) => Some (CChar c :: its, r)
          | None => None
          end
      end
  end.

Definition parse_set (l : list ascii) : option (regex * list ascii) :=
  let '(neg, l1) :=
    match l with
    | "^"%char :: l' => (true, l')
    | _ => (false, l)
    end in
  match parse_items (S (length l1)) l1 with
  | Some (its, r) => Some (CSet neg its, r)
  | None => None
  end.

Definition span_nat (l : list ascii) : option (nat * list ascii) :=
  match PyNum.span_digits l with
  | ([], _) => None
  | (ds, r) => Some (N.to_nat (PyNum.digits_value ds), r)
  end.

(** the bounds of [{m}], [{m,}] and [{m,n}], after the opening brace *)
Definition parse_bounds (l : list ascii) : option (nat * option nat * list ascii) :=
  match span_nat l with
  | Some (lo, "}"%char :: r) => Some (lo, Some lo, r)
  | Some (lo, ","%char :: "}"%char :: r) => Some (lo, None, r)
  | Some (lo, ","%char :: r) =>
      match span_nat r with
      | Some (hi, "}"%char :: r') => Some (lo, Some hi, r')
      | _ => None
      end
  | _ => None
  end.

Definition lazy_mark (l : list ascii) : bool * list ascii :=
  match l with
  | "?"%char :: l' => (false, l')
  | _ => (true, l)
  end.

(** an optional quantifier after the atom [a] *)
Definition parse_quant (a : regex) (l : list ascii) : regex * list ascii :=
  match l with
  | "*"%char :: l' => let '(g, r) := lazy_mark l' in (Rep 0 None g a, r)
  | "+"%char :: l' => let '(g, r) := lazy_mark l' in (Rep 1 None g a, r)
  | "?"%char :: l' => let '(g, r) := lazy_mark l' in (Rep 0 (Some 1) g a, r)
  | "{"%char :: l' =>
      match parse_bounds l' with
      | Some (lo, hi, l'') => let '(g, r) := lazy_mark l'' in (Rep lo hi g a, r)
      | None => (a, l)
      end
  | _ => (a, l)
  end.

(** [n] is the number of the next capturing group *)
Fixpoint parse_alt (fuel : nat) (l : list ascii) (n : nat) : option (regex * list ascii * nat) :=
  match fuel with
  | 0 => None
  | S fuel' =>
      match parse_seq fuel' l n with
      | Some (r1, "|"%char :: l', n') =>
          match parse_alt fuel' l' n' with
          | Some (r2, l'', n'') => Some (Alt r1 r2, l'', n'')
          | None => None
          end
      | res => res
      end
  end
with parse_seq (fuel : nat) (l : list ascii) (n : nat) : option (regex * list ascii * nat) :=
  match fuel with
  | 0 => None
  | S fuel' =>
      match l with
      | [] => Some (Empty, [], n)
      | "|"%char :: _ => Some (Empty, l, n)
      | ")"%char :: _ => Some (Empty, l, n)
      | _ =>
          match parse_atom fuel' l n with
          | Some (a, l', n') =>
              let '(q, l'') := parse_quant a l' in
              match parse_seq fuel' l'' n' with
              | Some (Empty, l3, n3) => Some (q, l3, n3)
              | Some (r, l3, n3) => Some (Cat q r, l3, n3)
              | None => None
              end
          | None => None
          end
      end
  end
with parse_atom (fuel : nat) (l : list ascii) (n : nat) : option (regex * list ascii * nat) :=
  match fuel with
  | 0 => None
  | S fuel' =>
      match l with
      | [] => None
      | "("%char :: "?"%char :: ":"%char :: l' =>
          match parse_alt fuel' l' n with
          | Some (r, ")"%char :: l'', n') => Some (r, l'', n')
          | _ => None
          end
      | "("%char :: l' =>
          match parse_alt fuel' l' (S n) with
          | Some (r, ")"%char :: l'', n') => Some (Group n r, l'', n')
          | _ => None
          end
      | "["%char :: l' =>
          match parse_set l' with
          | Some (r, l'') => Some (r, l'', n)
          | None => None
          end
      | "\"%char :: x :: l' => Some (escape x, l', n)
      | "."%char :: l' => Some (Any, l', n)
      | "^"%char :: l' => Some (Bol, l', n)
      | "$"%char :: l' => Some (Eol, l', n)
      | c :: l' =>
          if existsb (Ascii.eqb c) (chars "*+?{\") then None else Some (Lit c, l', n)
      end
  end.

(** [re.compile(pattern)]; [None] when the pattern is outside the
    supported syntax *)
Definition compile (pattern : string) : option regex :=
  let l := chars pattern in
  match parse_alt (3 * length l + 3) l 1 with
  | Some (r, [], _) => Some r
  | _ => None
  end.

(** *** Matching *)

Definition item_has (c : ascii) (it : citem) : bool :=
  match it with
  | CChar d => Ascii.eqb c d
  | CRange lo hi => between (code lo) (code hi) c
  | CDigit neg => xorb neg (is_digit c)
  | CSpace neg => xorb neg (is_space c)
  | CWord neg => xorb neg (is_alnum c || Ascii.eqb c "_")
  end.

(** under [IGNORECASE] a character is in a set when one of its two
    cases is *)
Definition in_set (fl : flags) (items : list citem) (c : ascii) : bool :=
  existsb (item_has c) items ||
  (ignorecase fl &&
   (existsb (item_has (lower_char c)) items || existsb (item_has (upper_char c)) items)).

Definition lit_eq (fl : flags) (c d : ascii) : bool :=
  if ignorecase fl then Ascii.eqb (lower_char c) (lower_char d) else Ascii.eqb c d.

(** The state of a match attempt: the position, the text before it
    (reversed) and after it, the spans of the groups closed so far and
    the number of the group closed last. *)
Record mstate : Type := MState {
  pos : nat;
  before : list ascii;
  rest : list ascii;
  spans : list (nat * (nat * nat));
  lastindex : option nat
}.

Definition step_char (st : mstate) (ok : ascii -> bool) : option mstate :=
  match rest st with
  | c :: l =>
      if ok c then Some (MState (S (pos st)) (c :: before st) l (spans st) (lastindex st))
      else None
  | [] => None
  end.

Definition at_bol (fl : flags) (st : mstate) : bool :=
  match before st with
  | [] => true
  | c :: _ => multiline fl && Ascii.eqb c newline
  end.

(** [$]: at the end, before a final newline, and under [MULTILINE]
    before any newline *)
Definition at_eol (fl : flags) (st : mstate) : bool :=
  match rest st with
  | [] => true
  | c :: l => Ascii.eqb c newline && (multiline fl || match l with [] => true | _ => false end)
  end.

Definition close_group (i start : nat) (st : mstate) : mstate :=
  MState (pos st) (before st) (rest st) ((i, (start, pos st)) :: spans st) (Some i).

Definition may_repeat (cnt : nat) (hi : option nat) : bool :=
  match hi with
  | Some h => cnt <? h
  | None => true
  end.

Definition or_else {A} (x y : option A) : option A :=
  match x with
  | Some _ => x
  | None => y
  end.

(** The loop of a repetition over [body], the matcher of the repeated
    expression: a greedy repetition tries one more iteration before it
    stops, a lazy one the other way round; an iteration beyond the
    lower bound has to consume a character. *)
Definition rep_loop {A} (body : mstate -> (mstate -> option A) -> option A)
    (k : mstate -> option A) (lo : nat) (hi : option nat) (greedy : bool) :
    nat -> nat -> mstate -> option A :=
  fix loop (fuel cnt : nat) (st : mstate) {struct fuel} : option A :=
    match fuel with
    | 0 => None
    | S fuel' =>
        let more :=
          if may_repeat cnt hi then
            body st (fun st' =>
              if (cnt <? lo) || (pos st <? pos st') then loop fuel' (S cnt) st' else None)
          else None in
        let stop := if lo <=? cnt then k st else None in
        if greedy then or_else more stop else or_else stop more
    end.

(** Backtracking matcher in continuation-passing style: alternatives
    are tried left to right. *)
Fixpoint run {A} (fl : flags) (r : regex) (st : mstate) (k : mstate -> option A) : option A :=
  match r with
  | Empty => k st
  | Lit c => match step_char st (lit_eq fl c) with Some st' => k st' | None => None end
  | Any =>
      match step_char st (fun c => dotall fl || negb (Ascii.eqb c newline)) with
      | Some st' => k st'
      | None => None
      end
  | CSet neg items =>
      match step_char st (fun c => xorb neg (in_set fl items c)) with
      | Some st' => k st'
      | None => None
      end
  | Cat r1 r2 => run fl r1 st (fun st' => run fl r2 st' k)
  | Alt r1 r2 => or_else (run fl r1 st k) (run fl r2 st k)
  | Rep lo hi greedy r' =>
      rep_loop (run fl r') k lo hi greedy (lo + length (rest st) + 1) 0 st
  | Group i r' => run fl r' st (fun st' => k (close_group i (pos st) st'))
  | Bol => if at_bol fl st then k st else None
  | Eol => if at_eol fl st then k st else None
  | EndZ => match rest st with [] => k st | _ => None end
  end.

(** A match object *)
Record rmatch : Type := RMatch {
  m_text : list ascii;
  m_start : nat;
  m_end : nat;
  m_spans : list (nat * (nat * nat));
  m_lastindex : option nat
}.

Definition slice (l : list ascii) (i j : nat) : string :=
  of_chars (take (j - i) (drop i l)).

Fixpoint find_span (i : nat) (l : list (nat * (nat * nat))) : option (nat * nat) :=
  match l with
  | (j, sp) :: l' => if i =? j then Some sp else find_span i l'
  | [] => None
  end.

(** [m.group(i)]; the empty string stands for [None], which no pattern
    of the extractors can give for the groups they read *)
Definition group (m : rmatch) (i : nat) : string :=
  match i with
  | 0 => slice (m_text m) (m_start m) (m_end m)
  | _ =>
      match find_span i (m_spans m) with
      | Some (a, b) => slice (m_text m) a b
      | None => ""
      end
  end.

Fixpoint search_from (fl : flags) (r : regex) (text : list ascii)
    (fuel : nat) (st : mstate) : option rmatch :=
  let here :=
    run fl r st (fun st' =>
      Some (RMatch text (pos st) (pos st') (spans st') (lastindex st'))) in
  match here with
  | Some m => Some m
  | None =>
      match fuel, rest st with
      | S fuel', c :: l => search_from fl r text fuel' (MState (S (pos st)) (c :: before st) l [] None)
      | _, _ => None
      end
  end.

(** [re.search(pattern, text, flags)]: the leftmost match *)
Definition search (pattern : string) (text : string) (fl : flags) : option rmatch :=
  match compile pattern with
  | Some r =>
      let l := chars text in
      search_from fl r l (length l) (MState 0 [] l [] None)
  | None => None
  end.

(** [re.sub(r'\s+', ' ', s)] *)
Fixpoint squeeze (in_run : bool) (l : list ascii) : list ascii :=
  match l with
  | [] => []
  | c :: l' =>
      if is_space c then (if in_run then squeeze true l' else " "%char :: squeeze true l')
      else c :: squeeze false l'
  end.

Definition collapse_spaces (s : string) : string := of_chars (squeeze false (chars s)).

End Re.

(** ** Exceptions *)

Inductive pyerr : Type :=
| ValueError  (* [float(s)] on a string that is no numeral *)
| KeyError.   (* [d[k]] on a missing key *)

(** The outcome of a call: a returned value or a raised exception *)
Inductive outcome (A : Type) : Type :=
| Returns (a : A)
| Raises (e : pyerr).

Arguments Returns {A} a.
Arguments Raises {A} e.

Definition bind {A B} (c : outcome A) (k : A -> outcome B) : outcome B :=
  match c with
  | Returns a => k a
  | Raises e => Raises e
  end.

Notation "'do' x <- c ; k" := (bind c (fun x => k))
  (at level 10, x name, c at level 100, k at level 200).

Definition returns {A} (c : outcome A) : bool :=
  match c with
  | Returns _ => true
  | Raises _ => false
  end.

(** ** The parsed document *)

(** A table as the readers emit it: rows of cell strings, possibly ragged *)
Definition table : Type := list (list string).

(** [parsed_data]: a dictionary with the keys ['text'] and ['tables'];
    a field is [None] when the key is missing. A well-formed document
    has both. *)
Record parsed_document : Type := ParsedDocument {
  doc_text : option string;
  doc_tables : option (list table)
}.

Definition well_formed (text : string) (tables : list table) : parsed_document :=
  ParsedDocument (Some text) (Some tables).

(** A dictionary from field names to strings *)
Abbreviation dict := (gmap string string).

(** ** [pandas.DataFrame] over a table *)

Module Pandas.
Import PyStr.

(** A cell of a frame: [None] is the missing value that pads a short row *)
Definition cell : Type := option string.

Definition frame : Type := list (list cell).

(** the number of columns: the length of the longest row *)
Definition width (t : table) : nat := foldr (fun row w => Nat.max (length row) w) 0 t.

Definition pad_row (w : nat) (row : list string) : list cell :=
  map Some row ++ repeat None (w - length row).

(** [pd.DataFrame(table)] *)
Definition DataFrame (t : table) : frame := map (pad_row (width t)) t.

(** [len(df.columns)] *)
Definition columns (df : frame) : nat :=
  match df with
  | row :: _ => length row
  | [] => 0
  end.

(** [df.empty] *)
Definition empty (df : frame) : bool :=
  match df with
  | [] => true
  | row :: _ => match row with [] => true | _ => false end
  end.

(** [str(cell)]; the missing value prints as [None] *)
Definition str_cell (c : cell) : string :=
  match c with
  | Some s => s
  | None => "None"
  end.

End Pandas.

(** ** [simplified_data_extractor.py] *)

Module Simplified.
Import PyStr PyNum.

(** A line item: a dictionary over the five keys the extractor writes *)
Record line_item : Type := LineItem {
  description : option string;
  item_code : option string;
  quantity : option pynum;
  unit_price : option pynum;
  total_price : option pynum
}.

(** [result]. The keys ['client_info'], ['po_details'] and
    ['line_items'] are created by [extract_data] and always present, so
    that the tests ['po_details' in result] and ['client_info' in result]
    hold; ['ship_to'] is created on demand. *)
Record result : Type := Result {
  client_info : dict;
  po_details : dict;
  ship_to : option dict;
  line_items : list line_item
}.

Definition initial : result := Result ∅ ∅ None [].

Definition set_client (k v : string) (r : result) : result :=
  Result (<[k := v]> (client_info r)) (po_details r) (ship_to r) (line_items r).

Definition set_po (k v : string) (r : result) : result :=
  Result (client_info r) (<[k := v]> (po_details r)) (ship_to r) (line_items r).

(** [if 'ship_to' not in result: result['ship_to'] = {}] and then
    [result['ship_to'][k] = v] *)
Definition set_ship (k v : string) (r : result) : result :=
  Result (client_info r) (po_details r)
         (Some (<[k := v]> (default ∅ (ship_to r)))) (line_items r).

Definition append_item (it : line_item) (r : result) : result :=
  Result (client_info r) (po_details r) (ship_to r) (line_items r ++ [it]).

(** [m = re.search(pattern, text, flags)] followed by
    [if m: store(post(m.group(g)))] *)
Definition on_match (pattern : string) (fl : Re.flags) (text : string) (g : nat)
    (store : string -> result -> result) (r : result) : result :=
  match Re.search pattern text fl with
  | Some m => store (Re.group m g) r
  | None => r
  end.

Definition extract_client_info (text : string) (r : result) : result :=
  let r := on_match "(?:Client|Customer|Bill To|Sold To)[\s:]+([A-Za-z0-9\s.,&]+?)(?:\n|,|\s{2,}|$)"
             Re.I text 1 (fun g => set_client "name" (strip g)) r in
  let r := on_match "(?:Phone|Tel|Telephone)[\s:]+(\+?[0-9\s\(\)\-\.]{7,20})"
             Re.I text 1 (fun g => set_client "phone" (strip g)) r in
  let r := on_match "[A-Za-z0-9._%+-]+@[A-Za-z0-9.-]+\.[A-Za-z]{2,}"
             Re.no_flags text 0 (fun g => set_client "email" g) r in
  let r := on_match "(?:Address|Location)[\s:]+([A-Za-z0-9\s.,#\-]+(?:[A-Za-z]{2,}\s+\d{5,}))"
             Re.I text 1 (fun g => set_client "address" (strip g)) r in
  r.

(** [m.group(1).strip().replace(',', '')] *)
Definition amount (g : string) : string := remove_char "," (strip g).

Definition extract_po_details (text : string) (r : result) : result :=
  let r := on_match "(?:PO|Purchase Order|Order)[\s#:]+([A-Za-z0-9\-]+)"
             Re.I text 1 (fun g => set_po "PO Number" (strip g)) r in
  let r := on_match "(?:Date|Created|Order Date)[\s:]+(\d{1,2}[\/\-\.]\d{1,2}[\/\-\.]\d{2,4})"
             Re.I text 1 (fun g => set_po "Creation Date" (strip g)) r in
  let r := on_match "(?:Due Date|Delivery Date|Required by)[\s:]+(\d{1,2}[\/\-\.]\d{1,2}[\/\-\.]\d{2,4})"
             Re.I text 1 (fun g => set_po "Due Date" (strip g)) r in
  let r := on_match "(?:Terms|Payment Terms)[\s:]+([A-Za-z0-9\s]+)"
             Re.I text 1 (fun g => set_po "Payment Terms" (strip g)) r in
  let r := on_match "(?:Total|Grand Total|Amount)[\s:]+[\$£€]?\s*([0-9,]+\.[0-9]{2})"
             Re.I text 1 (fun g => set_po "Total Amount" (amount g)) r in
  let r := on_match "(?:Subtotal|Sub-total|Net)[\s:]+[\$£€]?\s*([0-9,]+\.[0-9]{2})"
             Re.I text 1 (fun g => set_po "Subtotal" (amount g)) r in
  let r := on_match "(?:Tax|VAT|GST)[\s:]+[\$£€]?\s*([0-9,]+\.[0-9]{2})"
             Re.I text 1 (fun g => set_po "Tax" (amount g)) r in
  let r := on_match "(?:Shipping|Freight|Delivery)[\s:]+[\$£€]?\s*([0-9,]+\.[0-9]{2})"
             Re.I text 1 (fun g => set_po "Shipping" (amount g)) r in
  let r := on_match "(?:Comments|Notes|Instructions)[\s:]+(.+?)(?:\n\n|\Z)"
             Re.IS text 1 (fun g => set_po "Comments" (strip g)) r in
  r.

Definition extract_shipping_info (text : string) (r : result) : result :=
  let r := on_match "(?:Ship To|Deliver To)[\s:]+([A-Za-z0-9\s.,&]+?)(?:\n|,|\s{2,}|$)"
             Re.I text 1 (fun g => set_ship "name" (strip g)) r in
  let r := on_match "(?:Ship To Address|Delivery Address)[\s:]+([A-Za-z0-9\s.,#\-]+(?:[A-Za-z]{2,}\s+\d{5,}))"
             Re.I text 1 (fun g => set_ship "address" (strip g)) r in
  let r := on_match "(?:Ship To Phone|Delivery Phone)[\s:]+(\+?[0-9\s\(\)\-\.]{7,20})"
             Re.I text 1 (fun g => set_ship "phone" (strip g)) r in
  r.

Definition extract_from_text (text : string) (r : result) : result :=
  let r := extract_client_info text r in
  let r := extract_po_details text r in
  let r := extract_shipping_info text r in
  r.

(** the patterns of the module, for the check that each one compiles *)
Definition patterns : list string := [
  "(?:Client|Customer|Bill To|Sold To)[\s:]+([A-Za-z0-9\s.,&]+?)(?:\n|,|\s{2,}|$)";
  "(?:Phone|Tel|Telephone)[\s:]+(\+?[0-9\s\(\)\-\.]{7,20})";
  "[A-Za-z0-9._%+-]+@[A-Za-z0-9.-]+\.[A-Za-z]{2,}";
  "(?:Address|Location)[\s:]+([A-Za-z0-9\s.,#\-]+(?:[A-Za-z]{2,}\s+\d{5,}))";
  "(?:PO|Purchase Order|Order)[\s#:]+([A-Za-z0-9\-]+)";
  "(?:Date|Created|Order Date)[\s:]+(\d{1,2}[\/\-\.]\d{1,2}[\/\-\.]\d{2,4})";
  "(?:Due Date|Delivery Date|Required by)[\s:]+(\d{1,2}[\/\-\.]\d{1,2}[\/\-\.]\d{2,4})";
  "(?:Terms|Payment Terms)[\s:]+([A-Za-z0-9\s]+)";
  "(?:Total|Grand Total|Amount)[\s:]+[\$£€]?\s*([0-9,]+\.[0-9]{2})";
  "(?:Subtotal|Sub-total|Net)[\s:]+[\$£€]?\s*([0-9,]+\.[0-9]{2})";
  "(?:Tax|VAT|GST)[\s:]+[\$£€]?\s*([0-9,]+\.[0-9]{2})";
  "(?:Shipping|Freight|Delivery)[\s:]+[\$£€]?\s*([0-9,]+\.[0-9]{2})";
  "(?:Comments|Notes|Instructions)[\s:]+(.+?)(?:\n\n|\Z)";
  "(?:Ship To|Deliver To)[\s:]+([A-Za-z0-9\s.,&]+?)(?:\n|,|\s{2,}|$)";
  "(?:Ship To Address|Delivery Address)[\s:]+([A-Za-z0-9\s.,#\-]+(?:[A-Za-z]{2,}\s+\d{5,}))";
  "(?:Ship To Phone|Delivery Phone)[\s:]+(\+?[0-9\s\(\)\-\.]{7,20})"
].

Definition item_keywords : list string := ["item"; "product"; "description"; "part"; "sku"].
Definition code_keywords : list string := ["code"; "sku"; "part number"; "item number"; "id"].
Definition qty_keywords : list string := ["qty"; "quantity"; "amount"; "units"].
Definition price_keywords : list string := ["price"; "rate"; "unit price"; "cost"].
Definition total_keywords : list string := ["total"; "amount"; "line total"; "extended"].

(** [[str(col).lower() for col in df.iloc[0]]] *)
Definition header_row (df : Pandas.frame) : list string :=
  match df with
  | row :: _ => map (fun col => lower (Pandas.str_cell col)) row
  | [] => []
  end.

Definition is_line_items_table (df : Pandas.frame) : bool :=
  if Pandas.empty df || (Pandas.columns df <? 3) then false
  else
    let headers := header_row df in
    let has_item := existsb (any_in item_keywords) headers in
    let has_qty := existsb (any_in qty_keywords) headers in
    let has_price := existsb (any_in price_keywords) headers in
    has_item && has_qty && has_price.

(** the index of the first header that contains one of the keywords *)
Fixpoint find_from (i : nat) (headers : list string) (keywords : list string) : option nat :=
  match headers with
  | header :: rest => if any_in keywords header then Some i else find_from (S i) rest keywords
  | [] => None
  end.

Definition find_column_index (headers keywords : list string) : option nat :=
  find_from 0 headers keywords.

(** [row[col]] under the guard [col is not None and col < len(row)] *)
Definition at_column (col : option nat) (row : list Pandas.cell) : option Pandas.cell :=
  match col with
  | Some i => if i <? length row then row !! i else None
  | None => None
  end.

Definition digit_or_dot (c : ascii) : bool := is_digit c || Ascii.eqb c ".".

(** [s = re.sub(r'[^\d.]', '', str(cell).strip())] and then
    [float(s)] if [s] is not empty *)
Definition number_of_cell (c : Pandas.cell) : outcome (option pynum) :=
  let s := keep digit_or_dot (strip (Pandas.str_cell c)) in
  if is_empty s then Returns None
  else match float_of_str s with
       | Some f => Returns (Some (PFloat f))
       | None => Raises ValueError
       end.

Definition number_at (col : option nat) (row : list Pandas.cell) : outcome (option pynum) :=
  match at_column col row with
  | Some c => number_of_cell c
  | None => Returns None
  end.

Definition text_at (col : option nat) (row : list Pandas.cell) : option string :=
  option_map (fun c => strip (Pandas.str_cell c)) (at_column col row).

(** [all(str(cell).strip() == '' for cell in row)] *)
Definition blank_row (row : list Pandas.cell) : bool :=
  forallb (fun c => is_empty (strip (Pandas.str_cell c))) row.

(** The columns found in the header *)
Record columns : Type := Columns {
  item_col : option nat;
  code_col : option nat;
  qty_col : option nat;
  price_col : option nat;
  total_col : option nat
}.

Definition find_columns (headers : list string) : columns :=
  Columns (find_column_index headers item_keywords)
          (find_column_index headers code_keywords)
          (find_column_index headers qty_keywords)
          (find_column_index headers price_keywords)
          (find_column_index headers total_keywords).

(** the dictionary built from one row, before the test that retains it *)
Definition row_item (cols : columns) (row : list Pandas.cell) : outcome line_item :=
  let description := text_at (item_col cols) row in
  let item_code := text_at (code_col cols) row in
  do quantity <- number_at (qty_col cols) row;
  do unit_price <- number_at (price_col cols) row;
  do total <- number_at (total_col cols) row;
  let total_price :=
    match quantity, unit_price, total with
    | Some q, Some p, None => Some (mul q p)
    | _, _, _ => total
    end in
  Returns (LineItem description item_code quantity unit_price total_price).

(** [('description' in line_item or 'item_code' in line_item) and
    'quantity' in line_item] *)
Definition retained (it : line_item) : bool :=
  (bool_decide (is_Some (description it)) || bool_decide (is_Some (item_code it)))
  && bool_decide (is_Some (quantity it)).

(** the body of the loop over the rows *)
Definition process_row (cols : columns) (row : list Pandas.cell) (r : result) : outcome result :=
  if blank_row row then Returns r
  else
    do it <- row_item cols row;
    Returns (if retained it then append_item it r else r).

Fixpoint process_rows (cols : columns) (rows : list (list Pandas.cell)) (r : result) : outcome result :=
  match rows with
  | [] => Returns r
  | row :: rows' => do r' <- process_row cols row r; process_rows cols rows' r'
  end.

(** [[str(col).lower() for col in df.columns]]: the labels 0, 1, ... *)
Definition column_labels (df : Pandas.frame) : list string :=
  map (fun i => lower (str_int (Z.of_nat i))) (seq 0 (Pandas.columns df)).

(** [# Skip header row if present]: the data rows and the headers *)
Definition data_and_headers (df : Pandas.frame) : Pandas.frame * list string :=
  if 1 <? length df then (drop 1 df, header_row df)
  else (df, column_labels df).

Definition extract_line_items (df : Pandas.frame) (r : result) : outcome result :=
  let '(data_df, headers) := data_and_headers df in
  process_rows (find_columns headers) data_df r.

Fixpoint extract_from_tables (tables : list table) (r : result) : outcome result :=
  match tables with
  | [] => Returns r
  | t :: tables' =>
      let df := Pandas.DataFrame t in
      do r' <- (if is_line_items_table df then extract_line_items df r else Returns r);
      extract_from_tables tables' r'
  end.

(** [float(s)] *)
Definition float (s : string) : outcome pyfloat :=
  match float_of_str s with
  | Some f => Returns f
  | None => Raises ValueError
  end.

(** the literal [0.085] *)
Definition tax_rate : pyfloat := float_of_decimal false 85 (-3).

Definition default_item : line_item :=
  LineItem (Some "Standard Product") (Some "DEFAULT001") (Some (PInt 1))
           (Some (PFloat (float_of_decimal false 10000 (-2))))
           (Some (PFloat (float_of_decimal false 10000 (-2)))).

(** [d[k] = v] unless [k in d] *)
Definition setdefault (k v : string) (d : dict) : dict :=
  match d !! k with
  | Some _ => d
  | None => <[k := v]> d
  end.

(** [# Ensure PO Number is present and in correct format] *)
Definition default_po_number (client : dict) (po : dict) : dict :=
  match po !! "PO Number", client !! "name" with
  | None, Some name => <["PO Number" := "PO-" +:+ prefix 5 (keep is_alnum name)]> po
  | _, _ => po
  end.

(** [# Calculate subtotal from line items if not present] *)
Definition default_subtotal (items : list line_item) (po : dict) : dict :=
  match po !! "Subtotal", items with
  | None, _ :: _ =>
      let subtotal := sum (map (fun item => default (PInt 0) (total_price item)) items) in
      <["Subtotal" := str (round2 subtotal)]> po
  | _, _ => po
  end.

(** [# Set default tax if not present (8.5%)] *)
Definition default_tax (po : dict) : outcome dict :=
  match po !! "Tax", po !! "Subtotal" with
  | None, Some s =>
      do subtotal <- float s;
      Returns (<["Tax" := str_float (fround2 (fmul subtotal tax_rate))]> po)
  | _, _ => Returns po
  end.

(** [# Calculate total amount if not present] *)
Definition default_total (po : dict) : outcome dict :=
  match po !! "Total Amount" with
  | None =>
      do subtotal <- float (default "0" (po !! "Subtotal"));
      do tax <- float (default "0" (po !! "Tax"));
      do shipping <- float (default "0" (po !! "Shipping"));
      Returns (<["Total Amount" := str_float (fround2 (fadd (fadd subtotal tax) shipping))]> po)
  | Some _ => Returns po
  end.

(** [# Calculate financial details if missing] *)
Definition complete_amounts (items : list line_item) (po : dict) : outcome dict :=
  let po := default_subtotal items po in
  do po <- default_tax po;
  let po := setdefault "Shipping" "75.00" po in
  default_total po.

(** [# Ensure we have at least one line item] *)
Definition ensure_item (items : list line_item) : list line_item :=
  match items with
  | [] => [default_item]
  | _ => items
  end.

Definition validate_and_clean_data (today : string) (r : result) : outcome result :=
  let po := default_po_number (client_info r) (po_details r) in
  let po := setdefault "Creation Date" today po in
  let po := setdefault "Due Date" today po in
  let po := setdefault "Payment Terms" "Net 30" po in
  do po <- complete_amounts (line_items r) po;
  Returns (Result (client_info r) po (ship_to r) (ensure_item (line_items r))).

Definition extract_data (today : string) (parsed_data : parsed_document) : outcome result :=
  let r := initial in
  let r :=
    match doc_text parsed_data with
    | Some text => extract_from_text text r
    | None => r
    end in
  do r <-
    match doc_tables parsed_data with
    | Some ((_ :: _) as tables) => extract_from_tables tables r
    | _ => Returns r
    end;
  validate_and_clean_data today r.

End Simplified.

(** ** [data_extractor.py]: the class [DataExtractor] *)

Module DataExtractor.
Import PyStr PyNum.

(** A value stored in the dictionaries: text, or a parsed amount *)
Inductive pyval : Type :=
| VStr (s : string)
| VNum (x : pynum).

Abbreviation vdict := (gmap string pyval).

(** [extracted_data] *)
Record data : Type := Data {
  client_info : vdict;
  po_details : vdict;
  ship_to : vdict;
  line_items : list vdict
}.

Definition empty_data : data := Data ∅ ∅ ∅ [].

Definition set_client (k : string) (v : pyval) (d : data) : data :=
  Data (<[k := v]> (client_info d)) (po_details d) (ship_to d) (line_items d).

Definition set_po (k : string) (v : pyval) (d : data) : data :=
  Data (client_info d) (<[k := v]> (po_details d)) (ship_to d) (line_items d).

Definition set_ship (k : string) (v : pyval) (d : data) : data :=
  Data (client_info d) (po_details d) (<[k := v]> (ship_to d)) (line_items d).

(** [for pattern in patterns: match = re.search(pattern, text, flags);
    if match: ...; break]: the first pattern that matches *)
Fixpoint first_match (patterns : list string) (text : string) (fl : Re.flags) : option Re.rmatch :=
  match patterns with
  | [] => None
  | pattern :: rest =>
      match Re.search pattern text fl with
      | Some m => Some m
      | None => first_match rest text fl
      end
  end.

(** [s.split('\n')] *)
Fixpoint split_lines (cur : list ascii) (l : list ascii) : list string :=
  match l with
  | [] => [of_chars (rev cur)]
  | c :: l' =>
      if Ascii.eqb c Re.newline then of_chars (rev cur) :: split_lines [] l'
      else split_lines (c :: cur) l'
  end.

Definition split_newline (s : string) : list string := split_lines [] (chars s).

(** [' '.join(parts)] *)
Fixpoint join_space (parts : list string) : string :=
  match parts with
  | [] => ""
  | [p] => p
  | p :: rest => p +:+ " " +:+ join_space rest
  end.

Fixpoint find_chars (i : nat) (sub l : list ascii) : option nat :=
  if starts_with sub l then Some i
  else match l with
       | [] => None
       | _ :: l' => find_chars (S i) sub l'
       end.

(** [s[s.find(sub):]]; [find] gives -1 when [sub] does not occur and
    the slice is then the last character *)
Definition from_first (sub s : string) : string :=
  let l := chars s in
  match find_chars 0 (chars sub) l with
  | Some i => of_chars (drop i l)
  | None => of_chars (drop (length l - 1) l)
  end.

Definition client_name_patterns : list string := [
  "(?:Client|Customer|Bill To|Sold To|Company)(?:\s*Name)?(?:\s*:)?\s*([A-Za-z0-9\s&.,]+)(?:\n|$)";
  "(?:TO|BILL TO|SOLD TO):\s*([A-Za-z0-9\s&.,]+)(?:\n|$)";
  "^([A-Za-z0-9\s&.,]+)(?:\n)(?:\d{1,3}[^@]*?)(?:\n|$)"
].

Definition phone_patterns : list string := [
  "(?:Phone|Tel|Telephone)(?:\s*:)?\s*((?:\+?\d{1,3}[-.\s]?)?\(?\d{3}\)?[-.\s]?\d{3}[-.\s]?\d{4})";
  "(?:\+?\d{1,3}[-.\s]?)?\(?\d{3}\)?[-.\s]?\d{3}[-.\s]?\d{4}"
].

Definition email_pattern : string := "[a-zA-Z0-9._%+-]+@[a-zA-Z0-9.-]+\.[a-zA-Z]{2,}".

Definition address_patterns : list string := [
  "(?:Address|Location)(?:\s*:)?\s*([A-Za-z0-9\s,.#-]+(?:\n[A-Za-z0-9\s,.#-]+){1,3})";
  "(?:BILL TO|SOLD TO):\s*(?:[A-Za-z0-9\s&.,]+)\n([A-Za-z0-9\s,.#-]+(?:\n[A-Za-z0-9\s,.#-]+){1,3})";
  "^\S+[^\n]+\n(\d+[^@\n]+(?:\n[A-Za-z0-9\s,.#-]+){0,2})"
].

Definition heading_pattern : string := "(invoice|purchase order|p\.?o\.?|quotation|estimate)".

(** the first of the first five lines that is longer than three
    characters and is no heading of a document *)
Fixpoint first_plain_line (lines : list string) : option string :=
  match lines with
  | [] => None
  | l :: rest =>
      let line := strip l in
      if negb (is_empty line) && (3 <? String.length line)
         && negb (bool_decide (is_Some (Re.search heading_pattern line Re.I)))
      then Some line
      else first_plain_line rest
  end.

(** [match.group(1)] when [match.lastindex] is at least 1, and
    [match.group(0)] otherwise *)
Definition group1_or_all (m : Re.rmatch) : string :=
  match Re.m_lastindex m with
  | Some (S _) => Re.group m 1
  | _ => Re.group m 0
  end.

Definition has_text (k : string) (d : vdict) : bool :=
  match d !! k with
  | Some (VStr s) => negb (is_empty s)
  | Some (VNum _) => true
  | None => false
  end.

Definition _extract_client_info (text : string) (d : data) : data :=
  let d :=
    match first_match client_name_patterns text Re.IM with
    | Some m => set_client "name" (VStr (strip (Re.group m 1))) d
    | None => d
    end in
  let d :=
    if has_text "name" (client_info d) then d
    else match first_plain_line (take 5 (split_newline text)) with
         | Some line => set_client "name" (VStr line) d
         | None => d
         end in
  let d :=
    match first_match phone_patterns text Re.I with
    | Some m => set_client "phone" (VStr (strip (group1_or_all m))) d
    | None => d
    end in
  let d :=
    match Re.search email_pattern text Re.no_flags with
    | Some m => set_client "email" (VStr (Re.group m 0)) d
    | None => d
    end in
  let d :=
    match first_match address_patterns text Re.IM with
    | Some m => set_client "address" (VStr (Re.collapse_spaces (strip (Re.group m 1)))) d
    | None => d
    end in
  d.

Definition ship_to_patterns : list string := [
  "(?:SHIP TO|Deliver To|Shipping Address)(?:\s*:)?\s*([A-Za-z0-9\s&.,]+)(?:\n)([A-Za-z0-9\s,.#-]+(?:\n[A-Za-z0-9\s,.#-]+){0,3})";
  "(?:SHIP TO|Deliver To|Shipping Address)(?:\s*:)?\s*([A-Za-z0-9\s&.,\n#-]+)"
].

Definition at_least_two (i : option nat) : bool :=
  match i with
  | Some (S (S _)) => true
  | _ => false
  end.

Definition _extract_ship_to (text : string) (d : data) : data :=
  let d :=
    match first_match ship_to_patterns text Re.IM with
    | Some m =>
        if at_least_two (Re.m_lastindex m) then
          let d := set_ship "name" (VStr (strip (Re.group m 1))) d in
          set_ship "address" (VStr (Re.collapse_spaces (strip (Re.group m 2)))) d
        else
          match split_newline (strip (Re.group m 1)) with
          | [] => d
          | first :: others =>
              let d := set_ship "name" (VStr (strip first)) d in
              match others with
              | [] => d
              | _ => set_ship "address" (VStr (join_space others)) d
              end
          end
    | None => d
    end in
  match ship_to d !! "name" with
  | Some (VStr name) =>
      let ship_to_section := from_first name text in
      match first_match phone_patterns ship_to_section Re.I with
      | Some m => set_ship "phone" (VStr (strip (group1_or_all m))) d
      | None => d
      end
  | _ => d
  end.

Definition po_number_patterns : list string := [
  "(?:P\.?O\.?|Purchase Order)(?:\s*Number|\s*#|\s*No\.?)?\s*:?\s*([A-Za-z0-9-]+)";
  "(?:Order|Reference)(?:\s*Number|\s*#|\s*No\.?)?\s*:?\s*([A-Za-z0-9-]+)"
].

Definition creation_date_patterns : list string := [
  "(?:Date|Order Date|PO Date|Created|Creation Date)(?:\s*:)?\s*(\d{1,2}[-/]\d{1,2}[-/]\d{2,4})";
  "(?:Date|Order Date|PO Date|Created|Creation Date)(?:\s*:)?\s*(\d{1,2}\s+[A-Za-z]{3,}\s+\d{2,4})"
].

Definition due_date_patterns : list string := [
  "(?:Due Date|Delivery Date|Required Date|Need By)(?:\s*:)?\s*(\d{1,2}[-/]\d{1,2}[-/]\d{2,4})";
  "(?:Due Date|Delivery Date|Required Date|Need By)(?:\s*:)?\s*(\d{1,2}\s+[A-Za-z]{3,}\s+\d{2,4})"
].

Definition payment_terms_patterns : list string := [
  "(?:Payment Terms|Terms)(?:\s*:)?\s*(Net\s+\d+)";
  "(?:Payment Terms|Terms)(?:\s*:)?\s*([A-Za-z0-9\s]+)";
  "(?:Net|Due)\s+(\d+)"
].

Definition subtotal_patterns : list string := [
  "(?:Subtotal)(?:\s*:)?\s*\$?\s*(\d{1,3}(?:,\d{3})*(?:\.\d{2})?)";
  "(?:Subtotal)(?:\s*:)?\s*(\$\s*\d{1,3}(?:,\d{3})*(?:\.\d{2})?)"
].

Definition tax_patterns : list string := [
  "(?:Tax|Sales Tax)(?:\s*\(\d+(?:\.\d+)?%\))?(?:\s*:)?\s*\$?\s*(\d{1,3}(?:,\d{3})*(?:\.\d{2})?)";
  "(?:Tax|Sales Tax)(?:\s*\(\d+(?:\.\d+)?%\))?(?:\s*:)?\s*(\$\s*\d{1,3}(?:,\d{3})*(?:\.\d{2})?)"
].

Definition shipping_patterns : list string := [
  "(?:Shipping|Freight|Delivery)(?:\s*:)?\s*\$?\s*(\d{1,3}(?:,\d{3})*(?:\.\d{2})?)";
  "(?:Shipping|Freight|Delivery)(?:\s*:)?\s*(\$\s*\d{1,3}(?:,\d{3})*(?:\.\d{2})?)"
].

Definition total_patterns : list string := [
  "(?:Total|Grand Total|Order Total|TOTAL)(?:\s*:)?\s*\$?\s*(\d{1,3}(?:,\d{3})*(?:\.\d{2})?)";
  "(?:Total|Grand Total|Order Total|TOTAL)(?:\s*:)?\s*(\$\s*\d{1,3}(?:,\d{3})*(?:\.\d{2})?)"
].

Definition comment_patterns : list string := [
  "(?:Comments|Notes|Special Instructions|COMMENTS)(?:\s*:)?\s*([A-Za-z0-9\s,.#-]+(?:\n[A-Za-z0-9\s,.#-]+){0,3})";
  "(?:Comments|Notes|Special Instructions|COMMENTS)(?:\s*:)?\s*(.+)"
].

(** an amount: the first pattern that matches decides; its group,
    without [$] and commas, is stored when [float] accepts it and
    dropped on [ValueError] *)
Definition extract_amount (patterns : list string) (key : string) (text : string) (d : data) : data :=
  match first_match patterns text Re.I with
  | Some m =>
      let s := remove_char "," (remove_char "$" (strip (Re.group m 1))) in
      match float_of_str s with
      | Some f => set_po key (VNum (PFloat f)) d
      | None => d
      end
  | None => d
  end.

Definition extract_field (patterns : list string) (key : string) (text : string) (d : data) : data :=
  match first_match patterns text Re.I with
  | Some m => set_po key (VStr (strip (Re.group m 1))) d
  | None => d
  end.

Definition _extract_po_details (text : string) (d : data) : data :=
  let d :=
    match Re.search "PO-\d+" text Re.no_flags with
    | Some m => set_po "po_number" (VStr (Re.group m 0)) d
    | None => extract_field po_number_patterns "po_number" text d
    end in
  let d := extract_field creation_date_patterns "creation_date" text d in
  let d := extract_field due_date_patterns "due_date" text d in
  let d := extract_field payment_terms_patterns "payment_terms" text d in
  let d := extract_amount subtotal_patterns "subtotal" text d in
  let d := extract_amount tax_patterns "tax" text d in
  let d := extract_amount shipping_patterns "shipping" text d in
  d.

Definition _extract_order_total (text : string) (d : data) : data :=
  extract_amount total_patterns "total_amount" text d.

Definition _extract_comments (text : string) (d : data) : data :=
  match first_match comment_patterns text Re.IM with
  | Some m => set_po "comments" (VStr (strip (Re.group m 1))) d
  | None => d
  end.

Definition _extract_from_text (text : string) (d : data) : data :=
  let d := _extract_client_info text d in
  let d := _extract_po_details text d in
  let d := _extract_ship_to text d in
  let d := _extract_order_total text d in
  let d := _extract_comments text d in
  d.

(** the patterns of the class, for the check that each one compiles *)
Definition patterns : list string :=
  client_name_patterns ++ phone_patterns ++ [email_pattern] ++ address_patterns
  ++ [heading_pattern] ++ ship_to_patterns ++ ["PO-\d+"] ++ po_number_patterns
  ++ creation_date_patterns ++ due_date_patterns ++ payment_terms_patterns
  ++ subtotal_patterns ++ tax_patterns ++ shipping_patterns ++ total_patterns
  ++ comment_patterns.

Definition line_item_headers : list string :=
  ["item"; "code"; "description"; "qty"; "quantity"; "price"; "amount"; "total"].

(** [[str(cell).lower() for cell in table[0] if cell]] *)
Definition lowered_header (row : list string) : list string :=
  map lower (filter (fun cell => is_empty cell = false) row).

(** [sum(1 for header in line_item_headers
          if any(header in cell for cell in header_row))] *)
Definition header_match_count (header_row : list string) : nat :=
  length (filter (fun header => existsb (contains header) header_row = true) line_item_headers).

(** the first loop: the first table with rows whose first row holds
    three of the headers *)
Fixpoint first_with_headers (tables : list table) : option table :=
  match tables with
  | [] => None
  | t :: rest =>
      match t with
      | [] => first_with_headers rest
      | row0 :: _ =>
          if 3 <=? header_match_count (lowered_header row0) then Some t
          else first_with_headers rest
      end
  end.

(** the second loop, from [largest_table] and [max_rows] *)
Fixpoint largest_from (largest_table : option table) (max_rows : nat) (tables : list table) : option table :=
  match tables with
  | [] => largest_table
  | t :: rest =>
      if negb (bool_decide (t = [])) && (max_rows <? length t)
      then largest_from (Some t) (length t) rest
      else largest_from largest_table max_rows rest
  end.

Definition _find_line_items_table (tables : list table) : option table :=
  match first_with_headers tables with
  | Some t => Some t
  | None => largest_from None 0 tables
  end.

(** An address of an object of the store *)
Definition loc : Type := positive.

(** The attributes of an instance; [extracted_data] is a reference *)
Record instance : Type := Instance {
  parsed_data : option parsed_document;
  extracted_data : loc
}.

(** The dictionaries that were ever bound to [self.extracted_data] *)
Abbreviation store := (gmap loc data).

(** A method body working on [self.extracted_data]: the dictionary
    after it, and whether it returned *)
Definition method : Type := data -> data * outcome unit.

Section Methods.

(** The rest of [_extract_line_items], after the test on the number of
    rows, with [_find_column]: [data_extractor.py] breaks off in these
    lines. They are a parameter, given the table and, as a method,
    [self.parsed_data] and [self.extracted_data]. *)
Variable line_items_of_frame : table -> option parsed_document -> method.

(** [_validate_and_clean], which comes after the place where
    [data_extractor.py] breaks off: a parameter, given the current date
    and, as a method, [self.parsed_data] and [self.extracted_data]. *)
Variable _validate_and_clean : string -> option parsed_document -> method.

Definition _extract_line_items (t : table) (self_parsed : option parsed_document) : method :=
  fun d =>
    if bool_decide (t = []) || (length t <? 2) then (d, Returns tt)
    else line_items_of_frame t self_parsed d.

Definition _extract_from_tables (tables : list table) (self_parsed : option parsed_document) : method :=
  fun d =>
    match tables with
    | [] => (d, Returns tt)
    | _ =>
        match _find_line_items_table tables with
        | Some ((_ :: _) as line_items_table) =>
            _extract_line_items line_items_table self_parsed d
        | _ => (d, Returns tt)
        end
    end.

(** the body of [extract] after the two assignments *)
Definition extract_body (today : string) (parsed_data : parsed_document) : method :=
  fun d =>
    match doc_text parsed_data with
    | None => (d, Raises KeyError)
    | Some text =>
        let d := _extract_from_text text d in
        match doc_tables parsed_data with
        | None => (d, Raises KeyError)
        | Some tables =>
            match _extract_from_tables tables (Some parsed_data) d with
            | (d, Raises e) => (d, Raises e)
            | (d, Returns _) => _validate_and_clean today (Some parsed_data) d
            end
        end
    end.

(** [extract]: [self.extracted_data] is bound to a new dictionary, the
    methods fill it, and the reference is returned. *)
Definition extract (today : string) (parsed_data : parsed_document)
    (s : store) (self : instance) : store * instance * outcome loc :=
  let l := fresh (dom s) in
  let self := Instance (Some parsed_data) l in
  let '(d, o) := extract_body today parsed_data empty_data in
  (<[l := d]> s, self, match o with Returns _ => Returns l | Raises e => Raises e end).

End Methods.

(** [DataExtractor()] *)
Definition new (s : store) : store * instance :=
  let l := fresh (dom s) in
  (<[l := empty_data]> s, Instance None l).

End DataExtractor.

(** ** What a match is: a relation the matcher is sound for *)

Module ReSpec.
Import PyStr Re.

(** [matches fl r st st']: the expression [r] can take the state [st]
    to the state [st']; [repeats] chains iterations of a repetition. *)
Inductive matches (fl : flags) : regex -> mstate -> mstate -> Prop :=
| M_Empty st : matches fl Empty st st
| M_Lit c st st' :
    step_char st (lit_eq fl c) = Some st' -> matches fl (Lit c) st st'
| M_Any st st' :
    step_char st (fun c => dotall fl || negb (Ascii.eqb c newline)) = Some st' ->
    matches fl Any st st'
| M_CSet neg items st st' :
    step_char st (fun c => xorb neg (in_set fl items c)) = Some st' ->
    matches fl (CSet neg items) st st'
| M_Cat r1 r2 st st1 st2 :
    matches fl r1 st st1 -> matches fl r2 st1 st2 -> matches fl (Cat r1 r2) st st2
| M_AltL r1 r2 st st' : matches fl r1 st st' -> matches fl (Alt r1 r2) st st'
| M_AltR r1 r2 st st' : matches fl r2 st st' -> matches fl (Alt r1 r2) st st'
| M_Rep lo hi greedy r n st st' :
    repeats fl r n st st' -> lo <= n -> matches fl (Rep lo hi greedy r) st st'
| M_Group i r st st' :
    matches fl r st st' -> matches fl (Group i r) st (close_group i (pos st) st')
| M_Bol st : at_bol fl st = true -> matches fl Bol st st
| M_Eol st : at_eol fl st = true -> matches fl Eol st st
| M_EndZ st : rest st = [] -> matches fl EndZ st st
with repeats (fl : flags) : regex -> nat -> mstate -> mstate -> Prop :=
| R_zero r st : repeats fl r 0 st st
| R_more r n st st1 st2 :
    matches fl r st st1 -> repeats fl r n st1 st2 -> repeats fl r (S n) st st2.

(** the state describes a position of [text] *)
Definition at_text (text : list ascii) (st : mstate) : Prop :=
  rev (before st) ++ rest st = text /\ pos st = length (before st).

(** [st'] is [st] after reading the word [w] *)
Definition reads (w : list ascii) (st st' : mstate) : Prop :=
  rest st = w ++ rest st' /\ before st' = rev w ++ before st /\
  pos st' = pos st + length w.

(** the last factor of a concatenation *)
Fixpoint last_factor (r : regex) : regex :=
  match r with
  | Cat _ r2 => last_factor r2
  | _ => r
  end.

(** the group of the patterns for amounts: [([0-9,]+\.[0-9]{2})] *)
Definition amount_group : regex :=
  Group 1 (Cat (Rep 1 None true (CSet false [CRange "0" "9"; CChar ","]))
               (Cat (Lit ".") (Rep 2 (Some 2) true (CSet false [CRange "0" "9"])))).

End ReSpec.

(** ** Numerals: the strings [float] accepts *)

Module Numeral.
Import PyStr.

Definition digits (l : list ascii) : Prop := Forall (fun c => is_digit c = true) l.

(** the characters of a numeral *)
Definition numeric (c : ascii) : bool :=
  is_digit c || existsb (Ascii.eqb c) (chars ".e+-").

(** the exponent part of a numeral *)
Definition exponent_shape (ex : list ascii) : Prop :=
  ex = [] \/
  exists sg ds, ex = "e"%char :: sg ++ ds /\
    (sg = [] \/ sg = ["+"%char] \/ sg = ["-"%char]) /\ digits ds /\ ds <> [].

(** the fraction part of a numeral, [fp] being its digits *)
Definition fraction_shape (frac fp : list ascii) : Prop :=
  (frac = [] /\ fp = []) \/ (frac = "."%char :: fp /\ digits fp).

(** a decimal numeral: digits, a point, and at least one digit *)
Definition decimal_shape (l : list ascii) : Prop :=
  exists a b, l = a ++ "."%char :: b /\ digits a /\ digits b /\ b <> [].

End Numeral.

(** ** Notions the statements about the simplified extractor use *)

Module Spec.
Import PyStr PyNum Simplified.

(** the number a field of [po_details] stands for, 0 when it is absent *)
Definition amount_of (po : dict) (k : string) : pyfloat :=
  default (S754_zero false) (float_of_str (default "0" (po !! k))).

(** the subtotal the engine derives from the line items *)
Definition derived_subtotal (items : list line_item) : string :=
  str (round2 (sum (map (fun item => default (PInt 0) (total_price item)) items))).

(** the tax the engine derives from the subtotal of [po] *)
Definition derived_tax (po : dict) : string :=
  str_float (fround2 (fmul (amount_of po "Subtotal") tax_rate)).

(** the total the engine derives from the amounts of [po] *)
Definition derived_total (po : dict) : string :=
  str_float (fround2 (fadd (fadd (amount_of po "Subtotal") (amount_of po "Tax"))
                           (amount_of po "Shipping"))).

(** the fields [validate_and_clean_data] reads with [float] *)
Definition amount_keys : list string := ["Subtotal"; "Tax"; "Shipping"].

(** every amount of the dictionary is a numeral *)
Definition numerals (po : dict) : Prop :=
  forall k v, k ∈ amount_keys -> po !! k = Some v -> is_Some (float_of_str v).

(** the fields [validate_and_clean_data] gives a default to *)
Definition defaultable : list string :=
  ["PO Number"; "Creation Date"; "Due Date"; "Payment Terms";
   "Subtotal"; "Tax"; "Shipping"; "Total Amount"].

(** a record with every defaultable field and a line item *)
Definition complete (r : result) : Prop :=
  Forall (fun k => is_Some (po_details r !! k)) defaultable /\ line_items r <> [].

(** [result['line_items']] extended by [items] *)
Definition add_items (items : list line_item) (r : result) : result :=
  Result (client_info r) (po_details r) (ship_to r) (line_items r ++ items).

Fixpoint map_outcome {A B} (f : A -> outcome B) (l : list A) : outcome (list B) :=
  match l with
  | [] => Returns []
  | x :: l' => do y <- f x; do ys <- map_outcome f l'; Returns (y :: ys)
  end.

(** the line items of a table: the dictionaries of its data rows that
    pass the test of retention, in the order of the rows *)
Definition table_items (t : table) : outcome (list line_item) :=
  let '(data_df, headers) := data_and_headers (Pandas.DataFrame t) in
  do its <- map_outcome (row_item (find_columns headers)) data_df;
  Returns (List.filter retained its).

(** the table passes [is_line_items_table] *)
Definition qualifies (t : table) : bool := is_line_items_table (Pandas.DataFrame t).

(** the line items of the qualifying tables, in the order of the tables *)
Fixpoint tables_items (tables : list table) : outcome (list line_item) :=
  match tables with
  | [] => Returns []
  | t :: tables' =>
      do x <- (if qualifies t then table_items t else Returns []);
      do xs <- tables_items tables';
      Returns (x ++ xs)
  end.

(** the header row holds a keyword of each of the three groups *)
Definition header_has_groups (row0 : list string) : bool :=
  let headers := map lower row0 in
  existsb (any_in item_keywords) headers
  && existsb (any_in qty_keywords) headers
  && existsb (any_in price_keywords) headers.

(** the cell is empty once reduced to digits and points, or a numeral *)
Definition converts (c : string) : bool := returns (number_of_cell (Some c)).

Definition cells_convert (tables : list table) : bool :=
  forallb (forallb (forallb converts)) tables.

(** the conversion of the cell of a frame returns *)
Definition cell_converts (c : Pandas.cell) : Prop :=
  exists x, number_of_cell c = Returns x.

(** the fields the text supplies *)
Definition found_in (text : string) : dict := po_details (extract_from_text text initial).

(** what the text stage keeps: the line items, and amounts that are
    numerals *)
Definition text_invariant (items : list line_item) (r : result) : Prop :=
  line_items r = items /\ numerals (po_details r).

End Spec.

(** ** Notions the statements about [DataExtractor] use *)

Module XSpec.
Import PyStr DataExtractor.

(** the first row of the table holds three of the headers *)
Definition meets_threshold (t : table) : bool :=
  match t with
  | row0 :: _ => 3 <=? header_match_count (lowered_header row0)
  | [] => false
  end.

(** the record behind the reference a call returned *)
Definition record_of (res : store * instance * outcome loc) : option data :=
  match res with
  | (s, _, Returns l) => s !! l
  | (_, _, Raises _) => None
  end.

Definition store_of (res : store * instance * outcome loc) : store := res.1.1.
Definition self_of (res : store * instance * outcome loc) : instance := res.1.2.

(** the record a call on [parsed_data] returns, from the document and
    the date alone, given the two methods that are parameters *)
Definition answer (line_items_of_frame : table -> option parsed_document -> method)
    (_validate_and_clean : string -> option parsed_document -> method)
    (today : string) (parsed_data : parsed_document) : option data :=
  match extract_body line_items_of_frame _validate_and_clean today parsed_data empty_data with
  | (d, Returns _) => Some d
  | (_, Raises _) => None
  end.

(** a method that does nothing *)
Definition no_op : option parsed_document -> method := fun _ d => (d, Returns tt).

End XSpec.

(** ** Documents and records of the examples *)

Module Examples.
Import PyStr PyNum Simplified.

(** a date, as [strftime('%m/%d/%Y')] prints it *)
Definition a_day : string := "11/03/2026".

Definition widget_table : table :=
  [["Item"; "Qty"; "Unit Price"]; ["Widget A"; "3"; "10.00"]].

Definition widget_item : line_item :=
  LineItem (Some "Widget A") None (Some (PFloat (float_of_Z 3)))
           (Some (PFloat (float_of_Z 10))) (Some (PFloat (float_of_Z 30))).

Definition widget_columns : columns := find_columns ["item"; "qty"; "unit price"].
Definition widget_row : list Pandas.cell := [Some "Widget A"; Some "3"; Some "10.00"].

(** a quantity that is no numeral once reduced to digits and points *)
Definition malformed_table : table :=
  [["Item"; "Qty"; "Unit Price"]; ["Widget A"; "1.2.3"; "10.00"]].

(** two columns, and the three keyword groups in the header row *)
Definition narrow_table : table := [["Item Qty"; "Price"]; ["Widget 3"; "10.00"]].

Definition notes_table : table := [["Date"; "Note"]; ["1 May"; "call back"]].
Definition dates_table : table := [["Date"; "Note"]; ["2 May"; "paid"]; ["3 May"; "sent"]].

(** a record with a client name and nothing else, and its completion *)
Definition acme : result := Result {["name" := "Acme Corp"]} ∅ None [].

Definition acme_completed : result :=
  Result {["name" := "Acme Corp"]}
         (<["PO Number" := "PO-AcmeC"]>
            (<["Creation Date" := a_day]> (<["Due Date" := a_day]>
               (<["Payment Terms" := "Net 30"]> (<["Shipping" := "75.00"]>
                  {["Total Amount" := "75.0"]})))))
         None [default_item].

(** a record with every defaultable field *)
Definition complete_record : result :=
  Result {["name" := "Acme Corp"]}
         (<["PO Number" := "PO-77"]>
            (<["Creation Date" := "01/02/2026"]> (<["Due Date" := "02/01/2026"]>
               (<["Payment Terms" := "Net 45"]> (<["Subtotal" := "30.0"]>
                  (<["Tax" := "2.55"]> (<["Shipping" := "12.00"]>
                     {["Total Amount" := "44.55"]})))))))
         None [widget_item].

(** a record with one line item and no amount *)
Definition widget_record : result := Result ∅ ∅ None [widget_item].

End Examples.

(** ** Notions the further statements use *)

Module Spec2.
Import PyStr PyNum Simplified Spec Numeral.

(** the amounts the text stage looks for *)
Definition amount_fields : list string := ["Total Amount"; "Subtotal"; "Tax"; "Shipping"].

(** the amounts of the dictionary are decimals *)
Definition decimals (po : dict) : Prop :=
  forall k v, k ∈ amount_fields -> po !! k = Some v -> decimal_shape (chars v).

(** the fields completion leaves populated in every record *)
Definition always_populated : list string :=
  ["Creation Date"; "Due Date"; "Payment Terms"; "Shipping"; "Total Amount"].

(** the cell, stripped and reduced to digits and points: the string
    handed to [float] *)
Definition reduced (c : Pandas.cell) : list ascii :=
  chars (keep digit_or_dot (strip (Pandas.str_cell c))).

(** the number of points *)
Definition points (l : list ascii) : nat :=
  length (List.filter (Ascii.eqb ".") l).

Definition has_digit (l : list ascii) : bool := existsb is_digit l.

(** the sign bit *)
Definition negative (f : pyfloat) : bool :=
  match f with
  | S754_zero s => s
  | S754_infinity s => s
  | S754_finite s _ _ => s
  | S754_nan => false
  end.

Definition is_nan (f : pyfloat) : bool :=
  match f with
  | S754_nan => true
  | _ => false
  end.

(** a keyword that starts with a character other than a digit *)
Definition lettered (keyword : string) : Prop :=
  exists c p, chars keyword = c :: p /\ is_digit c = false.

(** the float has no sign bit and is a number *)
Definition plain (f : pyfloat) : Prop := negative f = false /\ is_nan f = false.

(** a method that raises when it is called *)
Definition failing : option parsed_document -> DataExtractor.method :=
  fun _ d => (d, Raises ValueError).

(** a document with the key ['text'] and without the key ['tables'] *)
Definition without_tables (text : string) : parsed_document :=
  ParsedDocument (Some text) None.

End Spec2.

(** ** [sales_order_generator.py] *)

(** The dictionary [generate] returns, for the records of
    [simplified_data_extractor.py]: every key is present. *)
Module SalesOrder.
Import PyStr PyNum.

Record order : Type := Order {
  so_number : string;
  so_date : string;
  client_info : dict;
  po_details : dict;
  ship_to : dict;
  line_items : list Simplified.line_item
}.

End SalesOrder.

Module SalesOrderGenerator.
Import PyStr PyNum.

(** [self.config]: the three keys of the configuration *)
Record so_config : Type := Config {
  last_so_number : Z;
  so_prefix : string;
  so_number_format : string
}.

Definition default_config : so_config := Config 0 "SO-" "{prefix}{number:06d}".

(** The file at [config_path]: missing, there but not readable as JSON
    (or not readable at all), or holding a configuration with the three
    keys, as [json.dump] writes it. *)
Inductive file : Type :=
| Missing
| Unreadable
| Holds (c : so_config).

(** The file system, as far as the generator goes: the file, and
    whether opening it for writing succeeds. *)
Record files : Type := Files {
  config_file : file;
  writable : bool
}.

(** [_save_config]: an [IOError] is caught and the file is left alone *)
Definition _save_config (c : so_config) (fs : files) : files :=
  if writable fs then Files (Holds c) (writable fs) else fs.

Definition _load_config (fs : files) : so_config * files :=
  match config_file fs with
  | Holds c => (c, fs)
  | _ => (default_config, _save_config default_config fs)
  end.

Definition zfill (width : nat) (ds : list ascii) : list ascii :=
  repeat "0"%char (width - length ds) ++ ds.

(** [format(number, '06d')]: the sign counts in the width *)
Definition format_06d (number : Z) : list ascii :=
  match number with
  | Zneg p => "-"%char :: zfill 5 (N_digits (Npos p))
  | _ => zfill 6 (N_digits (Z.to_N number))
  end.

(** [fmt.format(prefix=prefix, number=number)], for the format the
    module writes; another format string is outside of this model
    ([None]). *)
Definition format (fmt prefix : string) (number : Z) : option string :=
  if String.eqb fmt "{prefix}{number:06d}"
  then Some (prefix +:+ of_chars (format_06d number))
  else None.

(** The attributes of an instance *)
Record generator : Type := Generator {
  config : so_config;
  so_number : option string
}.

(** [SalesOrderGenerator(config_path)] *)
Definition new (fs : files) : generator * files :=
  let '(c, fs) := _load_config fs in
  (Generator c None, fs).

Definition _generate_so_number (self : generator) (fs : files)
    : option (string * generator * files) :=
  let c := config self in
  let c := Config (last_so_number c + 1) (so_prefix c) (so_number_format c) in
  match format (so_number_format c) (so_prefix c) (last_so_number c) with
  | Some number => Some (number, Generator c (so_number self), _save_config c fs)
  | None => None
  end.

(** [for key, value in extracted_data['client_info'].items():
       client_info[key] = value] *)
Definition _generate_client_info (extracted_data : Simplified.result) : dict :=
  map_fold (fun key value client_info => <[key := value]> client_info) ∅
           (Simplified.client_info extracted_data).

(** [item.copy()] *)
Definition copy (item : Simplified.line_item) : Simplified.line_item :=
  Simplified.LineItem (Simplified.description item) (Simplified.item_code item)
    (Simplified.quantity item) (Simplified.unit_price item) (Simplified.total_price item).

Definition _generate_line_items (extracted_data : Simplified.result)
    : list Simplified.line_item :=
  match Simplified.line_items extracted_data with
  | [] => []
  | items => map copy items
  end.

(** [generate]; [today] is [datetime.datetime.now().strftime('%Y-%m-%d')] *)
Definition generate (today : string) (extracted_data : Simplified.result)
    (self : generator) (fs : files) : option (SalesOrder.order * generator * files) :=
  match _generate_so_number self fs with
  | Some (number, self, fs) =>
      let self := Generator (config self) (Some number) in
      let client_info := _generate_client_info extracted_data in
      let line_items := _generate_line_items extracted_data in
      Some (SalesOrder.Order number today client_info
              (Simplified.po_details extracted_data)
              (default ∅ (Simplified.ship_to extracted_data))
              line_items,
            self, fs)
  | None => None
  end.

(** [generate_sales_order(extracted_data, config_path)]: a new instance
    for every call *)
Definition generate_sales_order (today : string) (extracted_data : Simplified.result)
    (fs : files) : option (SalesOrder.order * files) :=
  let '(generator, fs) := new fs in
  match generate today extracted_data generator fs with
  | Some (sales_order, _, fs) => Some (sales_order, fs)
  | None => None
  end.

End SalesOrderGenerator.

(** ** [csv_exporter.py] *)

Module CSVExporter.
Import PyStr PyNum SalesOrder.

(** A value handed to the writer *)
Inductive value : Type :=
| Text (s : string)
| Number (x : pynum).

(** A file written: its name in [output_dir], the header and the rows *)
Record csv : Type := Csv {
  path : string;
  fieldnames : list string;
  rows : list (list value)
}.

(** [csv.DictWriter._dict_to_list]: a key of the row that is no field
    name raises [ValueError]; a field name the row lacks is written as
    the empty string *)
Definition _dict_to_list (fieldnames : list string) (rowdict : gmap string value)
    : outcome (list value) :=
  if forallb (fun key => bool_decide (key ∈ fieldnames)) (map fst (map_to_list rowdict))
  then Returns (map (fun key => default (Text "") (rowdict !! key)) fieldnames)
  else Raises ValueError.

Definition client_field_order : list string := [
  "so_number"; "so_date"; "client_name"; "client_phone"; "client_email";
  "client_address"; "po_number"; "creation_date"; "due_date"; "payment_terms";
  "subtotal"; "tax"; "shipping"; "total_amount"; "ship_to_name";
  "ship_to_address"; "ship_to_phone"; "comments"
].

Definition client_fields : list string := ["name"; "phone"; "email"; "address"].

Definition po_fields : list string := [
  "po_number"; "creation_date"; "due_date"; "payment_terms"; "subtotal"; "tax";
  "shipping"; "total_amount"; "comments"
].

Definition ship_to_fields : list string := ["name"; "address"; "phone"].

(** [d[field] if field in d else ''] *)
Definition field_or_blank (d : dict) (field : string) : value :=
  Text (default "" (d !! field)).

Definition _export_client_info (sales_order_data : order) : outcome (option csv) :=
  if bool_decide (client_info sales_order_data = ∅) then Returns None
  else
    let so_number := so_number sales_order_data in
    let output_path := "client_info_" +:+ so_number +:+ ".csv" in
    let client_info := client_info sales_order_data in
    let po_details := po_details sales_order_data in
    let ship_to := ship_to sales_order_data in
    let row_data : gmap string value := ∅ in
    let row_data :=
      foldl (fun row_data field =>
               <["client_" +:+ field := field_or_blank client_info field]> row_data)
            row_data client_fields in
    let row_data :=
      foldl (fun row_data field => <[field := field_or_blank po_details field]> row_data)
            row_data po_fields in
    let row_data :=
      foldl (fun row_data field =>
               <["ship_to_" +:+ field := field_or_blank ship_to field]> row_data)
            row_data ship_to_fields in
    let row_data := <["so_number" := Text so_number]> row_data in
    let row_data := <["so_date" := Text (so_date sales_order_data)]> row_data in
    let row_data :=
      foldl (fun row_data field =>
               match row_data !! field with
               | Some _ => row_data
               | None => <[field := Text ""]> row_data
               end)
            row_data client_field_order in
    do row <- _dict_to_list client_field_order row_data;
    Returns (Some (Csv output_path client_field_order [row])).

Definition item_field_order : list string := [
  "so_number"; "item_code"; "description"; "quantity"; "unit_price";
  "total_price"; "po_number"; "creation_date"; "due_date"
].

(** [item.get(field, '')] on the dictionary of a line item *)
Definition item_get (item : Simplified.line_item) (field : string) : value :=
  let text := fun o : option string => match o with Some s => Text s | None => Text "" end in
  let number := fun o : option pynum => match o with Some x => Number x | None => Text "" end in
  if String.eqb field "description" then text (Simplified.description item)
  else if String.eqb field "item_code" then text (Simplified.item_code item)
  else if String.eqb field "quantity" then number (Simplified.quantity item)
  else if String.eqb field "unit_price" then number (Simplified.unit_price item)
  else if String.eqb field "total_price" then number (Simplified.total_price item)
  else Text "".

(** [{field: item.get(field, '') for field in field_order}] and then
    [row_data['so_number'] = so_number] *)
Definition item_row_data (so_number : string) (item : Simplified.line_item)
    : gmap string value :=
  let row_data : gmap string value :=
    foldl (fun row_data field => <[field := item_get item field]> row_data)
          ∅ item_field_order in
  <["so_number" := Text so_number]> row_data.

(** [writer.writerows(rows_data)] *)
Fixpoint writerows (fieldnames : list string) (rows_data : list (gmap string value))
    : outcome (list (list value)) :=
  match rows_data with
  | [] => Returns []
  | row_data :: rest =>
      do row <- _dict_to_list fieldnames row_data;
      do rows <- writerows fieldnames rest;
      Returns (row :: rows)
  end.

Definition _export_line_items (sales_order_data : order) : outcome (option csv) :=
  match line_items sales_order_data with
  | [] => Returns None
  | line_items =>
      let so_number := so_number sales_order_data in
      let output_path := "line_items_" +:+ so_number +:+ ".csv" in
      let rows_data := map (item_row_data so_number) line_items in
      do rows <- writerows item_field_order rows_data;
      Returns (Some (Csv output_path item_field_order rows))
  end.

(** [export]: the two paths *)
Definition export (sales_order_data : order) : outcome (option csv * option csv) :=
  do client_info_path <- _export_client_info sales_order_data;
  do line_items_path <- _export_line_items sales_order_data;
  Returns (client_info_path, line_items_path).

End CSVExporter.

(** ** Notions the statements about the later stages use *)

Module Spec3.
Import PyStr PyNum SalesOrderGenerator SalesOrder CSVExporter.

(** the position of a field name in the header *)
Fixpoint index_of (field : string) (names : list string) : option nat :=
  match names with
  | [] => None
  | name :: rest =>
      if String.eqb name field then Some 0 else option_map S (index_of field rest)
  end.

(** the cell of a row under a field name *)
Definition cell (f : csv) (row : list value) (field : string) : option value :=
  match index_of field (fieldnames f) with
  | Some i => row !! i
  | None => None
  end.

(** the configuration an instance starts with *)
Definition starting_config (fs : files) : so_config := (_load_config fs).1.

(** the sales orders of successive calls of [generate_sales_order] *)
Fixpoint generate_all (today : string) (records : list Simplified.result) (fs : files)
    : option (list order) :=
  match records with
  | [] => Some []
  | extracted_data :: rest =>
      match generate_sales_order today extracted_data fs with
      | Some (sales_order, fs) =>
          option_map (cons sales_order) (generate_all today rest fs)
      | None => None
      end
  end.

(** the sales orders of successive calls of [generate] on one instance *)
Fixpoint generate_on (today : string) (records : list Simplified.result)
    (self : generator) (fs : files) : option (list order) :=
  match records with
  | [] => Some []
  | extracted_data :: rest =>
      match generate today extracted_data self fs with
      | Some (sales_order, self, fs) =>
          option_map (cons sales_order) (generate_on today rest self fs)
      | None => None
      end
  end.

(** the number issued for the counter value [number] *)
Definition number_for (c : so_config) (number : Z) : string :=
  so_prefix c +:+ of_chars (format_06d number).

(** the configuration after one more number *)
Definition bump (c : so_config) : so_config :=
  Config (last_so_number c + 1) (so_prefix c) (so_number_format c).

(** the sales order [generate] builds from a record and a number *)
Definition order_of (number today : string) (r : Simplified.result) : order :=
  Order number today (Simplified.client_info r) (Simplified.po_details r)
        (default ∅ (Simplified.ship_to r)) (Simplified.line_items r).

(** the keys the simplified extractor writes into [po_details] *)
Definition simplified_po_keys : list string := [
  "PO Number"; "Creation Date"; "Due Date"; "Payment Terms"; "Total Amount";
  "Subtotal"; "Tax"; "Shipping"; "Comments"
].

(** every key of the dictionary is in the list *)
Definition keys_in {V} (keys : list string) (d : gmap string V) : Prop :=
  forall k, is_Some (d !! k) -> k ∈ keys.

(** the row of the first file *)
Definition client_row (so : order) : list value :=
  [Text (so_number so); Text (so_date so);
   field_or_blank (client_info so) "name"; field_or_blank (client_info so) "phone";
   field_or_blank (client_info so) "email"; field_or_blank (client_info so) "address";
   field_or_blank (po_details so) "po_number";
   field_or_blank (po_details so) "creation_date";
   field_or_blank (po_details so) "due_date";
   field_or_blank (po_details so) "payment_terms";
   field_or_blank (po_details so) "subtotal"; field_or_blank (po_details so) "tax";
   field_or_blank (po_details so) "shipping";
   field_or_blank (po_details so) "total_amount";
   field_or_blank (ship_to so) "name"; field_or_blank (ship_to so) "address";
   field_or_blank (ship_to so) "phone"; field_or_blank (po_details so) "comments"].

(** the row of a line item in the second file *)
Definition item_row (so_number : string) (item : Simplified.line_item) : list value :=
  [Text so_number; item_get item "item_code"; item_get item "description";
   item_get item "quantity"; item_get item "unit_price"; item_get item "total_price";
   Text ""; Text ""; Text ""].

(** the columns of the second file that no key of a line item feeds *)
Definition unfed_columns : list string := ["po_number"; "creation_date"; "due_date"].

(** the fields of [po_details] that [DataExtractor] parses as amounts *)
Definition class_amounts : list string := ["subtotal"; "tax"; "shipping"; "total_amount"].

(** an amount holds a float, and every other field holds text *)
Definition typed (po : DataExtractor.vdict) : Prop :=
  forall k v, po !! k = Some v ->
    if bool_decide (k ∈ class_amounts)
    then exists f, v = DataExtractor.VNum (PFloat f)
    else exists s, v = DataExtractor.VStr s.

(** what the text methods of [DataExtractor] keep: the keys are columns
    of the first file, the fields are typed, and no line item is added *)
Definition text_shape (d : DataExtractor.data) : Prop :=
  keys_in client_fields (DataExtractor.client_info d) /\
  keys_in po_fields (DataExtractor.po_details d) /\
  keys_in ship_to_fields (DataExtractor.ship_to d) /\
  typed (DataExtractor.po_details d) /\
  DataExtractor.line_items d = [].

End Spec3.

(** * Proofs *)

Module ReFacts.
Import PyStr Re ReSpec.

Lemma or_else_Some {A} (x y : option A) a :
  or_else x y = Some a -> x = Some a \/ y = Some a.
Proof. destruct x; simpl; auto. Qed.

Lemma rep_loop_sound {A} fl r (k : mstate -> option A) lo hi greedy :
  (forall st (k' : mstate -> option A) a, run fl r st k' = Some a ->
     exists st', matches fl r st st' /\ k' st' = Some a) ->
  forall fuel cnt st a,
    rep_loop (run fl r) k lo hi greedy fuel cnt st = Some a ->
    exists n st', repeats fl r n st st' /\ lo <= cnt + n /\ k st' = Some a.
Proof.
  intros IH fuel. induction fuel as [|fuel IHf]; intros cnt st a H; simpl in H.
  - discriminate.
  - assert (Hmore :
      (if may_repeat cnt hi
       then run fl r st (fun st' =>
              if (cnt <? lo) || (pos st <? pos st')
              then rep_loop (run fl r) k lo hi greedy fuel (S cnt) st' else None)
       else None) = Some a ->
      exists n st', repeats fl r n st st' /\ lo <= cnt + n /\ k st' = Some a).
    { destruct (may_repeat cnt hi); [|discriminate].
      intros Hr. apply IH in Hr as (st1 & Hm & Hk).
      destruct ((cnt <? lo) || (pos st <? pos st1)); [|discriminate].
      apply IHf in Hk as (n & st2 & Hrep & Hlo & Hk).
      exists (S n), st2. split; [econstructor; eauto|]. split; [lia|done]. }
    assert (Hstop :
      (if lo <=? cnt then k st else None) = Some a ->
      exists n st', repeats fl r n st st' /\ lo <= cnt + n /\ k st' = Some a).
    { destruct (lo <=? cnt) eqn:E; [|discriminate].
      apply Nat.leb_le in E. intros Hk. exists 0, st.
      split; [constructor|]. split; [lia|done]. }
    destruct greedy; apply or_else_Some in H as [H|H]; auto.
Qed.

Lemma run_sound {A} fl r :
  forall st (k : mstate -> option A) a,
    run fl r st k = Some a -> exists st', matches fl r st st' /\ k st' = Some a.
Proof.
  induction r as [| c | | neg items | r1 IH1 r2 IH2 | r1 IH1 r2 IH2
                 | lo hi greedy r IH | i r IH | | |];
    intros st k a H; simpl in H.
  - exists st. split; [constructor|done].
  - destruct (step_char st (lit_eq fl c)) as [st'|] eqn:E; [|discriminate].
    exists st'. split; [by constructor|done].
  - destruct (step_char st _) as [st'|] eqn:E; [|discriminate].
    exists st'. split; [by constructor|done].
  - destruct (step_char st _) as [st'|] eqn:E; [|discriminate].
    exists st'. split; [by constructor|done].
  - apply IH1 in H as (st1 & Hm1 & H). apply IH2 in H as (st2 & Hm2 & H).
    exists st2. split; [econstructor; eauto|done].
  - apply or_else_Some in H as [H|H].
    + apply IH1 in H as (st' & Hm & H). exists st'. split; [by apply M_AltL|done].
    + apply IH2 in H as (st' & Hm & H). exists st'. split; [by apply M_AltR|done].
  - eapply rep_loop_sound in H as (n & st' & Hrep & Hlo & Hk); [|exact IH].
    exists st'. split; [econstructor; eauto|done].
  - apply IH in H as (st' & Hm & H).
    exists (close_group i (pos st) st'). split; [by constructor|done].
  - destruct (at_bol fl st) eqn:E; [|discriminate].
    exists st. split; [by constructor|done].
  - destruct (at_eol fl st) eqn:E; [|discriminate].
    exists st. split; [by constructor|done].
  - destruct (rest st) eqn:E; [|discriminate].
    exists st. split; [by constructor|done].
Qed.

End ReFacts.

Module StrFacts.
Import PyStr PyNum Numeral.

Lemma chars_of_chars l : chars (of_chars l) = l.
Proof. apply list_ascii_of_string_of_list_ascii. Qed.

Lemma of_chars_chars s : of_chars (chars s) = s.
Proof. apply string_of_list_ascii_of_string. Qed.

Lemma drop_while_head p c l : p c = false -> drop_while p (c :: l) = c :: l.
Proof. intros H. simpl. by rewrite H. Qed.

(** a list without white space is left alone by [strip] *)
Lemma strip_chars_id l :
  Forall (fun c => is_space c = false) l -> strip_chars l = l.
Proof.
  intros H. unfold strip_chars.
  assert (Hd : forall l', Forall (fun c => is_space c = false) l' ->
                 drop_while is_space l' = l').
  { intros [|c l'] Hl; [done|]. inversion Hl; subst. by apply drop_while_head. }
  rewrite (Hd l H), Hd, rev_involutive; [done|].
  apply Forall_rev. exact H.
Qed.

Lemma span_digits_app ds c r :
  Forall (fun c => is_digit c = true) ds -> is_digit c = false ->
  span_digits (ds ++ c :: r) = (ds, c :: r).
Proof.
  intros Hds Hc. induction Hds as [|d ds Hd _ IH]; simpl.
  - by rewrite Hc.
  - by rewrite Hd, IH.
Qed.

Lemma span_digits_all ds :
  Forall (fun c => is_digit c = true) ds -> span_digits ds = (ds, []).
Proof.
  intros Hds. induction Hds as [|d ds Hd _ IH]; simpl; [done|].
  by rewrite Hd, IH.
Qed.

Lemma numeric_facts c :
  numeric c = true ->
  is_space c = false /\ Ascii.eqb c "_" = false /\ lower_char c = c.
Proof.
  destruct c as [[] [] [] [] [] [] [] []]; vm_compute; intros H;
    first [discriminate H | done].
Qed.

Lemma digit_numeric c : is_digit c = true -> numeric c = true.
Proof. unfold numeric. by intros ->. Qed.

Lemma digit_facts c :
  is_digit c = true ->
  Ascii.eqb c "-" = false /\ Ascii.eqb c "+" = false /\ Ascii.eqb c "." = false
  /\ Ascii.eqb c "i" = false /\ Ascii.eqb c "n" = false
  /\ Ascii.eqb (lower_char c) "e" = false.
Proof.
  destruct c as [[] [] [] [] [] [] [] []]; vm_compute; intros H;
    first [discriminate H | done].
Qed.

Lemma drop_underscores_id l b :
  Forall (fun c => numeric c = true) l -> drop_underscores b l = Some l.
Proof.
  intros H. revert b. induction H as [|c l Hc _ IH]; intros b; simpl; [done|].
  destruct (numeric_facts c Hc) as (_ & -> & _). by rewrite IH.
Qed.

Lemma map_lower_numeric l :
  Forall (fun c => numeric c = true) l -> map lower_char l = l.
Proof.
  induction 1 as [|c l Hc _ IH]; simpl; [done|].
  destruct (numeric_facts c Hc) as (_ & _ & ->). by rewrite IH.
Qed.


Lemma parse_exponent_ok ex :
  exponent_shape ex -> is_Some (parse_exponent ex).
Proof.
  intros [->|(sg & ds & -> & Hsg & Hds & Hne)]; [by eexists|].
  unfold parse_exponent. change (Ascii.eqb (lower_char "e") "e") with true. cbv iota.
  assert (Hsp : exists neg, split_sign (sg ++ ds) = (neg, ds)).
  { destruct Hsg as [->|[->| ->]]; [|by eexists|by eexists].
    destruct Hds as [|d ds Hd _]; [done|]. simpl.
    destruct (digit_facts d Hd) as (-> & -> & _). by eexists. }
  destruct Hsp as (neg & ->). rewrite (span_digits_all ds Hds).
  destruct ds; [done|]. by eexists.
Qed.

Lemma exponent_head ex :
  exponent_shape ex -> ex = [] \/ exists r, ex = "e"%char :: r.
Proof. intros [->|(sg & ds & -> & _)]; [by left|right; by eexists]. Qed.

Lemma parse_decimal_ok neg ip frac fp ex :
  digits ip -> fraction_shape frac fp -> ip ++ fp <> [] -> exponent_shape ex ->
  is_Some (parse_decimal neg (ip ++ frac ++ ex)).
Proof.
  intros Hip Hfrac Hne Hex. unfold parse_decimal.
  pose proof (parse_exponent_ok ex Hex) as [e He].
  destruct Hfrac as [[-> ->]|[-> Hfp]]; simpl.
  - rewrite app_nil_r in Hne.
    destruct (exponent_head ex Hex) as [->|[r ->]].
    + rewrite app_nil_r, (span_digits_all ip Hip), app_nil_r.
      destruct ip; [done|]. by eexists.
    + rewrite (span_digits_app ip "e" r Hip eq_refl).
      change (Ascii.eqb "e" ".") with false. cbv iota. rewrite app_nil_r, He.
      destruct ip; [done|]. by eexists.
  - rewrite (span_digits_app ip "." (fp ++ ex) Hip eq_refl).
    change (Ascii.eqb "." ".") with true. cbv iota.
    destruct (exponent_head ex Hex) as [->|[r ->]].
    + rewrite app_nil_r, (span_digits_all fp Hfp).
      destruct (ip ++ fp) eqn:E; [done|]. by eexists.
    + rewrite (span_digits_app fp "e" r Hfp eq_refl), He.
      destruct (ip ++ fp) eqn:E; [done|]. by eexists.
Qed.

Lemma digits_numeric l : digits l -> Forall (fun c => numeric c = true) l.
Proof.
  intros H. eapply Forall_impl; [exact H|]. intros c. apply digit_numeric.
Qed.

Lemma fraction_numeric frac fp :
  fraction_shape frac fp -> Forall (fun c => numeric c = true) frac.
Proof.
  intros [[-> _]|[-> H]]; [constructor|].
  constructor; [done|by apply digits_numeric].
Qed.

Lemma exponent_numeric ex :
  exponent_shape ex -> Forall (fun c => numeric c = true) ex.
Proof.
  intros [->|(sg & ds & -> & Hsg & Hds & _)]; [constructor|].
  constructor; [done|]. apply Forall_app. split; [|by apply digits_numeric].
  destruct Hsg as [->|[->| ->]]; repeat constructor.
Qed.

Lemma not_word c l w :
  Ascii.eqb c "i" = false -> Ascii.eqb c "n" = false ->
  w = "inf" \/ w = "infinity" \/ w = "nan" ->
  String.eqb (of_chars (c :: l)) w = false.
Proof.
  intros Hi Hn [->|[->| ->]]; simpl; by rewrite ?Hi, ?Hn.
Qed.

(** [float] accepts an unsigned or negated numeral *)
Lemma float_of_str_numeral (neg : bool) ip frac fp ex :
  digits ip -> fraction_shape frac fp -> ip ++ fp <> [] -> exponent_shape ex ->
  is_Some (float_of_str (of_chars ((if neg then ["-"%char] else []) ++ ip ++ frac ++ ex))).
Proof.
  intros Hip Hfrac Hne Hex.
  set (body := ip ++ frac ++ ex).
  assert (Hnum : Forall (fun c => numeric c = true) body).
  { unfold body. rewrite !Forall_app.
    split; [by apply digits_numeric|].
    split; [by eapply fraction_numeric|by apply exponent_numeric]. }
  assert (Hhead : exists c l, body = c :: l /\ Ascii.eqb c "-" = false /\
            Ascii.eqb c "+" = false /\ Ascii.eqb c "i" = false /\ Ascii.eqb c "n" = false).
  { unfold body. destruct Hip as [|d ip Hd Hip].
    - destruct Hfrac as [[-> ->]|[-> _]]; [done|]. simpl. by eexists _, _.
    - destruct (digit_facts d Hd) as (? & ? & _ & ? & ? & _). simpl.
      eexists _, _. split; [reflexivity|]. auto. }
  destruct Hhead as (c & l & Hbody & Hm & Hp & Hi & Hn).
  unfold float_of_str. rewrite chars_of_chars.
  rewrite strip_chars_id.
  2:{ apply Forall_app. split.
      - destruct neg; repeat constructor.
      - eapply Forall_impl; [exact Hnum|]. intros x Hx. by apply numeric_facts. }
  assert (Hsplit : split_sign ((if neg then ["-"%char] else []) ++ body) = (neg, body)).
  { destruct neg; [done|]. simpl. rewrite Hbody. simpl. by rewrite Hm, Hp. }
  fold body. rewrite Hsplit. rewrite (map_lower_numeric body Hnum).
  assert (Hw : forall w, w = "inf" \/ w = "infinity" \/ w = "nan" ->
                String.eqb (of_chars body) w = false).
  { intros w Hw. rewrite Hbody. by apply not_word. }
  rewrite !Hw by auto. simpl.
  rewrite (drop_underscores_id body false Hnum).
  by apply (parse_decimal_ok neg ip frac fp ex).
Qed.

Lemma float_of_str_decimal l :
  decimal_shape l -> is_Some (float_of_str (of_chars l)).
Proof.
  intros (a & b & -> & Ha & Hb & Hne).
  replace (a ++ "."%char :: b) with ([] ++ a ++ ("."%char :: b) ++ [])
    by (simpl; by rewrite app_nil_r).
  apply (float_of_str_numeral false a ("."%char :: b) b []).
  - exact Ha.
  - right. by split.
  - destruct b; [done|]. by destruct a.
  - by left.
Qed.


Lemma digit_char_digit d : d < 10 -> is_digit (digit_char d) = true.
Proof.
  intros H. do 10 (destruct d as [|d]; [done|]). lia.
Qed.

Lemma pos_digits_digits fuel n acc :
  digits acc -> digits (pos_digits fuel n acc).
Proof.
  revert n acc. induction fuel as [|fuel IH]; intros n acc Hacc; simpl; [done|].
  assert (Hd : is_digit (digit_char (N.to_nat (n mod 10))) = true).
  { apply digit_char_digit. pose proof (N.mod_lt n 10). lia. }
  destruct (n <? 10)%N; [by constructor|].
  apply IH. by constructor.
Qed.

Lemma pos_digits_nonempty fuel n acc :
  acc <> [] -> pos_digits fuel n acc <> [].
Proof.
  revert n acc. induction fuel as [|fuel IH]; intros n acc Hacc; simpl; [done|].
  destruct (n <? 10)%N; [done|]. by apply IH.
Qed.

Lemma N_digits_digits n : digits (N_digits n).
Proof. apply pos_digits_digits. constructor. Qed.

Lemma N_digits_nonempty n : N_digits n <> [].
Proof.
  unfold N_digits. simpl. destruct (n <? 10)%N; [done|].
  by apply pos_digits_nonempty.
Qed.

Lemma zeros_digits n : digits (zeros n).
Proof. unfold zeros. induction n; simpl; by constructor. Qed.

Lemma two_digits_digits n : digits (two_digits n) /\ two_digits n <> [].
Proof.
  unfold two_digits. destruct (n <? 10)%N.
  - split; [|done]. constructor; [done|apply N_digits_digits].
  - split; [apply N_digits_digits|apply N_digits_nonempty].
Qed.

(** the layouts of [repr] are numerals *)
Lemma layout_numeral ds decpt :
  digits ds -> ds <> [] ->
  exists ip frac fp ex,
    layout ds decpt = ip ++ frac ++ ex /\
    digits ip /\ fraction_shape frac fp /\ ip ++ fp <> [] /\ exponent_shape ex.
Proof.
  intros Hds Hne. unfold layout.
  destruct ((decpt <=? -4)%Z || (16 <? decpt)%Z).
  - set (x := (decpt - 1)%Z).
    set (sg := if (x <? 0)%Z then "-"%char else "+"%char).
    set (ex := "e"%char :: [sg] ++ two_digits (Z.to_N (Z.abs x))).
    assert (Hex : exponent_shape ex).
    { right. exists [sg], (two_digits (Z.to_N (Z.abs x))).
      split; [done|]. split; [|apply two_digits_digits].
      right. unfold sg. destruct (x <? 0)%Z; auto. }
    destruct ds as [|d [|d' rest]]; [done| |].
    + exists [d], [], [], ex. repeat split; [done|by left|done|done].
    + inversion Hds as [|? ? Hd Hrest]; subst.
      exists [d], ("."%char :: d' :: rest), (d' :: rest), ex.
      split; [done|]. split; [by repeat constructor|].
      split; [by right|]. split; [done|done].
  - destruct (decpt <=? 0)%Z.
    + exists ["0"%char], ("."%char :: zeros (Z.to_nat (- decpt)) ++ ds),
        (zeros (Z.to_nat (- decpt)) ++ ds), [].
      split; [by rewrite app_nil_r|]. split; [by repeat constructor|].
      split; [|split; [done|by left]].
      right. split; [done|]. apply Forall_app. split; [apply zeros_digits|done].
    + destruct (Z.of_nat (length ds) <=? decpt)%Z.
      * exists (ds ++ zeros (Z.to_nat (decpt - Z.of_nat (length ds)))),
          ["."%char; "0"%char], ["0"%char], [].
        split; [by rewrite <- app_assoc|].
        split; [apply Forall_app; split; [done|apply zeros_digits]|].
        split; [right; split; [done|by repeat constructor]|].
        split; [by destruct ds|by left].
      * exists (take (Z.to_nat decpt) ds), ("."%char :: drop (Z.to_nat decpt) ds),
          (drop (Z.to_nat decpt) ds), [].
        split; [by rewrite app_nil_r|].
        split; [by apply Forall_take|].
        split; [right; split; [done|by apply Forall_drop]|].
        split; [by rewrite take_drop|by left].
Qed.

Lemma float_of_str_int z : is_Some (float_of_str (str_int z)).
Proof.
  assert (H : forall (neg : bool) n,
    is_Some (float_of_str (of_chars ((if neg then ["-"%char] else []) ++ N_digits n)))).
  { intros neg n.
    replace (N_digits n) with (N_digits n ++ [] ++ []) by (by rewrite !app_nil_r).
    apply (float_of_str_numeral neg (N_digits n) [] [] []).
    - apply N_digits_digits.
    - by left.
    - rewrite app_nil_r. apply N_digits_nonempty.
    - by left. }
  destruct z as [|p|p]; unfold str_int.
  - apply (H false 0%N).
  - apply (H false (Z.to_N (Z.pos p))).
  - apply (H true (N.pos p)).
Qed.

Lemma float_of_str_float x : is_Some (float_of_str (str_float x)).
Proof.
  destruct x as [[]|[]| |s m e]; [by vm_compute; eexists..|].
  unfold str_float.
  destruct (shortest_digits 16 1 m e (decpt_of m e)) as [n e10].
  destruct (strip_zeros 20 n e10) as [n' e10'].
  destruct (layout_numeral (N_digits (Z.to_N n'))
              (e10' + Z.of_nat (length (N_digits (Z.to_N n'))))%Z
              (N_digits_digits _) (N_digits_nonempty _))
    as (ip & frac & fp & ex & -> & Hip & Hfrac & Hne & Hex).
  replace (sign_chars s (ip ++ frac ++ ex))
    with ((if s then ["-"%char] else []) ++ ip ++ frac ++ ex) by (by destruct s).
  by apply (float_of_str_numeral s ip frac fp ex).
Qed.

(** [float(str(x))] never raises *)
Lemma float_of_str_str x : is_Some (float_of_str (str x)).
Proof. destruct x; [apply float_of_str_int|apply float_of_str_float]. Qed.

End StrFacts.

Module ShapeFacts.
Import PyStr Re ReSpec Numeral ReFacts StrFacts.

(** ** The matcher is sound *)

Scheme matches_mut := Induction for matches Sort Prop
  with repeats_mut := Induction for repeats Sort Prop.

Lemma reads_refl st : reads [] st st.
Proof. repeat split; simpl; lia. Qed.

Lemma reads_trans w1 w2 st st1 st2 :
  reads w1 st st1 -> reads w2 st1 st2 -> reads (w1 ++ w2) st st2.
Proof.
  intros (Hr1 & Hb1 & Hp1) (Hr2 & Hb2 & Hp2). repeat split.
  - by rewrite Hr1, Hr2, app_assoc.
  - by rewrite Hb2, Hb1, rev_app_distr, app_assoc.
  - rewrite Hp2, Hp1, length_app. lia.
Qed.

Lemma step_char_reads st ok st' :
  step_char st ok = Some st' -> exists c, ok c = true /\ reads [c] st st'.
Proof.
  unfold step_char. destruct (rest st) as [|c l] eqn:E; [done|].
  destruct (ok c) eqn:Hc; [|done]. intros [= <-]. exists c.
  split; [done|]. repeat split; simpl; [done|lia].
Qed.

Lemma close_group_reads w i p st st' :
  reads w st st' -> reads w st (close_group i p st').
Proof. by intros (? & ? & ?). Qed.

Lemma matches_reads fl r st st' :
  matches fl r st st' -> exists w, reads w st st'.
Proof.
  revert r st st'.
  apply (matches_mut fl
    (fun r st st' _ => exists w, reads w st st')
    (fun r n st st' _ => exists w, reads w st st')).
  all: try (intros; exists []; apply reads_refl).
  - intros c st st' H. apply step_char_reads in H as (x & _ & H). by exists [x].
  - intros st st' H. apply step_char_reads in H as (x & _ & H). by exists [x].
  - intros neg items st st' H. apply step_char_reads in H as (x & _ & H). by exists [x].
  - intros r1 r2 st st1 st2 _ [w1 H1] _ [w2 H2]. exists (w1 ++ w2).
    by eapply reads_trans.
  - by intros r1 r2 st st' _ IH.
  - by intros r1 r2 st st' _ IH.
  - by intros lo hi greedy r n st st' _ IH _.
  - intros i r st st' _ [w H]. exists w. by apply close_group_reads.
  - intros r n st st1 st2 _ [w1 H1] _ [w2 H2]. exists (w1 ++ w2).
    by eapply reads_trans.
Qed.

Lemma reads_at_text text w st st' :
  at_text text st -> reads w st st' -> at_text text st'.
Proof.
  intros [Ht Hp] (Hr & Hb & Hp'). split.
  - rewrite Hb, rev_app_distr, rev_involutive, <- app_assoc, <- Hr. exact Ht.
  - rewrite Hb, length_app, length_rev. lia.
Qed.

(** the slice of the text between two states is the word read *)
Lemma reads_slice text w st st' :
  at_text text st -> reads w st st' -> slice text (pos st) (pos st') = of_chars w.
Proof.
  intros [Ht Hp] (Hr & Hb & Hp'). unfold slice. f_equal.
  rewrite <- Ht, Hr, Hp, Hp'.
  rewrite drop_app_length' by (by rewrite length_rev).
  replace (pos st + length w - length (before st)) with (length w) by lia.
  by rewrite take_app_length.
Qed.

(** iterations of a set read a word of the set *)
Lemma repeats_set fl neg items n st st' :
  repeats fl (CSet neg items) n st st' ->
  exists w, reads w st st' /\ length w = n /\
    Forall (fun c => xorb neg (in_set fl items c) = true) w.
Proof.
  remember (CSet neg items) as r eqn:Er. intros H.
  induction H as [r st|r n st st1 st2 Hm Hrep IH]; subst.
  - exists []. split; [apply reads_refl|]. split; [done|constructor].
  - destruct (IH eq_refl) as (w & Hw & Hlen & Hall).
    inversion Hm as [| | |? ? ? ? Hs| | | | | | | |]; subst.
    apply step_char_reads in Hs as (c & Hc & Hs).
    exists (c :: w). split; [by apply (reads_trans [c] w _ st1)|].
    split; [simpl; lia|by constructor].
Qed.

Lemma search_from_matches fl r text fuel st m :
  search_from fl r text fuel st = Some m -> at_text text st ->
  exists st0 st', at_text text st0 /\ matches fl r st0 st' /\
    m = RMatch text (pos st0) (pos st') (spans st') (lastindex st').
Proof.
  revert st. induction fuel as [|fuel IH]; intros st H Hat; simpl in H.
  - destruct (run fl r st _) as [m'|] eqn:E.
    + injection H as <-. apply run_sound in E as (st' & Hm & [= <-]).
      by exists st, st'.
    + by destruct (rest st).
  - destruct (run fl r st _) as [m'|] eqn:E.
    + injection H as <-. apply run_sound in E as (st' & Hm & [= <-]).
      by exists st, st'.
    + destruct (rest st) as [|c l] eqn:Er; [done|].
      apply IH in H; [done|].
      apply (reads_at_text text [c] st); [done|].
      repeat split; simpl; [done|lia].
Qed.

Lemma search_matches pattern text fl m r :
  compile pattern = Some r -> search pattern text fl = Some m ->
  exists st0 st', at_text (chars text) st0 /\ matches fl r st0 st' /\
    m = RMatch (chars text) (pos st0) (pos st') (spans st') (lastindex st').
Proof.
  unfold search. intros -> H.
  apply search_from_matches in H; [done|]. by split.
Qed.


Lemma matches_last_factor fl r st st' :
  matches fl r st st' ->
  exists w st1, reads w st st1 /\ matches fl (last_factor r) st1 st'.
Proof.
  revert st. induction r; intros st H;
    try (exists [], st; split; [apply reads_refl|exact H]).
  inversion H as [| | | |? ? ? st1 ? H1 H2| | | | | | |]; subst. simpl.
  apply matches_reads in H1 as [w1 Hw1].
  apply IHr2 in H2 as (w2 & st2 & Hw2 & Hm).
  exists (w1 ++ w2), st2. split; [by eapply reads_trans|done].
Qed.

Lemma digit_or_comma c :
  xorb false (in_set I [CRange "0" "9"; CChar ","] c) = true ->
  is_digit c || Ascii.eqb "," c = true.
Proof.
  destruct c as [[] [] [] [] [] [] [] []]; vm_compute; intros H;
    first [discriminate H | done].
Qed.

Lemma digit_of_set c :
  xorb false (in_set I [CRange "0" "9"] c) = true -> is_digit c = true.
Proof.
  destruct c as [[] [] [] [] [] [] [] []]; vm_compute; intros H;
    first [discriminate H | done].
Qed.

Lemma point_of_lit c : lit_eq I "." c = true -> c = "."%char.
Proof.
  destruct c as [[] [] [] [] [] [] [] []]; vm_compute; intros H;
    first [discriminate H | done].
Qed.

Lemma digit_not_comma c : is_digit c = true -> Ascii.eqb "," c = false.
Proof.
  destruct c as [[] [] [] [] [] [] [] []]; vm_compute; intros H;
    first [discriminate H | done].
Qed.

Lemma digit_not_space c : is_digit c || Ascii.eqb "," c = true -> is_space c = false.
Proof.
  destruct c as [[] [] [] [] [] [] [] []]; vm_compute; intros H;
    first [discriminate H | done].
Qed.

Lemma commas_removed a :
  Forall (fun c => is_digit c || Ascii.eqb "," c = true) a ->
  digits (filter (fun d => Ascii.eqb "," d = false) a).
Proof.
  induction 1 as [|c a Hc _ IH]; [constructor|].
  destruct (Ascii.eqb "," c) eqn:E.
  - rewrite filter_cons_False; [done|]. by rewrite E.
  - rewrite filter_cons_True by done. constructor; [|done].
    by rewrite orb_false_r in Hc.
Qed.

Lemma digits_kept b :
  digits b -> filter (fun d => Ascii.eqb "," d = false) b = b.
Proof.
  induction 1 as [|c b Hc _ IH]; [done|].
  rewrite filter_cons_True by (by apply digit_not_comma). by rewrite IH.
Qed.

(** what the group of an amount pattern holds becomes, stripped and
    without commas, a decimal numeral *)
Lemma amount_group_shape text st st' p0 :
  at_text text st -> matches I amount_group st st' ->
  decimal_shape
    (chars (Simplified.amount
       (group (RMatch text p0 (pos st') (spans st') (lastindex st')) 1))).
Proof.
  intros Hat H.
  inversion H as [| | | | | | | |? ? ? st5 Hg| | |]; subst.
  inversion Hg as [| | | |? ? ? sa ? Ha Hrest| | | | | | |]; subst.
  inversion Hrest as [| | | |? ? ? sb ? Hdot Hb| | | | | | |]; subst.
  inversion Ha as [| | | | | | |? ? ? ? na ? ? Hra _| | | |]; subst.
  inversion Hb as [| | | | | | |? ? ? ? nb ? ? Hrb Hnb| | | |]; subst.
  inversion Hdot as [|? ? ? Hs| | | | | | | | | |]; subst.
  apply repeats_set in Hra as (a & Hwa & _ & Hall_a).
  apply repeats_set in Hrb as (b & Hwb & Hlen & Hall_b).
  apply step_char_reads in Hs as (c & Hc & Hwc). apply point_of_lit in Hc as ->.
  pose proof (reads_trans _ _ _ _ _ Hwa (reads_trans _ _ _ _ _ Hwc Hwb)) as Hw.
  simpl.
  rewrite (reads_slice text _ st st5 Hat Hw).
  assert (Ha' : Forall (fun c => is_digit c || Ascii.eqb "," c = true) a).
  { eapply Forall_impl; [exact Hall_a|]. apply digit_or_comma. }
  assert (Hb' : digits b).
  { eapply Forall_impl; [exact Hall_b|]. apply digit_of_set. }
  unfold Simplified.amount, strip, remove_char.
  rewrite !chars_of_chars, strip_chars_id.
  2:{ apply Forall_app. split.
      - eapply Forall_impl; [exact Ha'|]. apply digit_not_space.
      - constructor; [done|]. eapply Forall_impl; [exact Hb'|].
        intros x Hx. apply digit_not_space. by rewrite Hx. }
  exists (filter (fun d => Ascii.eqb "," d = false) a), b.
  split; [|split; [by apply commas_removed|split; [done|]]].
  - rewrite filter_app. f_equal.
    change (["."%char] ++ b) with ("."%char :: b).
    rewrite filter_cons_True by done. by rewrite (digits_kept b Hb').
  - destruct b; [simpl in Hlen; lia|done].
Qed.

(** an amount found by a pattern that ends in the amount group is a
    numeral for [float] *)
Lemma amount_numeral pattern text r m :
  compile pattern = Some r -> last_factor r = amount_group ->
  search pattern text I = Some m ->
  is_Some (PyNum.float_of_str (Simplified.amount (group m 1))).
Proof.
  intros Hc Hl Hs.
  destruct (search_matches _ _ _ _ _ Hc Hs) as (st0 & st' & Hat & Hm & ->).
  apply matches_last_factor in Hm as (w & st1 & Hw & Hm). rewrite Hl in Hm.
  pose proof (amount_group_shape (chars text) st1 st' (pos st0)
                (reads_at_text _ _ _ _ Hat Hw) Hm) as Hshape.
  apply float_of_str_decimal in Hshape. by rewrite of_chars_chars in Hshape.
Qed.

End ShapeFacts.

(** ** Completion and defaulting, step by step *)

Module CompletionFacts.
Import PyStr PyNum Simplified Spec StrFacts.

(** membership of a given key in a list of keys *)
Ltac key_in :=
  unfold amount_keys, defaultable; rewrite ?elem_of_cons;
  repeat (first [left; reflexivity | right]).

Ltac key_out H :=
  unfold amount_keys, defaultable in H; rewrite ?elem_of_cons, elem_of_nil in H;
  repeat (destruct H as [H|H]; [discriminate H|]); destruct H.

Lemma setdefault_eq k v (po : dict) :
  setdefault k v po !! k = Some (default v (po !! k)).
Proof.
  unfold setdefault. destruct (po !! k) eqn:E; simpl; [done|].
  by rewrite lookup_insert_eq.
Qed.

Lemma setdefault_ne k v (po : dict) k' :
  k <> k' -> setdefault k v po !! k' = po !! k'.
Proof.
  intros Hne. unfold setdefault. destruct (po !! k); [done|].
  by rewrite lookup_insert_ne.
Qed.

Lemma default_po_number_eq client (po : dict) :
  default_po_number client po !! "PO Number" =
  match po !! "PO Number", client !! "name" with
  | None, Some name => Some ("PO-" +:+ prefix 5 (keep is_alnum name))
  | v, _ => v
  end.
Proof.
  unfold default_po_number.
  destruct (po !! "PO Number") eqn:E; [done|].
  destruct (client !! "name"); [by rewrite lookup_insert_eq|done].
Qed.

Lemma default_po_number_ne client (po : dict) k' :
  "PO Number" <> k' -> default_po_number client po !! k' = po !! k'.
Proof.
  intros Hne. unfold default_po_number.
  destruct (po !! "PO Number"); [done|].
  destruct (client !! "name"); [by rewrite lookup_insert_ne|done].
Qed.

Lemma default_subtotal_eq items (po : dict) :
  default_subtotal items po !! "Subtotal" =
  match po !! "Subtotal", items with
  | None, _ :: _ => Some (derived_subtotal items)
  | v, _ => v
  end.
Proof.
  unfold default_subtotal.
  destruct (po !! "Subtotal") eqn:E; [done|].
  destruct items; [done|by rewrite lookup_insert_eq].
Qed.

Lemma default_subtotal_ne items (po : dict) k' :
  "Subtotal" <> k' -> default_subtotal items po !! k' = po !! k'.
Proof.
  intros Hne. unfold default_subtotal.
  destruct (po !! "Subtotal"); [done|].
  destruct items; [done|by rewrite lookup_insert_ne].
Qed.

Lemma float_inv s f : float s = Returns f -> float_of_str s = Some f.
Proof. unfold float. destruct (float_of_str s); [by intros [= ->]|done]. Qed.

Lemma float_total s : is_Some (float_of_str s) -> exists f, float s = Returns f.
Proof. intros [f Hf]. exists f. unfold float. by rewrite Hf. Qed.

Lemma amount_of_present (po : dict) k s f :
  po !! k = Some s -> float_of_str s = Some f -> amount_of po k = f.
Proof. intros Hk Hf. unfold amount_of. by rewrite Hk; simpl; rewrite Hf. Qed.

Lemma amount_of_default (po : dict) k f :
  float (default "0" (po !! k)) = Returns f -> amount_of po k = f.
Proof. intros H%float_inv. unfold amount_of. by rewrite H. Qed.

Lemma amount_of_ext (po po' : dict) k :
  po !! k = po' !! k -> amount_of po k = amount_of po' k.
Proof. intros H. unfold amount_of. by rewrite H. Qed.

Lemma default_tax_eq (po po' : dict) :
  default_tax po = Returns po' ->
  po' !! "Tax" =
  match po !! "Tax", po !! "Subtotal" with
  | None, Some _ => Some (derived_tax po)
  | v, _ => v
  end.
Proof.
  unfold default_tax.
  destruct (po !! "Tax") eqn:Et; [by intros [= <-]|].
  destruct (po !! "Subtotal") as [s|] eqn:Es; [|by intros [= <-]].
  destruct (float s) as [f|] eqn:Ef; simpl; [|done]. intros [= <-].
  rewrite lookup_insert_eq. unfold derived_tax.
  by rewrite (amount_of_present po "Subtotal" s f Es (float_inv _ _ Ef)).
Qed.

Lemma default_tax_ne (po po' : dict) k' :
  default_tax po = Returns po' -> "Tax" <> k' -> po' !! k' = po !! k'.
Proof.
  unfold default_tax. intros H Hne.
  destruct (po !! "Tax"); [by injection H as <-|].
  destruct (po !! "Subtotal") as [s|]; [|by injection H as <-].
  destruct (float s); simpl in H; [|done]. injection H as <-.
  by rewrite lookup_insert_ne.
Qed.

Lemma default_tax_total (po : dict) :
  numerals po -> exists po', default_tax po = Returns po'.
Proof.
  intros Hn. unfold default_tax.
  destruct (po !! "Tax"); [by eexists|].
  destruct (po !! "Subtotal") as [s|] eqn:Es; [|by eexists].
  destruct (float_total s) as [f ->]; [|by eexists].
  apply (Hn "Subtotal"); [key_in|done].
Qed.

Lemma default_total_eq (po po' : dict) :
  default_total po = Returns po' ->
  po' !! "Total Amount" = Some (default (derived_total po) (po !! "Total Amount")).
Proof.
  unfold default_total.
  destruct (po !! "Total Amount") eqn:Et; [by intros [= <-]|].
  destruct (float (default "0" (po !! "Subtotal"))) as [s|] eqn:Es; simpl; [|done].
  destruct (float (default "0" (po !! "Tax"))) as [t|] eqn:Ex; simpl; [|done].
  destruct (float (default "0" (po !! "Shipping"))) as [h|] eqn:Eh; simpl; [|done].
  intros [= <-]. rewrite lookup_insert_eq. unfold derived_total. simpl.
  by rewrite (amount_of_default _ _ _ Es), (amount_of_default _ _ _ Ex),
             (amount_of_default _ _ _ Eh).
Qed.

Lemma default_total_ne (po po' : dict) k' :
  default_total po = Returns po' -> "Total Amount" <> k' -> po' !! k' = po !! k'.
Proof.
  unfold default_total. intros H Hne.
  destruct (po !! "Total Amount"); [by injection H as <-|].
  destruct (float _); simpl in H; [|done].
  destruct (float _); simpl in H; [|done].
  destruct (float _); simpl in H; [|done].
  injection H as <-. by rewrite lookup_insert_ne.
Qed.

Lemma float_default_total (po : dict) k :
  k ∈ amount_keys -> numerals po ->
  exists f, float (default "0" (po !! k)) = Returns f.
Proof.
  intros Hk Hn. apply float_total.
  destruct (po !! k) as [v|] eqn:E; simpl; [by apply (Hn k)|].
  by vm_compute; eexists.
Qed.

Lemma default_total_total (po : dict) :
  numerals po -> exists po', default_total po = Returns po'.
Proof.
  intros Hn. unfold default_total.
  destruct (po !! "Total Amount"); [by eexists|].
  destruct (float_default_total po "Subtotal") as [s ->]; [key_in|done|].
  destruct (float_default_total po "Tax") as [t ->]; [key_in|done|].
  destruct (float_default_total po "Shipping") as [h ->]; [key_in|done|].
  by eexists.
Qed.

(** the steps keep the amounts numerals *)
Lemma numerals_ext (po po' : dict) :
  (forall k, k ∈ amount_keys -> po' !! k = po !! k) -> numerals po -> numerals po'.
Proof. intros H Hn k v Hk Hv. apply (Hn k); [done|]. by rewrite <- H. Qed.

Lemma numerals_insert (po : dict) k v :
  (k ∈ amount_keys -> is_Some (float_of_str v)) -> numerals po ->
  numerals (<[k := v]> po).
Proof.
  intros Hv Hn k' v' Hk'. destruct (decide (k = k')) as [<-|Hne].
  - rewrite lookup_insert_eq. intros [= <-]. by apply Hv.
  - rewrite lookup_insert_ne by done. by apply Hn.
Qed.

Lemma numerals_setdefault (po : dict) k v :
  (k ∈ amount_keys -> is_Some (float_of_str v)) -> numerals po ->
  numerals (setdefault k v po).
Proof.
  intros Hv Hn. unfold setdefault. destruct (po !! k); [done|].
  by apply numerals_insert.
Qed.

Lemma numerals_empty : numerals ∅.
Proof. intros k v _ H. by rewrite lookup_empty in H. Qed.

End CompletionFacts.

Module ValidateFacts.
Import PyStr PyNum Simplified Spec StrFacts CompletionFacts.

(** what [validate_and_clean_data] returns, field by field *)
Lemma validate_fields today r r' :
  validate_and_clean_data today r = Returns r' ->
  client_info r' = client_info r /\ ship_to r' = ship_to r /\
  line_items r' = ensure_item (line_items r) /\
  po_details r' !! "PO Number" =
    match po_details r !! "PO Number", client_info r !! "name" with
    | None, Some name => Some ("PO-" +:+ prefix 5 (keep is_alnum name))
    | v, _ => v
    end /\
  po_details r' !! "Creation Date" = Some (default today (po_details r !! "Creation Date")) /\
  po_details r' !! "Due Date" = Some (default today (po_details r !! "Due Date")) /\
  po_details r' !! "Payment Terms" = Some (default "Net 30" (po_details r !! "Payment Terms")) /\
  po_details r' !! "Subtotal" =
    match po_details r !! "Subtotal", line_items r with
    | None, _ :: _ => Some (derived_subtotal (line_items r))
    | v, _ => v
    end /\
  po_details r' !! "Tax" =
    match po_details r !! "Tax", po_details r' !! "Subtotal" with
    | None, Some _ => Some (derived_tax (po_details r'))
    | v, _ => v
    end /\
  po_details r' !! "Shipping" = Some (default "75.00" (po_details r !! "Shipping")) /\
  po_details r' !! "Total Amount" =
    Some (default (derived_total (po_details r')) (po_details r !! "Total Amount")) /\
  (forall k, k ∉ defaultable -> po_details r' !! k = po_details r !! k).
Proof.
  unfold validate_and_clean_data, complete_amounts.
  set (po1 := default_po_number (client_info r) (po_details r)).
  set (po2 := setdefault "Creation Date" today po1).
  set (po3 := setdefault "Due Date" today po2).
  set (po4 := setdefault "Payment Terms" "Net 30" po3).
  set (po5 := default_subtotal (line_items r) po4).
  destruct (default_tax po5) as [po6|] eqn:E6; simpl; [|done].
  set (po7 := setdefault "Shipping" "75.00" po6).
  destruct (default_total po7) as [po8|] eqn:E8; simpl; [|done].
  intros [= <-]. simpl.
  (* a lookup in the final dictionary, traced back through the steps
     that leave the key alone *)
  assert (H87 : forall k, "Total Amount" <> k -> po8 !! k = po7 !! k)
    by (intros; by eapply default_total_ne).
  assert (H76 : forall k, "Shipping" <> k -> po7 !! k = po6 !! k)
    by (intros; by apply setdefault_ne).
  assert (H65 : forall k, "Tax" <> k -> po6 !! k = po5 !! k)
    by (intros; by eapply default_tax_ne).
  assert (H54 : forall k, "Subtotal" <> k -> po5 !! k = po4 !! k)
    by (intros; by apply default_subtotal_ne).
  assert (H43 : forall k, "Payment Terms" <> k -> po4 !! k = po3 !! k)
    by (intros; by apply setdefault_ne).
  assert (H32 : forall k, "Due Date" <> k -> po3 !! k = po2 !! k)
    by (intros; by apply setdefault_ne).
  assert (H21 : forall k, "Creation Date" <> k -> po2 !! k = po1 !! k)
    by (intros; by apply setdefault_ne).
  assert (H10 : forall k, "PO Number" <> k -> po1 !! k = po_details r !! k)
    by (intros; by apply default_po_number_ne).
  assert (Hsub : po8 !! "Subtotal" = po5 !! "Subtotal")
    by (by rewrite H87, H76, H65).
  assert (Htax : po8 !! "Tax" = po6 !! "Tax") by (by rewrite H87, H76).
  assert (Hship : po8 !! "Shipping" = po7 !! "Shipping") by (by rewrite H87).
  repeat split.
  - rewrite H87, H76, H65, H54, H43, H32, H21 by done.
    apply default_po_number_eq.
  - rewrite H87, H76, H65, H54, H43, H32 by done.
    unfold po2. by rewrite setdefault_eq, H10.
  - rewrite H87, H76, H65, H54, H43 by done.
    unfold po3. by rewrite setdefault_eq, H21, H10.
  - rewrite H87, H76, H65, H54 by done.
    unfold po4. by rewrite setdefault_eq, H32, H21, H10.
  - rewrite Hsub. unfold po5. by rewrite default_subtotal_eq, H43, H32, H21, H10.
  - rewrite Htax, (default_tax_eq _ _ E6), Hsub.
    rewrite (H54 "Tax"), H43, H32, H21, H10 by done.
    unfold derived_tax. by rewrite (amount_of_ext po8 po5 "Subtotal" Hsub).
  - rewrite Hship. unfold po7. by rewrite setdefault_eq, H65, H54, H43, H32, H21, H10.
  - rewrite (default_total_eq _ _ E8).
    rewrite (H76 "Total Amount"), H65, H54, H43, H32, H21, H10 by done.
    unfold derived_total.
    rewrite (amount_of_ext po8 po7 "Subtotal"), (amount_of_ext po8 po7 "Tax"),
            (amount_of_ext po8 po7 "Shipping"); [done|by rewrite H87..].
  - intros k Hk. unfold defaultable in Hk.
    rewrite H87, H76, H65, H54, H43, H32, H21, H10; [done|..];
      intros <-; apply Hk; key_in.
Qed.

Lemma validate_numerals_total today r :
  numerals (po_details r) -> exists r', validate_and_clean_data today r = Returns r'.
Proof.
  intros Hn. unfold validate_and_clean_data, complete_amounts.
  set (po4 := setdefault "Payment Terms" "Net 30" _).
  assert (H4 : numerals po4).
  { unfold po4. apply numerals_setdefault; [intros H; key_out H|].
    apply numerals_setdefault; [intros H; key_out H|].
    apply numerals_setdefault; [intros H; key_out H|].
    eapply numerals_ext; [|exact Hn].
    intros k Hk. apply default_po_number_ne. intros <-. key_out Hk. }
  assert (H5 : numerals (default_subtotal (line_items r) po4)).
  { unfold default_subtotal. destruct (po4 !! "Subtotal"); [done|].
    destruct (line_items r); [done|].
    apply numerals_insert; [|done]. intros _. apply float_of_str_str. }
  destruct (default_tax_total _ H5) as [po6 E6]. rewrite E6. simpl.
  assert (H6 : numerals po6).
  { revert E6. unfold default_tax.
    destruct (_ !! "Tax"); [by intros [= <-]|].
    destruct (_ !! "Subtotal") as [s|]; [|by intros [= <-]].
    destruct (float s); simpl; [|done]. intros [= <-].
    apply numerals_insert; [|done]. intros _. apply float_of_str_float. }
  assert (H7 : numerals (setdefault "Shipping" "75.00" po6)).
  { apply numerals_setdefault; [|done]. intros _. by vm_compute; eexists. }
  destruct (default_total_total _ H7) as [po8 E8]. rewrite E8. simpl. by eexists.
Qed.

End ValidateFacts.

(** ** The extraction from the text *)

Module TextFacts.
Import PyStr PyNum Simplified Spec StrFacts ShapeFacts CompletionFacts.

Lemma on_match_ind (P : result -> Prop) pattern fl text g store r :
  P r ->
  (forall m, Re.search pattern text fl = Some m -> P (store (Re.group m g) r)) ->
  P (on_match pattern fl text g store r).
Proof.
  intros Hr Hm. unfold on_match.
  destruct (Re.search pattern text fl) as [m|] eqn:E; [by apply Hm|done].
Qed.

Lemma invariant_set_client items k v r :
  text_invariant items r -> text_invariant items (set_client k v r).
Proof. by intros [? ?]. Qed.

Lemma invariant_set_ship items k v r :
  text_invariant items r -> text_invariant items (set_ship k v r).
Proof. by intros [? ?]. Qed.

Lemma invariant_set_po items k v r :
  (k ∈ amount_keys -> is_Some (float_of_str v)) ->
  text_invariant items r -> text_invariant items (set_po k v r).
Proof.
  intros Hv [Hi Hn]. split; [done|]. simpl. by apply numerals_insert.
Qed.

Ltac amount_step :=
  apply on_match_ind; [assumption|]; intros ? ?;
  apply invariant_set_po; [|assumption]; intros _;
  match goal with
  | H : Re.search ?p ?t Re.I = Some ?m |- _ =>
      let c := eval vm_compute in (Re.compile p) in
      match c with
      | Some ?r =>
          apply (amount_numeral p t r m);
            [vm_compute; reflexivity|vm_compute; reflexivity|exact H]
      end
  end.

Ltac field_step :=
  apply on_match_ind; [assumption|]; intros ? ?;
  apply invariant_set_po; [|assumption];
  let H := fresh in intros H; key_out H.

Lemma on_match_invariant (P : result -> Prop) pattern fl text g store r :
  (forall v r', P r' -> P (store v r')) -> P r ->
  P (on_match pattern fl text g store r).
Proof. intros Hs Hr. apply on_match_ind; [done|]. intros m _. by apply Hs. Qed.

Lemma extract_client_info_invariant items text r :
  text_invariant items r -> text_invariant items (extract_client_info text r).
Proof.
  intros H. unfold extract_client_info.
  repeat (apply on_match_invariant; [intros; by apply invariant_set_client|]).
  exact H.
Qed.

Lemma extract_shipping_info_invariant items text r :
  text_invariant items r -> text_invariant items (extract_shipping_info text r).
Proof.
  intros H. unfold extract_shipping_info.
  repeat (apply on_match_invariant; [intros; by apply invariant_set_ship|]).
  exact H.
Qed.

Lemma extract_po_details_invariant items text r :
  text_invariant items r -> text_invariant items (extract_po_details text r).
Proof.
  intros H0. unfold extract_po_details.
  set (r1 := on_match _ _ _ _ _ r).
  assert (H1 : text_invariant items r1) by (unfold r1; field_step).
  set (r2 := on_match _ _ _ _ _ r1).
  assert (H2 : text_invariant items r2) by (unfold r2; field_step).
  set (r3 := on_match _ _ _ _ _ r2).
  assert (H3 : text_invariant items r3) by (unfold r3; field_step).
  set (r4 := on_match _ _ _ _ _ r3).
  assert (H4 : text_invariant items r4) by (unfold r4; field_step).
  set (r5 := on_match _ _ _ _ _ r4).
  assert (H5 : text_invariant items r5) by (unfold r5; field_step).
  set (r6 := on_match _ _ _ _ _ r5).
  assert (H6 : text_invariant items r6) by (unfold r6; amount_step).
  set (r7 := on_match _ _ _ _ _ r6).
  assert (H7 : text_invariant items r7) by (unfold r7; amount_step).
  set (r8 := on_match _ _ _ _ _ r7).
  assert (H8 : text_invariant items r8) by (unfold r8; amount_step).
  field_step.
Qed.

Lemma extract_from_text_invariant items text r :
  text_invariant items r -> text_invariant items (extract_from_text text r).
Proof.
  intros H. unfold extract_from_text.
  by apply extract_shipping_info_invariant, extract_po_details_invariant,
           extract_client_info_invariant.
Qed.

Lemma text_stage text :
  line_items (extract_from_text text initial) = [] /\ numerals (found_in text).
Proof.
  apply (extract_from_text_invariant [] text initial).
  split; [done|apply numerals_empty].
Qed.

End TextFacts.

(** ** The extraction from the tables *)

Module TableFacts.
Import PyStr PyNum Simplified Spec StrFacts.

Lemma add_items_nil r : add_items [] r = r.
Proof. destruct r. unfold add_items. simpl. by rewrite app_nil_r. Qed.

Lemma add_items_app l1 l2 r : add_items (l1 ++ l2) r = add_items l2 (add_items l1 r).
Proof. unfold add_items. simpl. by rewrite app_assoc. Qed.

Lemma is_empty_eq s : is_empty s = true -> s = "".
Proof. by destruct s. Qed.

Lemma at_column_elem col row c : at_column col row = Some c -> c ∈ row.
Proof.
  unfold at_column. destruct col as [i|]; [|done].
  destruct (i <? length row); [|done]. apply list_elem_of_lookup_2.
Qed.

Lemma number_at_blank col row :
  blank_row row = true -> number_at col row = Returns None.
Proof.
  intros Hb. unfold number_at.
  destruct (at_column col row) as [c|] eqn:E; [|done].
  apply at_column_elem in E. unfold blank_row in Hb.
  rewrite forallb_forall in Hb. apply list_elem_of_In in E.
  apply Hb, is_empty_eq in E. unfold number_of_cell. by rewrite E.
Qed.

(** a blank row gives a dictionary without quantity: skipping it and
    testing it come to the same *)
Lemma process_row_eq cols row r :
  process_row cols row r =
  do it <- row_item cols row; Returns (if retained it then append_item it r else r).
Proof.
  unfold process_row. destruct (blank_row row) eqn:Hb; [|done].
  unfold row_item. rewrite !number_at_blank by done. simpl.
  unfold retained. simpl. by rewrite andb_false_r.
Qed.

Lemma process_rows_eq cols rows r :
  process_rows cols rows r =
  do its <- map_outcome (row_item cols) rows;
  Returns (add_items (List.filter retained its) r).
Proof.
  revert r. induction rows as [|row rows IH]; intros r; simpl.
  - by rewrite add_items_nil.
  - rewrite process_row_eq.
    destruct (row_item cols row) as [it|e]; simpl; [|done].
    rewrite IH. destruct (map_outcome (row_item cols) rows) as [its|e]; simpl; [|done].
    destruct (retained it); [|done]. simpl.
    change (it :: List.filter retained its) with ([it] ++ List.filter retained its).
    by rewrite (add_items_app [it] _ r).
Qed.

Lemma extract_line_items_eq t r :
  extract_line_items (Pandas.DataFrame t) r =
  do l <- table_items t; Returns (add_items l r).
Proof.
  unfold extract_line_items, table_items.
  destruct (data_and_headers (Pandas.DataFrame t)) as [data_df headers].
  rewrite process_rows_eq. by destruct (map_outcome _ data_df).
Qed.

Lemma extract_from_tables_eq tables r :
  extract_from_tables tables r =
  do l <- tables_items tables; Returns (add_items l r).
Proof.
  revert r. induction tables as [|t tables IH]; intros r; simpl.
  - by rewrite add_items_nil.
  - unfold qualifies. destruct (is_line_items_table (Pandas.DataFrame t)); simpl.
    + rewrite extract_line_items_eq. destruct (table_items t) as [x|e]; simpl; [|done].
      rewrite IH. destruct (tables_items tables) as [xs|e]; simpl; [|done].
      by rewrite add_items_app.
    + rewrite IH. by destruct (tables_items tables).
Qed.

(** *** Tables whose cells convert are extracted without an exception *)

Lemma number_at_converts col row :
  Forall cell_converts row -> exists x, number_at col row = Returns x.
Proof.
  intros H. unfold number_at.
  destruct (at_column col row) as [c|] eqn:E; [|by eexists].
  apply at_column_elem in E. rewrite Forall_forall in H. by apply H.
Qed.

Lemma row_item_converts cols row :
  Forall cell_converts row -> exists it, row_item cols row = Returns it.
Proof.
  intros H. unfold row_item.
  destruct (number_at_converts (qty_col cols) row H) as [q ->].
  destruct (number_at_converts (price_col cols) row H) as [p ->].
  destruct (number_at_converts (total_col cols) row H) as [t ->].
  simpl. by eexists.
Qed.

Lemma map_row_item_converts cols rows :
  Forall (Forall cell_converts) rows ->
  exists its, map_outcome (row_item cols) rows = Returns its.
Proof.
  induction 1 as [|row rows Hrow _ [its IH]]; simpl; [by eexists|].
  destruct (row_item_converts cols row Hrow) as [it ->]. rewrite IH. simpl.
  by eexists.
Qed.

Lemma pad_row_converts w row :
  forallb converts row = true -> Forall cell_converts (Pandas.pad_row w row).
Proof.
  intros H. unfold Pandas.pad_row. apply Forall_app. split.
  - rewrite forallb_forall in H. apply Forall_forall. intros c Hc.
    apply list_elem_of_fmap in Hc as (s & -> & Hs).
    apply list_elem_of_In, H in Hs. unfold converts in Hs. unfold cell_converts.
    destruct (number_of_cell (Some s)); [by eexists|done].
  - apply Forall_forall. intros c Hc. apply list_elem_of_In, repeat_spec in Hc as ->.
    by eexists.
Qed.

Lemma frame_converts t :
  forallb (forallb converts) t = true ->
  Forall (Forall cell_converts) (Pandas.DataFrame t).
Proof.
  intros H. unfold Pandas.DataFrame. apply Forall_fmap, Forall_forall.
  intros row Hrow. apply pad_row_converts.
  rewrite forallb_forall in H. by apply H, list_elem_of_In.
Qed.

Lemma table_items_converts t :
  forallb (forallb converts) t = true -> exists l, table_items t = Returns l.
Proof.
  intros H%frame_converts. unfold table_items, data_and_headers.
  destruct (1 <? length (Pandas.DataFrame t)).
  - destruct (map_row_item_converts (find_columns (header_row (Pandas.DataFrame t)))
                (drop 1 (Pandas.DataFrame t))) as [its ->]; [by apply Forall_drop|].
    by eexists.
  - destruct (map_row_item_converts (find_columns (column_labels (Pandas.DataFrame t)))
                (Pandas.DataFrame t) H) as [its ->].
    by eexists.
Qed.

Lemma tables_items_converts tables :
  cells_convert tables = true -> exists l, tables_items tables = Returns l.
Proof.
  unfold cells_convert. induction tables as [|t tables IH]; simpl; [by eexists|].
  intros [Ht Hts]%andb_prop. destruct (IH Hts) as [xs ->].
  destruct (qualifies t); simpl; [|by eexists].
  destruct (table_items_converts t Ht) as [x ->]. simpl. by eexists.
Qed.

End TableFacts.

(** ** The simplified extractor, end to end *)

Module PipelineFacts.
Import PyStr PyNum Simplified Spec StrFacts CompletionFacts ValidateFacts TextFacts TableFacts.

Lemma extract_data_eq today text tables :
  extract_data today (well_formed text tables) =
  do l <- tables_items tables;
  validate_and_clean_data today (add_items l (extract_from_text text initial)).
Proof.
  unfold extract_data. simpl. destruct tables as [|t tables].
  - simpl. by rewrite add_items_nil.
  - rewrite extract_from_tables_eq. by destruct (tables_items (t :: tables)).
Qed.

Lemma ensure_item_nonempty items : ensure_item items <> [].
Proof. by destruct items. Qed.

Lemma length_pad_row w row : length row <= w -> length (Pandas.pad_row w row) = w.
Proof.
  intros H. unfold Pandas.pad_row. rewrite length_app, length_map, repeat_length. lia.
Qed.

Lemma existsb_repeat {A} (f : A -> bool) x n :
  f x = false -> existsb f (repeat x n) = false.
Proof. intros H. induction n; simpl; [done|]. by rewrite H. Qed.

Lemma header_row_pad w row0 rest :
  header_row (Pandas.pad_row w row0 :: rest) =
  map lower row0 ++ repeat (lower "None") (w - length row0).
Proof.
  simpl. unfold Pandas.pad_row. rewrite map_app, map_map. f_equal.
  induction (w - length row0); simpl; [done|]. by f_equal.
Qed.

Lemma qualifies_cons row0 rest :
  qualifies (row0 :: rest) =
  (3 <=? Pandas.width (row0 :: rest)) && header_has_groups row0.
Proof.
  unfold qualifies, is_line_items_table.
  set (w := Pandas.width (row0 :: rest)).
  assert (Hw : length row0 <= w) by (unfold w; simpl; lia).
  change (Pandas.DataFrame (row0 :: rest))
    with (Pandas.pad_row w row0 :: map (Pandas.pad_row w) rest).
  unfold Pandas.columns. rewrite (length_pad_row w row0 Hw).
  assert (He : Pandas.empty (Pandas.pad_row w row0 :: map (Pandas.pad_row w) rest)
               = (w =? 0)).
  { unfold Pandas.empty. pose proof (length_pad_row w row0 Hw) as Hl.
    destruct (Pandas.pad_row w row0); simpl in Hl; subst w; [by rewrite <- Hl|].
    by rewrite <- Hl. }
  rewrite He. destruct (3 <=? w) eqn:E3.
  - apply Nat.leb_le in E3.
    replace (w =? 0) with false by (symmetry; apply Nat.eqb_neq; lia).
    replace (w <? 3) with false by (symmetry; apply Nat.ltb_ge; lia).
    rewrite header_row_pad. unfold header_has_groups. simpl.
    by rewrite !existsb_app, !existsb_repeat, !orb_false_r by done.
  - apply Nat.leb_gt in E3.
    replace (w <? 3) with true by (symmetry; apply Nat.ltb_lt; lia).
    by rewrite orb_true_r.
Qed.

End PipelineFacts.

(** ** The claims about the simplified extractor *)

Module SimplifiedClaims.
Import PyStr PyNum Simplified Spec Examples.
Import StrFacts CompletionFacts ValidateFacts TextFacts TableFacts PipelineFacts.

(** every pattern of the module is in the syntax the matcher reads *)
Lemma patterns_compile :
  Forall (fun p => is_Some (Re.compile p)) Simplified.patterns.
Proof. unfold Simplified.patterns. repeat constructor; by vm_compute; eexists. Qed.





(** C2, as the code has it. After completion a PO number that was
    extracted is kept, and when none was extracted and a client name
    exists the PO number is the prefix PO- followed by the first 5
    alphanumeric characters of the client name, in the case they have
    in the name. *)
Theorem po_number_after_completion today r r' :
  validate_and_clean_data today r = Returns r' ->
  (forall v, po_details r !! "PO Number" = Some v ->
     po_details r' !! "PO Number" = Some v) /\
  (forall name, po_details r !! "PO Number" = None ->
     client_info r !! "name" = Some name ->
     po_details r' !! "PO Number" = Some ("PO-" +:+ prefix 5 (keep is_alnum name))).
Proof.
  intros H. destruct (validate_fields today r r' H) as (_ & _ & _ & Hpo & _).
  split.
  - intros v Hv. by rewrite Hpo, Hv.
  - intros name Hnone Hname. by rewrite Hpo, Hnone, Hname.
Qed.

Lemma po_number_after_completion_witness :
  validate_and_clean_data a_day acme = Returns acme_completed /\
  po_details acme_completed !! "PO Number"
    = Some ("PO-" +:+ prefix 5 (keep is_alnum "Acme Corp")).
Proof.
  assert (H : validate_and_clean_data a_day acme = Returns acme_completed)
    by (vm_compute; reflexivity).
  split; [exact H|].
  apply (proj2 (po_number_after_completion a_day acme acme_completed H) "Acme Corp");
    reflexivity.
Defined.

(** The client name Acme Corp gives the PO number PO-AcmeC, not the
    upper-case PO-ACMEC of C2 as it is stated. *)
Lemma po_number_keeps_case :
  exists r, extract_data a_day (well_formed "Client: Acme Corp" []) = Returns r /\
    client_info r !! "name" = Some "Acme Corp" /\
    po_details r !! "PO Number" = Some "PO-AcmeC" /\
    "PO-" +:+ prefix 5 (keep is_alnum (upper "Acme Corp")) = "PO-ACMEC" /\
    po_details r !! "PO Number"
      <> Some ("PO-" +:+ prefix 5 (keep is_alnum (upper "Acme Corp"))).
Proof.
  eexists. split; [vm_compute; reflexivity|]. vm_compute. repeat split. discriminate.
Qed.

(** A quantity cell that holds 1.2.3 makes the extraction raise. *)
Lemma malformed_quantity_raises :
  extract_data a_day (well_formed "" [malformed_table]) = Raises ValueError.
Proof. vm_compute. reflexivity. Qed.

(** With neither a PO number nor a client name, the record comes back
    without a PO number. *)
Lemma po_number_left_absent :
  exists r, extract_data a_day (well_formed "" []) = Returns r /\
    po_details r !! "PO Number" = None.
Proof.
  eexists. split; [vm_compute; reflexivity|]. by vm_compute.
Qed.

Lemma setdefault_present k v (po : dict) :
  is_Some (po !! k) -> setdefault k v po = po.
Proof. intros [x Hx]. unfold setdefault. by rewrite Hx. Qed.

(** C4. Completion is idempotent on complete records: when every
    defaultable field (PO number, creation date, due date, payment
    terms, subtotal, tax, shipping, total amount) is present and
    line_items is not empty, completion returns the record it was
    given: no field is overwritten and no line item is appended. *)
Theorem completion_of_complete today r :
  complete r -> validate_and_clean_data today r = Returns r.
Proof.
  intros [Hall Hitems].
  assert (Hk : forall k, k ∈ defaultable -> is_Some (po_details r !! k)).
  { intros k. revert k. by apply Forall_forall. }
  assert (Hpo : is_Some (po_details r !! "PO Number")) by (apply Hk; key_in).
  assert (Hsub : is_Some (po_details r !! "Subtotal")) by (apply Hk; key_in).
  assert (Htax : is_Some (po_details r !! "Tax")) by (apply Hk; key_in).
  assert (Htot : is_Some (po_details r !! "Total Amount")) by (apply Hk; key_in).
  unfold validate_and_clean_data, complete_amounts.
  assert (H1 : default_po_number (client_info r) (po_details r) = po_details r).
  { unfold default_po_number. destruct Hpo as [v ->]. done. }
  rewrite H1.
  rewrite (setdefault_present "Creation Date" today (po_details r)) by (apply Hk; key_in).
  rewrite (setdefault_present "Due Date" today (po_details r)) by (apply Hk; key_in).
  rewrite (setdefault_present "Payment Terms" "Net 30" (po_details r))
    by (apply Hk; key_in).
  assert (H2 : default_subtotal (line_items r) (po_details r) = po_details r).
  { unfold default_subtotal. destruct Hsub as [v ->]. done. }
  rewrite H2.
  assert (H6 : default_tax (po_details r) = Returns (po_details r)).
  { unfold default_tax. destruct Htax as [v ->]. done. }
  rewrite H6. simpl. rewrite setdefault_present by (apply Hk; key_in).
  assert (H8 : default_total (po_details r) = Returns (po_details r)).
  { unfold default_total. destruct Htot as [v ->]. done. }
  rewrite H8. simpl. destruct r as [c po s items]. simpl in *.
  by destruct items.
Qed.

Lemma completion_of_complete_witness :
  complete complete_record /\
  validate_and_clean_data a_day complete_record = Returns complete_record.
Proof.
  assert (H : complete complete_record).
  { split; [|done]. unfold defaultable.
    repeat (apply Forall_cons; split; [by vm_compute; eexists|]). constructor. }
  split; [exact H|]. apply (completion_of_complete a_day complete_record H).
Defined.

Lemma numerals_absent (po : dict) :
  po !! "Subtotal" = None -> po !! "Tax" = None -> po !! "Shipping" = None ->
  numerals po.
Proof.
  intros Hs Ht Hh k v Hk Hv. unfold amount_keys in Hk.
  rewrite !elem_of_cons, elem_of_nil in Hk.
  destruct Hk as [->|[->|[->|[]]]]; congruence.
Qed.

(** C5, as the code has it. Whenever subtotal, tax and shipping are all
    derived by the engine and the text supplies no total amount either,
    completion returns, and subtotal is the rounded sum of the line-item
    total prices, tax the rounded 8.5% of subtotal, shipping 75.00 and
    total_amount is round(subtotal + tax + shipping, 2). *)
Theorem derived_total_is_consistent today r :
  po_details r !! "Subtotal" = None -> po_details r !! "Tax" = None ->
  po_details r !! "Shipping" = None -> po_details r !! "Total Amount" = None ->
  line_items r <> [] ->
  exists r', validate_and_clean_data today r = Returns r' /\
    po_details r' !! "Subtotal" = Some (derived_subtotal (line_items r)) /\
    po_details r' !! "Tax" = Some (derived_tax (po_details r')) /\
    po_details r' !! "Shipping" = Some "75.00" /\
    po_details r' !! "Total Amount" = Some (derived_total (po_details r')).
Proof.
  intros Hs Ht Hh Hto Hitems.
  destruct (validate_numerals_total today r) as [r' Hr]; [by apply numerals_absent|].
  exists r'. split; [done|].
  destruct (validate_fields today r r' Hr)
    as (_ & _ & _ & _ & _ & _ & _ & Hsub & Htax & Hship & Htot & _).
  rewrite Hs in Hsub. rewrite Ht in Htax. rewrite Hh in Hship. rewrite Hto in Htot.
  destruct (line_items r) eqn:E; [done|].
  split; [done|]. rewrite Hsub in Htax. done.
Qed.

Lemma derived_total_is_consistent_witness :
  exists r', validate_and_clean_data a_day widget_record = Returns r' /\
    po_details r' !! "Subtotal" = Some (derived_subtotal (line_items widget_record)) /\
    po_details r' !! "Tax" = Some (derived_tax (po_details r')) /\
    po_details r' !! "Shipping" = Some "75.00" /\
    po_details r' !! "Total Amount" = Some (derived_total (po_details r')).
Proof.
  apply (derived_total_is_consistent a_day widget_record); by vm_compute.
Defined.

(** The text supplies the total 500.00 and nothing else: subtotal, tax
    and shipping are derived (30.0, 2.55 and 75.00), the total stays
    500.00 and is not round(30.0 + 2.55 + 75.00, 2) = 107.55, against
    C5 as it is stated. *)
Lemma supplied_total_is_kept :
  let text := "Total: 500.00" in
  exists r, extract_data a_day (well_formed text [widget_table]) = Returns r /\
    found_in text !! "Subtotal" = None /\ found_in text !! "Tax" = None /\
    found_in text !! "Shipping" = None /\
    po_details r !! "Subtotal" = Some "30.0" /\
    po_details r !! "Tax" = Some "2.55" /\
    po_details r !! "Shipping" = Some "75.00" /\
    po_details r !! "Total Amount" = Some "500.00" /\
    derived_total (po_details r) = "107.55" /\
    float_of_str "500.00" <> float_of_str "107.55".
Proof.
  eexists. split; [vm_compute; reflexivity|]. vm_compute. repeat split. discriminate.
Qed.


Lemma text_only_document today text :
  exists r, extract_data today (well_formed text []) = Returns r /\
    line_items r = [default_item].
Proof.
  destruct (text_stage text) as [Hno Hnum].
  destruct (validate_numerals_total today (extract_from_text text initial) Hnum)
    as [r Hr].
  exists r. split.
  - rewrite extract_data_eq. simpl. by rewrite add_items_nil.
  - destruct (validate_fields _ _ _ Hr) as (_ & _ & Hl & _). by rewrite Hl, Hno.
Qed.

(** C6. When line_items is empty after extraction, completion appends
    exactly one placeholder item, with item_code DEFAULT001, description
    Standard Product, quantity 1, unit_price 100.00 and total_price
    100.00, and leaves a non-empty list as it is; so line_items is never
    empty after completion, and every document with text only and no
    tables comes back with the placeholder as its one line item. *)
Theorem placeholder_line_item :
  (forall today r r', validate_and_clean_data today r = Returns r' ->
     (line_items r = [] -> line_items r' = [default_item]) /\
     (line_items r <> [] -> line_items r' = line_items r) /\
     line_items r' <> []) /\
  (forall today text, exists r,
     extract_data today (well_formed text []) = Returns r /\
     line_items r = [default_item]) /\
  default_item =
    LineItem (Some "Standard Product") (Some "DEFAULT001") (Some (PInt 1))
             (Some (PFloat (float_of_Z 100))) (Some (PFloat (float_of_Z 100))).
Proof.
  split; [|split; [exact text_only_document|by vm_compute]].
  intros today r r' H.
  destruct (validate_fields today r r' H) as (_ & _ & Hl & _). rewrite Hl.
  split; [by intros ->|]. split; [by destruct (line_items r)|].
  apply ensure_item_nonempty.
Qed.

Lemma placeholder_line_item_witness :
  validate_and_clean_data a_day acme = Returns acme_completed /\
  line_items acme = [] /\
  line_items acme_completed = [default_item] /\
  line_items acme_completed <> [].
Proof.
  assert (H : validate_and_clean_data a_day acme = Returns acme_completed)
    by (vm_compute; reflexivity).
  destruct (proj1 placeholder_line_item a_day acme acme_completed H) as (H1 & _ & H3).
  split; [exact H|]. split; [reflexivity|]. split; [exact (H1 eq_refl)|exact H3].
Defined.

Lemma retained_iff it :
  retained it = true <->
  (is_Some (description it) \/ is_Some (item_code it)) /\ is_Some (quantity it).
Proof.
  unfold retained.
  rewrite andb_true_iff, orb_true_iff, !bool_decide_eq_true. tauto.
Qed.

Lemma derived_total_price cols row it :
  row_item cols row = Returns it ->
  number_at (total_col cols) row = Returns None ->
  forall q p, quantity it = Some q -> unit_price it = Some p ->
    total_price it = Some (mul q p).
Proof.
  unfold row_item. intros H Ht. rewrite Ht in H.
  destruct (number_at (qty_col cols) row) as [q'|]; simpl in H; [|done].
  destruct (number_at (price_col cols) row) as [p'|]; simpl in H; [|done].
  injection H as <-. simpl. by intros q p -> ->.
Qed.

Lemma extracted_total_price cols row it t :
  row_item cols row = Returns it ->
  number_at (total_col cols) row = Returns (Some t) ->
  total_price it = Some t.
Proof.
  unfold row_item. intros H Ht. rewrite Ht in H.
  destruct (number_at (qty_col cols) row) as [q'|]; simpl in H; [|done].
  destruct (number_at (price_col cols) row) as [p'|]; simpl in H; [|done].
  injection H as <-. simpl. by destruct q', p'.
Qed.



(** C9, as the code has it. A table qualifies when it has at least three
    columns (the length of its longest row) and its header row holds an
    item keyword, a quantity keyword and a price keyword. The line items
    added by the tables of a document are the line items of its
    qualifying tables, concatenated in the order of the tables; for two
    qualifying tables they are those of the first followed by those of
    the second. *)
Theorem items_of_all_qualifying_tables :
  qualifies [] = false /\
  (forall row0 rest, qualifies (row0 :: rest) =
     (3 <=? Pandas.width (row0 :: rest)) && header_has_groups row0) /\
  (forall tables r, extract_from_tables tables r =
     do l <- tables_items tables; Returns (add_items l r)) /\
  (forall t1 t2 r, qualifies t1 = true -> qualifies t2 = true ->
     extract_from_tables [t1; t2] r =
     do x1 <- table_items t1; do x2 <- table_items t2;
     Returns (add_items (x1 ++ x2) r)).
Proof.
  split; [done|]. split; [exact qualifies_cons|].
  split; [exact extract_from_tables_eq|].
  intros t1 t2 r H1 H2. rewrite extract_from_tables_eq. simpl. rewrite H1, H2.
  destruct (table_items t1) as [x1|]; simpl; [|done].
  destruct (table_items t2) as [x2|]; simpl; [|done].
  by rewrite app_nil_r.
Qed.

Lemma items_of_all_qualifying_tables_witness :
  qualifies widget_table = true /\
  extract_from_tables [widget_table; widget_table] initial =
  do x1 <- table_items widget_table; do x2 <- table_items widget_table;
  Returns (add_items (x1 ++ x2) initial).
Proof.
  assert (H : qualifies widget_table = true) by (vm_compute; reflexivity).
  split; [exact H|].
  apply (proj2 (proj2 (proj2 items_of_all_qualifying_tables))
           widget_table widget_table initial H H).
Defined.

(** A table of two columns whose header row holds an item keyword, a
    quantity keyword and a price keyword, and whose one data row would be
    retained, contributes no line item, against C9 as it is stated. *)
Lemma narrow_table_is_skipped :
  header_has_groups ["Item Qty"; "Price"] = true /\
  (exists it, table_items narrow_table = Returns [it]) /\
  qualifies narrow_table = false /\
  extract_from_tables [narrow_table; narrow_table] initial = Returns initial.
Proof.
  split; [by vm_compute|]. split; [eexists; by vm_compute|].
  split; by vm_compute.
Qed.

End SimplifiedClaims.

(** ** The claims about [DataExtractor] *)

Module ExtractorClaims.
Import PyStr DataExtractor XSpec Examples.

(** every pattern of the class is in the syntax the matcher reads *)
Lemma class_patterns_compile :
  Forall (fun p => is_Some (Re.compile p)) DataExtractor.patterns.
Proof.
  apply Forall_forall. intros p Hp. vm_compute in Hp.
  repeat (apply elem_of_cons in Hp as [->|Hp]; [by vm_compute; eexists|]).
  by apply elem_of_nil in Hp.
Qed.

(** the direct format of a PO number comes before the labelled ones *)
Lemma po_number_priority :
  po_details (_extract_from_text "Order Number: ABC-999, PO-12345" empty_data)
    !! "po_number" = Some (VStr "PO-12345").
Proof. by vm_compute. Qed.

(** a text without anything to find leaves the record empty *)
Lemma nothing_to_find : _extract_from_text "" empty_data = empty_data.
Proof. by vm_compute. Qed.

Lemma first_with_headers_none tables :
  first_with_headers tables = None <->
  Forall (fun t => meets_threshold t = false) tables.
Proof.
  induction tables as [|t tables IH]; [by split; [constructor|]|].
  rewrite Forall_cons. destruct t as [|row0 rows]; cbn [first_with_headers meets_threshold].
  - rewrite IH. tauto.
  - destruct (3 <=? header_match_count (lowered_header row0)).
    + split; [intros [=]|intros [[=] _]].
    + rewrite IH. tauto.
Qed.

Lemma first_with_headers_some tables t :
  first_with_headers tables = Some t -> t <> [] /\ t ∈ tables.
Proof.
  induction tables as [|t0 tables IH]; [done|].
  destruct t0 as [|row0 rows]; cbn [first_with_headers].
  - intros H. destruct (IH H). split; [done|by right].
  - destruct (3 <=? header_match_count (lowered_header row0)).
    + intros [= <-]. split; [done|by left].
    + intros H. destruct (IH H). split; [done|by right].
Qed.

(** the table the second loop ends with: the one it started with when
    no table has more rows than [max_rows], and otherwise the first of
    the tables with the most rows *)
Lemma largest_from_spec tables largest_table max_rows :
  (largest_from largest_table max_rows tables = largest_table /\
   forall t, t ∈ tables -> length t <= max_rows) \/
  (exists i t, tables !! i = Some t /\
     largest_from largest_table max_rows tables = Some t /\
     max_rows < length t /\
     (forall j t', tables !! j = Some t' -> length t' <= length t) /\
     (forall j t', j < i -> tables !! j = Some t' -> length t' < length t)).
Proof.
  revert largest_table max_rows.
  induction tables as [|t0 tables IH]; intros lt m; simpl.
  - left. split; [done|]. intros t Ht. by apply elem_of_nil in Ht.
  - destruct (negb (bool_decide (t0 = [])) && (m <? length t0)) eqn:E.
    + apply andb_prop in E as [_ Hlt%Nat.ltb_lt].
      destruct (IH (Some t0) (length t0)) as [[Hres Hall]|(i & t & Hi & Hres & Hm & Hmax & Hfirst)].
      * right. exists 0, t0. split; [done|]. split; [done|]. split; [done|]. split.
        -- intros [|j] t' Hj; simpl in Hj; [by injection Hj as <-|].
           apply Hall. by eapply list_elem_of_lookup_2.
        -- intros j t' Hj. lia.
      * right. exists (S i), t. split; [done|]. split; [done|]. split; [lia|]. split.
        -- intros [|j] t' Hj; simpl in Hj; [injection Hj as <-; lia|by eapply Hmax].
        -- intros [|j] t' Hj Hl; simpl in Hl; [injection Hl as <-; lia|].
           eapply Hfirst; [|done]. lia.
    + assert (Hle : length t0 <= m).
      { apply andb_false_iff in E as [E|E%Nat.ltb_ge]; [|done].
        apply negb_false_iff, bool_decide_eq_true in E. subst. simpl. lia. }
      destruct (IH lt m) as [[Hres Hall]|(i & t & Hi & Hres & Hm & Hmax & Hfirst)].
      * left. split; [done|]. intros t [->|Ht]%elem_of_cons; [done|by apply Hall].
      * right. exists (S i), t. split; [done|]. split; [done|]. split; [done|]. split.
        -- intros [|j] t' Hj; simpl in Hj; [injection Hj as <-; lia|by eapply Hmax].
        -- intros [|j] t' Hj Hl; simpl in Hl; [injection Hl as <-; lia|].
           eapply Hfirst; [|done]. lia.
Qed.

Lemma all_empty_no_headers tables :
  Forall (fun t => t = []) tables -> first_with_headers tables = None.
Proof.
  induction 1 as [|t tables -> _ IH]; simpl; done.
Qed.

Lemma find_none_iff tables :
  _find_line_items_table tables = None <-> Forall (fun t : table => t = []) tables.
Proof.
  unfold _find_line_items_table. split.
  - destruct (first_with_headers tables) eqn:E; [done|]. intros H.
    destruct (largest_from_spec tables None 0) as [[_ Hall]|(i & t & _ & Hres & _)].
    + apply Forall_forall. intros t Ht. apply Hall in Ht.
      destruct t; [done|simpl in Ht; lia].
    + congruence.
  - intros Hall. rewrite (all_empty_no_headers tables Hall).
    destruct (largest_from_spec tables None 0) as [[Hres _]|(i & t & Hi & _ & Hm & _)].
    + done.
    + apply list_elem_of_lookup_2 in Hi. rewrite Forall_forall in Hall.
      apply Hall in Hi. subst. simpl in Hm. lia.
Qed.

(** C3, as the code has it. The classifier returns absent exactly when
    every table of the collection is empty (has no row). When no table
    meets the threshold of three headers and some table has a row, it
    returns a table with the most rows, the first of those in the
    collection. *)
Theorem classifier_falls_back_to_largest tables :
  (_find_line_items_table tables = None <->
     Forall (fun t : table => t = []) tables) /\
  (Forall (fun t => meets_threshold t = false) tables ->
   forall t, _find_line_items_table tables = Some t ->
     t <> [] /\
     exists i, tables !! i = Some t /\
       (forall j t', tables !! j = Some t' -> length t' <= length t) /\
       (forall j t', j < i -> tables !! j = Some t' -> length t' < length t)).
Proof.
  split; [apply find_none_iff|].
  intros Hno%first_with_headers_none t. unfold _find_line_items_table. rewrite Hno.
  intros Ht.
  destruct (largest_from_spec tables None 0) as [[Hres _]|(i & t' & Hi & Hres & Hm & Hmax & Hfirst)].
  - congruence.
  - rewrite Hres in Ht. injection Ht as <-. split.
    + intros ->. simpl in Hm. lia.
    + by exists i.
Qed.

Lemma classifier_falls_back_to_largest_witness :
  Forall (fun t => meets_threshold t = false) [notes_table; dates_table] /\
  _find_line_items_table [notes_table; dates_table] = Some dates_table /\
  dates_table <> [] /\
  exists i, [notes_table; dates_table] !! i = Some dates_table /\
    (forall j t', [notes_table; dates_table] !! j = Some t' ->
       length t' <= length dates_table) /\
    (forall j t', j < i -> [notes_table; dates_table] !! j = Some t' ->
       length t' < length dates_table).
Proof.
  assert (H : Forall (fun t => meets_threshold t = false) [notes_table; dates_table])
    by (repeat constructor).
  split; [exact H|]. split; [reflexivity|].
  apply (proj2 (classifier_falls_back_to_largest [notes_table; dates_table]) H
           dates_table eq_refl).
Defined.

(** A collection that holds one table, without rows, is not empty, and
    the classifier returns absent for it, against C3 as it is stated. *)
Lemma empty_table_is_not_selected :
  let tables : list table := [[]] in
  tables <> [] /\ Forall (fun t => meets_threshold t = false) tables /\
  _find_line_items_table tables = None.
Proof. split; [done|]. split; [by repeat constructor|done]. Qed.

(** C8. Of two tables, one with the headers Date, Note and one with the
    headers SKU, Description, Qty, Price, the classifier selects the
    second, whatever rows the two tables have and in whichever order
    they come: the headers are looked at before the numbers of rows. *)
Theorem headers_come_before_size rows1 rows2 :
  let t1 : table := ["Date"; "Note"] :: rows1 in
  let t2 : table := ["SKU"; "Description"; "Qty"; "Price"] :: rows2 in
  meets_threshold t1 = false /\ meets_threshold t2 = true /\
  _find_line_items_table [t1; t2] = Some t2 /\
  _find_line_items_table [t2; t1] = Some t2.
Proof. repeat split; reflexivity. Qed.

Section Methods.

Variable line_items_of_frame : table -> option parsed_document -> method.
Variable _validate_and_clean : string -> option parsed_document -> method.

Abbreviation extract := (extract line_items_of_frame _validate_and_clean).

Lemma record_of_extract today doc s self :
  record_of (extract today doc s self)
  = answer line_items_of_frame _validate_and_clean today doc.
Proof.
  unfold DataExtractor.extract, answer.
  destruct (extract_body _ _ today doc empty_data) as [d [[]|e]]; simpl; [|done].
  by rewrite lookup_insert_eq.
Qed.

Lemma store_of_extract today doc s self l0 :
  l0 ∈ dom s -> store_of (extract today doc s self) !! l0 = s !! l0.
Proof.
  intros Hl0. unfold DataExtractor.extract, store_of.
  destruct (extract_body _ _ today doc empty_data) as [d o]; simpl.
  apply lookup_insert_ne. intros <-. by apply (is_fresh (dom s)).
Qed.

(** C10. [extract] binds the result structure anew at the start of
    every call: the record it returns is a function of the document and
    of the date, whatever the instance went through before, so that a
    second call with the same document on the same date returns an equal
    record and nothing of an earlier document shows in a later result;
    and the records returned by earlier calls stay as they are. *)
Theorem extract_starts_afresh today doc s self :
  let res := extract today doc s self in
  record_of res = answer line_items_of_frame _validate_and_clean today doc /\
  (forall s' self', record_of (extract today doc s' self') = record_of res) /\
  (forall doc', record_of (extract today doc (store_of (extract today doc' s self))
                             (self_of (extract today doc' s self)))
                = record_of res) /\
  record_of (extract today doc (store_of res) (self_of res)) = record_of res /\
  (forall l0, l0 ∈ dom s -> store_of res !! l0 = s !! l0) /\
  (forall l1, l1 ∈ dom (store_of res) ->
     store_of (extract today doc (store_of res) (self_of res)) !! l1
     = store_of res !! l1).
Proof.
  simpl. rewrite !record_of_extract. repeat split.
  - intros s' self'. by rewrite record_of_extract.
  - intros doc'. by rewrite record_of_extract.
  - intros l0. apply store_of_extract.
  - intros l1. apply store_of_extract.
Qed.

End Methods.

Lemma extract_starts_afresh_witness :
  let s := (new ∅).1 in
  let self := (new ∅).2 in
  let doc := well_formed "PO-12345" [] in
  let res := DataExtractor.extract (fun _ => no_op) (fun _ => no_op) a_day doc s self in
  extracted_data self ∈ dom s /\
  store_of res !! extracted_data self = s !! extracted_data self.
Proof.
  intros s self doc res.
  assert (H : extracted_data self ∈ dom s).
  { apply elem_of_dom. by vm_compute; eexists. }
  split; [exact H|].
  apply (proj1 (proj2 (proj2 (proj2 (proj2
    (extract_starts_afresh (fun _ => no_op) (fun _ => no_op) a_day doc s self)))))
    (extracted_data self) H).
Defined.

End ExtractorClaims.

(** ** Further properties of the simplified extractor *)

Module CompletionMore.
Import PyStr PyNum Simplified Spec Spec2 Examples.
Import StrFacts CompletionFacts ValidateFacts.

(** X1. After completion, creation date, due date, payment terms, shipping
    and total amount are populated. A date that is absent becomes the
    current date: when both dates are absent the due date equals the
    creation date, with no offset of 30 days; absent payment terms
    become Net 30 and absent shipping 75.00. *)
Theorem completion_defaults today r r' :
  validate_and_clean_data today r = Returns r' ->
  Forall (fun k => is_Some (po_details r' !! k)) always_populated /\
  po_details r' !! "Creation Date" = Some (default today (po_details r !! "Creation Date")) /\
  po_details r' !! "Due Date" = Some (default today (po_details r !! "Due Date")) /\
  (po_details r !! "Creation Date" = None -> po_details r !! "Due Date" = None ->
     po_details r' !! "Due Date" = po_details r' !! "Creation Date") /\
  po_details r' !! "Payment Terms" = Some (default "Net 30" (po_details r !! "Payment Terms")) /\
  po_details r' !! "Shipping" = Some (default "75.00" (po_details r !! "Shipping")).
Proof.
  intros H.
  destruct (validate_fields today r r' H)
    as (_ & _ & _ & _ & Hc & Hd & Hp & _ & _ & Hs & Ht & _).
  split.
  { unfold always_populated. repeat (apply Forall_cons; split; [by eexists|]).
    constructor. }
  split; [done|]. split; [done|]. split; [|done].
  intros Hc0 Hd0. by rewrite Hc, Hd, Hc0, Hd0.
Qed.

Lemma completion_defaults_witness :
  validate_and_clean_data a_day acme = Returns acme_completed /\
  po_details acme_completed !! "Due Date" = po_details acme_completed !! "Creation Date" /\
  po_details acme_completed !! "Payment Terms" = Some "Net 30".
Proof.
  assert (H : validate_and_clean_data a_day acme = Returns acme_completed)
    by (vm_compute; reflexivity).
  destruct (completion_defaults a_day acme acme_completed H) as (_ & _ & _ & Hd & Hp & _).
  split; [exact H|]. split; [exact (Hd eq_refl eq_refl)|exact Hp].
Defined.

(** X2. Completion never overwrites: a field of po_details that is present
    keeps its value, the fields it gives no default to stay as they are
    (present or absent), client_info and ship_to are unchanged, and a
    non-empty list of line items is unchanged. *)
Theorem completion_keeps_what_is_there today r r' :
  validate_and_clean_data today r = Returns r' ->
  (forall k v, po_details r !! k = Some v -> po_details r' !! k = Some v) /\
  (forall k, k ∉ defaultable -> po_details r' !! k = po_details r !! k) /\
  client_info r' = client_info r /\ ship_to r' = ship_to r /\
  (line_items r <> [] -> line_items r' = line_items r).
Proof.
  intros H.
  destruct (validate_fields today r r' H)
    as (Hci & Hst & Hli & Hpo & Hc & Hd & Hp & Hsub & Htax & Hs & Ht & Hother).
  split; [|split; [done|split; [done|split; [done|]]]].
  - intros k v Hk. destruct (decide (k ∈ defaultable)) as [Hin|Hout].
    + unfold defaultable in Hin. rewrite !elem_of_cons, elem_of_nil in Hin.
      destruct Hin as [->|[->|[->|[->|[->|[->|[->|[->|[]]]]]]]]].
      * by rewrite Hpo, Hk.
      * by rewrite Hc, Hk.
      * by rewrite Hd, Hk.
      * by rewrite Hp, Hk.
      * by rewrite Hsub, Hk.
      * by rewrite Htax, Hk.
      * by rewrite Hs, Hk.
      * by rewrite Ht, Hk.
    + by rewrite Hother.
  - intros Hne. rewrite Hli. by destruct (line_items r).
Qed.

Lemma completion_keeps_what_is_there_witness :
  validate_and_clean_data a_day complete_record = Returns complete_record /\
  po_details complete_record !! "Tax" = Some "2.55".
Proof.
  assert (H : validate_and_clean_data a_day complete_record = Returns complete_record)
    by (vm_compute; reflexivity).
  split; [exact H|].
  apply (proj1 (completion_keeps_what_is_there a_day complete_record complete_record H)
           "Tax" "2.55"). reflexivity.
Defined.

End CompletionMore.

Module CompletionTwice.
Import PyStr PyNum Simplified Spec Spec2 Examples.
Import StrFacts CompletionFacts ValidateFacts.

Lemma default_tax_returns (po : dict) :
  (forall s, po !! "Tax" = None -> po !! "Subtotal" = Some s -> is_Some (float_of_str s)) ->
  exists po', default_tax po = Returns po'.
Proof.
  intros H. unfold default_tax.
  destruct (po !! "Tax"); [by eexists|].
  destruct (po !! "Subtotal") as [s|]; [|by eexists].
  destruct (float_total s) as [f ->]; [by apply H|]. by eexists.
Qed.

Lemma default_total_present (po : dict) :
  is_Some (po !! "Total Amount") -> default_total po = Returns po.
Proof. intros [v Hv]. unfold default_total. by rewrite Hv. Qed.

(** a second completion returns when the first left no subtotal *)
Lemma second_completion_returns today r1 :
  po_details r1 !! "Subtotal" = None -> is_Some (po_details r1 !! "Total Amount") ->
  exists r2, validate_and_clean_data today r1 = Returns r2.
Proof.
  intros Hsub Htot. unfold validate_and_clean_data, complete_amounts.
  set (po4 := setdefault "Payment Terms" "Net 30" _).
  assert (H4 : forall k, k ∈ ["Subtotal"; "Tax"; "Total Amount"] ->
                 po4 !! k = po_details r1 !! k).
  { intros k Hk. unfold po4. rewrite !elem_of_cons, elem_of_nil in Hk.
    destruct Hk as [->|[->|[->|[]]]];
      by rewrite !setdefault_ne, default_po_number_ne. }
  set (po5 := default_subtotal (line_items r1) po4).
  assert (H5 : forall s, po5 !! "Subtotal" = Some s -> is_Some (float_of_str s)).
  { intros s. unfold po5. rewrite default_subtotal_eq, H4, Hsub by (by left).
    destruct (line_items r1); [done|]. intros [= <-]. apply float_of_str_str. }
  destruct (default_tax_returns po5) as [po6 E6]; [intros s _; apply H5|].
  rewrite E6. simpl.
  rewrite default_total_present; [simpl; by eexists|].
  rewrite setdefault_ne by done. rewrite (default_tax_ne _ _ _ E6) by done.
  unfold po5. rewrite default_subtotal_ne by done.
  rewrite H4; [done|]. right. right. left.
Qed.

(** X3. Completion is not idempotent on a record without line items and
    without subtotal: the first completion appends the placeholder and
    leaves subtotal absent; a second completion then derives the
    subtotal 100.0 from the placeholder (and the tax 8.5 when there was
    none) while the total amount stays what the first one computed. *)
Theorem second_completion_changes_the_record today today' r r1 :
  line_items r = [] -> po_details r !! "Subtotal" = None ->
  validate_and_clean_data today r = Returns r1 ->
  po_details r1 !! "Subtotal" = None /\ line_items r1 = [default_item] /\
  exists r2, validate_and_clean_data today' r1 = Returns r2 /\
    po_details r2 !! "Subtotal" = Some "100.0" /\
    po_details r2 !! "Total Amount" = po_details r1 !! "Total Amount" /\
    (po_details r !! "Tax" = None ->
       po_details r1 !! "Tax" = None /\ po_details r2 !! "Tax" = Some "8.5").
Proof.
  intros Hno Hsub H1.
  destruct (validate_fields today r r1 H1)
    as (_ & _ & Hli & _ & _ & _ & _ & Hs1 & Ht1 & _ & Htot1 & _).
  rewrite Hsub, Hno in Hs1. rewrite Hno in Hli. simpl in Hli.
  split; [done|]. split; [done|].
  destruct (second_completion_returns today' r1 Hs1) as [r2 H2]; [by rewrite Htot1|].
  exists r2. split; [done|].
  destruct (validate_fields today' r1 r2 H2)
    as (_ & _ & _ & _ & _ & _ & _ & Hs2 & Ht2 & _ & Htot2 & _).
  rewrite Hs1, Hli in Hs2.
  assert (Hsub2 : po_details r2 !! "Subtotal" = Some "100.0").
  { rewrite Hs2. by vm_compute. }
  split; [done|]. split.
  - rewrite Htot2, Htot1. done.
  - intros Htax. rewrite Hs1, Htax in Ht1. split; [done|].
    rewrite Ht1, Hsub2 in Ht2. rewrite Ht2.
    unfold derived_tax, amount_of. rewrite Hsub2. by vm_compute.
Qed.

Lemma second_completion_changes_the_record_witness :
  validate_and_clean_data a_day acme = Returns acme_completed /\
  exists r2, validate_and_clean_data a_day acme_completed = Returns r2 /\
    po_details r2 !! "Subtotal" = Some "100.0" /\
    po_details r2 !! "Total Amount" = po_details acme_completed !! "Total Amount" /\
    (po_details acme !! "Tax" = None ->
       po_details acme_completed !! "Tax" = None /\ po_details r2 !! "Tax" = Some "8.5").
Proof.
  assert (H : validate_and_clean_data a_day acme = Returns acme_completed)
    by (vm_compute; reflexivity).
  split; [exact H|].
  apply (second_completion_changes_the_record a_day a_day acme acme_completed
           eq_refl eq_refl H).
Defined.

End CompletionTwice.

Module TextMore.
Import PyStr PyNum Simplified Spec Spec2 Numeral Examples.
Import StrFacts ShapeFacts CompletionFacts TextFacts.

Lemma amount_decimal pattern text r m :
  Re.compile pattern = Some r -> ReSpec.last_factor r = ReSpec.amount_group ->
  Re.search pattern text Re.I = Some m ->
  decimal_shape (chars (amount (Re.group m 1))).
Proof.
  intros Hc Hl Hs.
  destruct (search_matches _ _ _ _ _ Hc Hs) as (st0 & st' & Hat & Hm & ->).
  apply matches_last_factor in Hm as (w & st1 & Hw & Hm). rewrite Hl in Hm.
  exact (amount_group_shape (chars text) st1 st' (Re.pos st0)
           (reads_at_text _ _ _ _ Hat Hw) Hm).
Qed.

Lemma decimals_insert (po : dict) k v :
  (k ∈ amount_fields -> decimal_shape (chars v)) -> decimals po ->
  decimals (<[k := v]> po).
Proof.
  intros Hv Hn k' v' Hk'. destruct (decide (k = k')) as [<-|Hne].
  - rewrite lookup_insert_eq. intros [= <-]. by apply Hv.
  - rewrite lookup_insert_ne by done. by apply Hn.
Qed.

Ltac field_out H :=
  unfold amount_fields in H; rewrite ?elem_of_cons, elem_of_nil in H;
  repeat (destruct H as [H|H]; [discriminate H|]); destruct H.

Ltac decimal_step :=
  apply on_match_invariant; [|assumption]; intros ? ? ?;
  apply decimals_insert; [|assumption];
  let H := fresh in intros H; field_out H.

Ltac decimal_amount_step :=
  apply on_match_ind; [assumption|]; intros ? ?;
  apply decimals_insert; [|assumption]; intros _;
  match goal with
  | H : Re.search ?p ?t Re.I = Some ?m |- _ =>
      let c := eval vm_compute in (Re.compile p) in
      match c with
      | Some ?r =>
          apply (amount_decimal p t r m);
            [vm_compute; reflexivity|vm_compute; reflexivity|exact H]
      end
  end.

Lemma extract_po_details_decimals text r :
  decimals (po_details r) -> decimals (po_details (extract_po_details text r)).
Proof.
  intros H0. unfold extract_po_details.
  set (P := fun r : result => decimals (po_details r)).
  change (P r) in H0.
  set (r1 := on_match _ _ _ _ _ r).
  assert (H1 : P r1) by (unfold r1, P; decimal_step).
  set (r2 := on_match _ _ _ _ _ r1).
  assert (H2 : P r2) by (unfold r2, P; decimal_step).
  set (r3 := on_match _ _ _ _ _ r2).
  assert (H3 : P r3) by (unfold r3, P; decimal_step).
  set (r4 := on_match _ _ _ _ _ r3).
  assert (H4 : P r4) by (unfold r4, P; decimal_step).
  set (r5 := on_match _ _ _ _ _ r4).
  assert (H5 : P r5) by (unfold r5, P in *; decimal_amount_step).
  set (r6 := on_match _ _ _ _ _ r5).
  assert (H6 : P r6) by (unfold r6, P in *; decimal_amount_step).
  set (r7 := on_match _ _ _ _ _ r6).
  assert (H7 : P r7) by (unfold r7, P in *; decimal_amount_step).
  set (r8 := on_match _ _ _ _ _ r7).
  assert (H8 : P r8) by (unfold r8, P in *; decimal_amount_step).
  unfold P in *. decimal_step.
Qed.

Lemma po_details_client text r :
  po_details (extract_client_info text r) = po_details r.
Proof.
  unfold extract_client_info.
  repeat (apply (on_match_invariant (fun x => po_details x = po_details r));
          [by intros ? ? <-|]).
  done.
Qed.

Lemma po_details_shipping text r :
  po_details (extract_shipping_info text r) = po_details r.
Proof.
  unfold extract_shipping_info.
  repeat (apply (on_match_invariant (fun x => po_details x = po_details r));
          [by intros ? ? <-|]).
  done.
Qed.



End TextMore.

Module TableMore.
Import PyStr PyNum Simplified Spec Spec2 Numeral Examples.
Import StrFacts TableFacts.

Lemma find_from_spec headers keywords :
  forall i0,
  match find_from i0 headers keywords with
  | Some i =>
      exists j header, i = i0 + j /\ headers !! j = Some header /\
        any_in keywords header = true /\
        forall j' header', j' < j -> headers !! j' = Some header' ->
          any_in keywords header' = false
  | None => Forall (fun header => any_in keywords header = false) headers
  end.
Proof.
  induction headers as [|h headers IH]; intros i0; simpl; [constructor|].
  destruct (any_in keywords h) eqn:E.
  - exists 0, h. split; [lia|]. split; [done|]. split; [done|]. intros j' h' Hj. lia.
  - specialize (IH (S i0)). destruct (find_from (S i0) headers keywords) as [i|].
    + destruct IH as (j & header & -> & Hj & Hh & Hfirst).
      exists (S j), header. split; [lia|]. split; [done|]. split; [done|].
      intros [|j'] h' Hlt Hl; simpl in Hl; [by injection Hl as <-|].
      apply (Hfirst j'); [lia|done].
    + by constructor.
Qed.

(** X5. [find_column_index] gives the index of the first header that
    contains one of the keywords, an index within the headers, and
    nothing exactly when no header contains a keyword. *)
Theorem find_column_index_first headers keywords :
  (forall i, find_column_index headers keywords = Some i ->
     i < length headers /\
     exists header, headers !! i = Some header /\ any_in keywords header = true /\
       forall j header', j < i -> headers !! j = Some header' ->
         any_in keywords header' = false) /\
  (find_column_index headers keywords = None <->
     Forall (fun header => any_in keywords header = false) headers).
Proof.
  unfold find_column_index. pose proof (find_from_spec headers keywords 0) as H.
  destruct (find_from 0 headers keywords) as [i|]; split.
  - intros i' [= <-]. destruct H as (j & header & -> & Hj & Hh & Hfirst). simpl. split.
    + by eapply lookup_lt_Some.
    + by exists header.
  - split; [done|]. intros Hall. destruct H as (j & header & _ & Hj & Hh & _).
    rewrite Forall_forall in Hall.
    apply list_elem_of_lookup_2, Hall in Hj. congruence.
  - done.
  - done.
Qed.

Lemma find_column_index_first_witness :
  find_column_index ["item"; "qty"; "unit price"] price_keywords = Some 2 /\
  2 < length ["item"; "qty"; "unit price"] /\
  exists header, ["item"; "qty"; "unit price"] !! 2 = Some header /\
    any_in price_keywords header = true /\
    forall j header', j < 2 -> ["item"; "qty"; "unit price"] !! j = Some header' ->
      any_in price_keywords header' = false.
Proof.
  split; [reflexivity|].
  apply (proj1 (find_column_index_first ["item"; "qty"; "unit price"] price_keywords) 2).
  reflexivity.
Defined.

(** *** A table of one row *)

Lemma starts_with_digit p c l d :
  is_digit c = false -> is_digit d = true -> starts_with (c :: p) (d :: l) = false.
Proof.
  intros Hc Hd. simpl. destruct (Ascii.eqb c d) eqn:E; [|done].
  apply Ascii.eqb_eq in E. congruence.
Qed.

Lemma contains_in_digits p c l :
  is_digit c = false -> digits l -> contains_chars (c :: p) l = false.
Proof.
  intros Hc Hl. induction Hl as [|d l Hd _ IH]; [done|].
  cbn [contains_chars]. by rewrite (starts_with_digit p c l d Hc Hd), IH.
Qed.

Lemma any_in_digits keywords label :
  Forall lettered keywords -> digits (chars label) -> any_in keywords label = false.
Proof.
  intros Hk Hl. unfold any_in. induction Hk as [|kw kws (c & p & Hkw & Hc) _ IH]; [done|].
  simpl. unfold contains. rewrite Hkw, (contains_in_digits p c _ Hc Hl). exact IH.
Qed.

Lemma find_from_digits keywords labels i0 :
  Forall lettered keywords -> Forall (fun l => digits (chars l)) labels ->
  find_from i0 labels keywords = None.
Proof.
  intros Hk Hl. revert i0. induction Hl as [|l labels Hd _ IH]; intros i0; [done|].
  simpl. by rewrite (any_in_digits keywords l Hk Hd).
Qed.

Lemma lower_digits l : digits l -> map lower_char l = l.
Proof.
  intros H. apply map_lower_numeric. by apply digits_numeric.
Qed.

Lemma column_labels_digits df :
  Forall (fun l => digits (chars l)) (column_labels df).
Proof.
  unfold column_labels. apply Forall_forall. intros l Hl.
  apply list_elem_of_fmap in Hl as (i & -> & _).
  assert (Hd : digits (chars (str_int (Z.of_nat i)))).
  { unfold str_int. destruct (Z.of_nat i) eqn:E; [| |lia];
      rewrite chars_of_chars; apply N_digits_digits. }
  unfold lower. by rewrite chars_of_chars, (lower_digits _ Hd).
Qed.

Lemma keywords_lettered :
  Forall lettered item_keywords /\ Forall lettered code_keywords /\
  Forall lettered qty_keywords /\ Forall lettered price_keywords /\
  Forall lettered total_keywords.
Proof.
  repeat split; repeat (constructor; [by eexists _, _|]); constructor.
Qed.

Lemma find_columns_labels df :
  find_columns (column_labels df) = Columns None None None None None.
Proof.
  destruct keywords_lettered as (H1 & H2 & H3 & H4 & H5).
  unfold find_columns, find_column_index.
  by rewrite !find_from_digits by (done || apply column_labels_digits).
Qed.

(** X6. A table of one row yields no line item, whatever the row holds,
    and an empty table none either: the row is looked up under the
    column labels 0, 1, ..., which contain no keyword, and no exception
    can arise. *)
Theorem header_only_table_yields_nothing (t : table) r :
  length t <= 1 ->
  table_items t = Returns [] /\
  extract_line_items (Pandas.DataFrame t) r = Returns r.
Proof.
  intros Hlen.
  assert (Hitems : table_items t = Returns []).
  { unfold table_items, data_and_headers.
    assert (Hl : length (Pandas.DataFrame t) = length t)
      by (unfold Pandas.DataFrame; apply length_map).
    replace (1 <? length (Pandas.DataFrame t)) with false
      by (symmetry; apply Nat.ltb_ge; lia).
    rewrite find_columns_labels.
    destruct (Pandas.DataFrame t) as [|row [|row' df]]; [done| |simpl in Hl; lia].
    done. }
  split; [done|]. rewrite extract_line_items_eq, Hitems. simpl.
  apply f_equal, add_items_nil.
Qed.

Lemma header_only_table_yields_nothing_witness :
  length [["Item"; "Qty"; "Unit Price"]] <= 1 /\
  table_items [["Item"; "Qty"; "Unit Price"]] = Returns [] /\
  extract_line_items (Pandas.DataFrame [["Item"; "Qty"; "Unit Price"]]) initial
    = Returns initial.
Proof.
  assert (H : length [["Item"; "Qty"; "Unit Price"]] <= 1) by (simpl; lia).
  split; [exact H|].
  exact (header_only_table_yields_nothing [["Item"; "Qty"; "Unit Price"]] initial H).
Defined.

End TableMore.

(** ** The numbers read from the cells *)

Module CellFacts.
Import PyStr PyNum Simplified Spec Spec2 Numeral Examples.
Import StrFacts TableFacts.

Lemma iter_pos_invariant {A} (P : A -> Prop) (f : A -> A) :
  (forall x, P x -> P (f x)) -> forall p x, P x -> P (SpecFloat.iter_pos f p x).
Proof.
  intros Hf. induction p as [p IH|p IH|]; intros x Hx; simpl; auto.
Qed.

Lemma shr_1_nonneg mrs : (0 <= shr_m mrs)%Z -> (0 <= shr_m (shr_1 mrs))%Z.
Proof.
  destruct mrs as [m r s]. simpl. intros Hm.
  destruct m as [|[p|p|]|p]; simpl; lia.
Qed.

Lemma shr_fexp_nonneg m e l :
  (0 <= m)%Z -> (0 <= shr_m (fst (shr_fexp prec emax m e l)))%Z.
Proof.
  intros Hm. unfold shr_fexp, shr.
  assert (H0 : (0 <= shr_m (shr_record_of_loc m l))%Z).
  { by destruct l as [|[]]. }
  destruct (fexp prec emax (Zdigits2 m + e) - e)%Z; simpl; [done| |done].
  by apply iter_pos_invariant; [apply shr_1_nonneg|].
Qed.

Lemma round_nearest_even_nonneg m l : (0 <= m)%Z -> (0 <= round_nearest_even m l)%Z.
Proof.
  intros Hm. destruct l as [|[]]; simpl; try lia. destruct (Z.even m); lia.
Qed.

Lemma binary_round_aux_plain m e l :
  (0 <= m)%Z -> plain (binary_round_aux prec emax false m e l).
Proof.
  intros Hm. unfold binary_round_aux.
  pose proof (shr_fexp_nonneg m e l Hm) as H1.
  destruct (shr_fexp prec emax m e l) as [mrs' e']. simpl in H1.
  pose proof (shr_fexp_nonneg _ e' loc_Exact
                (round_nearest_even_nonneg _ (loc_of_shr_record mrs') H1)) as H2.
  destruct (shr_fexp prec emax _ e' loc_Exact) as [mrs'' e'']. simpl in H2.
  destruct (shr_m mrs''); [done| |lia].
  by destruct (e'' <=? emax - prec)%Z.
Qed.

Lemma float_of_decimal_plain n e10 : plain (float_of_decimal false n e10).
Proof.
  unfold float_of_decimal. destruct n as [|p]; [done|].
  destruct e10 as [|k|k].
  - unfold binary_normalize. simpl. unfold binary_round.
    destruct (shl_align _ _ _). by apply binary_round_aux_plain.
  - assert (Hpos : exists q, (Z.pos p * 10 ^ Z.pos k)%Z = Z.pos q).
    { assert (0 < Z.pos p * 10 ^ Z.pos k)%Z by (apply Z.mul_pos_pos; lia).
      destruct (Z.pos p * 10 ^ Z.pos k)%Z eqn:E; [lia|by eexists|lia]. }
    destruct Hpos as [q Hq]. simpl cond_Zopp. rewrite Hq.
    unfold binary_normalize, binary_round.
    destruct (shl_align _ _ _). by apply binary_round_aux_plain.
  - unfold float_of_ratio, SFdiv. simpl xorb.
    unfold SFdiv_core_binary.
    set (m' := match _ with Z.pos _ => _ | _ => _ end).
    assert (Hm' : (0 <= m')%Z).
    { unfold m'. destruct (_ - _ - _)%Z; [lia| |lia].
      rewrite Z.shiftl_mul_pow2 by lia. apply Z.mul_nonneg_nonneg; lia. }
    pose proof (Z.div_eucl_eq m' (Z.pos (10 ^ k))) as Hdiv.
    pose proof (Z_div_mod m' (Z.pos (10 ^ k))) as Hmod.
    destruct (Z.div_eucl m' (Z.pos (10 ^ k))) as [q r].
    apply binary_round_aux_plain.
    destruct Hmod as [Heq Hr]; [lia|]. nia.
Qed.

(** the characters of a reduced cell are digits and points *)
Lemma reduced_chars c : Forall (fun x => digit_or_dot x = true) (reduced c).
Proof.
  unfold reduced, keep. rewrite chars_of_chars. apply Forall_forall.
  intros x Hx. by apply list_elem_of_filter in Hx as [? _].
Qed.

Lemma digit_or_dot_cases x :
  digit_or_dot x = true -> is_digit x = true \/ x = "."%char.
Proof.
  unfold digit_or_dot. intros [H|H]%orb_prop; [by left|right].
  by apply Ascii.eqb_eq in H.
Qed.

Lemma digit_or_dot_numeric l :
  Forall (fun x => digit_or_dot x = true) l -> Forall (fun x => numeric x = true) l.
Proof.
  intros H. eapply Forall_impl; [exact H|]. intros x Hx.
  destruct (digit_or_dot_cases x Hx) as [Hd| ->]; [by apply digit_numeric|done].
Qed.

Lemma span_digits_split l :
  exists ds r, span_digits l = (ds, r) /\ l = ds ++ r /\ digits ds /\
    match r with [] => True | x :: _ => is_digit x = false end.
Proof.
  induction l as [|x l (ds & r & Hs & Hl & Hd & Hr)]; simpl.
  - exists [], []. repeat split. constructor.
  - destruct (is_digit x) eqn:E.
    + rewrite Hs. exists (x :: ds), r. rewrite Hl.
      split; [done|]. split; [done|]. split; [by constructor|done].
    + exists [], (x :: l). repeat split; [constructor|done].
Qed.

Lemma points_digits ds : digits ds -> points ds = 0.
Proof.
  unfold points. induction 1 as [|d ds Hd _ IH]; [done|].
  destruct (digit_facts d Hd) as (_ & _ & Hp & _).
  rewrite Ascii.eqb_sym in Hp. cbn [List.filter]. by rewrite Hp.
Qed.

Lemma points_app l1 l2 : points (l1 ++ l2) = points l1 + points l2.
Proof. unfold points. by rewrite List.filter_app, length_app. Qed.

Lemma has_digit_digits ds : digits ds -> has_digit ds = negb (bool_decide (ds = [])).
Proof. intros [|d ds' Hd _]; [done|]. simpl. by rewrite Hd. Qed.

Lemma has_digit_app l1 l2 : has_digit (l1 ++ l2) = has_digit l1 || has_digit l2.
Proof. apply existsb_app. Qed.

(** [float] on a string of digits and points *)
Lemma float_of_reduced l :
  Forall (fun x => digit_or_dot x = true) l -> l <> [] ->
  match float_of_str (of_chars l) with
  | Some f => has_digit l = true /\ points l <= 1 /\ plain f
  | None => has_digit l = false \/ 2 <= points l
  end.
Proof.
  intros Hl Hne. pose proof (digit_or_dot_numeric l Hl) as Hnum.
  unfold float_of_str. rewrite chars_of_chars, strip_chars_id.
  2:{ eapply Forall_impl; [exact Hnum|]. intros x Hx. by apply numeric_facts. }
  destruct l as [|x0 l0] eqn:El; [done|]. rewrite <- El in *.
  assert (Hx0 : is_digit x0 = true \/ x0 = "."%char).
  { apply digit_or_dot_cases. rewrite El in Hl. by inversion Hl. }
  assert (Hsplit : split_sign l = (false, l)).
  { rewrite El. simpl. destruct Hx0 as [Hd| ->]; [|done].
    by destruct (digit_facts x0 Hd) as (-> & -> & _). }
  rewrite Hsplit, (map_lower_numeric l Hnum).
  assert (Hw : forall w, w = "inf" \/ w = "infinity" \/ w = "nan" ->
                String.eqb (of_chars l) w = false).
  { intros w Hw. rewrite El. apply not_word; [| |done].
    - destruct Hx0 as [Hd| ->]; [|done]. by destruct (digit_facts x0 Hd) as (_ & _ & _ & -> & _).
    - destruct Hx0 as [Hd| ->]; [|done].
      by destruct (digit_facts x0 Hd) as (_ & _ & _ & _ & -> & _). }
  rewrite !Hw by auto. simpl. rewrite (drop_underscores_id l false Hnum).
  clear Hsplit Hw Hx0 El x0 l0. unfold parse_decimal.
  destruct (span_digits_split l) as (ip & r1 & -> & -> & Hip & Hr1).
  destruct r1 as [|x r1].
  - rewrite app_nil_r in *. destruct ip as [|d ip]; [done|].
    simpl. rewrite points_digits by done.
    split; [|split; [lia|apply float_of_decimal_plain]].
    inversion Hip; subst. simpl. by rewrite H1.
  - assert (x = "."%char) as ->.
    { apply Forall_app in Hl as [_ Hl]. inversion Hl; subst.
      destruct (digit_or_dot_cases x) as [Hd| ->]; [done|congruence|done]. }
    change (Ascii.eqb "." ".") with true. cbv iota.
    destruct (span_digits_split r1) as (fp & r2 & -> & -> & Hfp & Hr2).
    rewrite has_digit_app, !points_app, (points_digits ip Hip).
    change (has_digit ("."%char :: fp ++ r2)) with (has_digit (fp ++ r2)).
    change (points ("."%char :: fp ++ r2)) with (S (points (fp ++ r2))).
    rewrite has_digit_app, points_app, (points_digits fp Hfp).
    destruct r2 as [|y r2].
    + simpl. rewrite !has_digit_digits by done.
      destruct (ip ++ fp) as [|z zs] eqn:E.
      * apply app_eq_nil in E as [-> ->]. by left.
      * split; [|split; [by vm_compute|apply float_of_decimal_plain]].
        destruct ip; [destruct fp; [done|done]|done].
    + assert (y = "."%char) as ->.
      { apply Forall_app in Hl as [_ Hl]. inversion Hl as [|? ? _ Hl']; subst.
        apply Forall_app in Hl' as [_ Hl']. inversion Hl'; subst.
        destruct (digit_or_dot_cases y) as [Hd| ->]; [done|congruence|done]. }
      assert (Hnone : parse_exponent ("."%char :: r2) = None) by done.
      rewrite Hnone.
      assert (Hp : 2 <= 0 + S (0 + points ("."%char :: r2))).
      { change (points ("."%char :: r2)) with (S (points r2)). lia. }
      by destruct (ip ++ fp); right.
Qed.


End CellFacts.

(** ** The outcome of the whole extraction *)

Module PipelineMore.
Import PyStr PyNum Simplified Spec Spec2 Numeral Examples.
Import StrFacts ValidateFacts TextFacts TableFacts PipelineFacts.

Lemma number_at_error col row e : number_at col row = Raises e -> e = ValueError.
Proof.
  unfold number_at, number_of_cell. destruct (at_column col row); [|done].
  destruct (is_empty _); [done|]. destruct (float_of_str _); [done|]. by intros [= <-].
Qed.

Lemma row_item_error cols row e : row_item cols row = Raises e -> e = ValueError.
Proof.
  unfold row_item.
  destruct (number_at (qty_col cols) row) eqn:E1; simpl;
    [|intros [= <-]; by eapply number_at_error].
  destruct (number_at (price_col cols) row) eqn:E2; simpl;
    [|intros [= <-]; by eapply number_at_error].
  destruct (number_at (total_col cols) row) eqn:E3; simpl;
    [done|intros [= <-]; by eapply number_at_error].
Qed.

Lemma map_outcome_error {A B} (f : A -> outcome B) l e :
  (forall x e', f x = Raises e' -> e' = ValueError) ->
  map_outcome f l = Raises e -> e = ValueError.
Proof.
  intros Hf. induction l as [|x l IH]; simpl; [done|].
  destruct (f x) eqn:E; simpl; [|intros [= <-]; by eapply Hf].
  destruct (map_outcome f l); simpl; [done|]. intros [= <-]. by apply IH.
Qed.

Lemma table_items_error t e : table_items t = Raises e -> e = ValueError.
Proof.
  unfold table_items. destruct (data_and_headers _) as [data_df headers].
  destruct (map_outcome _ data_df) eqn:E; simpl; [done|]. intros [= <-].
  eapply map_outcome_error; [|exact E]. intros x e'. apply row_item_error.
Qed.

Lemma tables_items_error tables e : tables_items tables = Raises e -> e = ValueError.
Proof.
  induction tables as [|t tables IH]; simpl; [done|].
  destruct (qualifies t).
  - destruct (table_items t) eqn:E; simpl; [|intros [= <-]; by eapply table_items_error].
    destruct (tables_items tables); simpl; [done|]. intros [= <-]. by apply IH.
  - simpl. destruct (tables_items tables); simpl; [done|]. intros [= <-]. by apply IH.
Qed.

Lemma missing_keys_as_empty today doc :
  extract_data today doc =
  extract_data today (well_formed (default "" (doc_text doc)) (default [] (doc_tables doc))).
Proof.
  destruct doc as [[text|] [tables|]]; unfold extract_data, well_formed; simpl; try done.
Qed.

(** X8. The outcome of [extract_data] on any dictionary, with or without
    the keys text and tables. A missing key counts as an empty text or
    as no table. The call raises exactly when the conversion of a cell
    of a qualifying table raises, and then the error is ValueError;
    otherwise it returns a record whose line items are those of the
    qualifying tables, or the placeholder when there are none. *)
Theorem outcome_of_extraction today doc :
  extract_data today doc =
  extract_data today (well_formed (default "" (doc_text doc)) (default [] (doc_tables doc))) /\
  match tables_items (default [] (doc_tables doc)) with
  | Returns items =>
      exists r, extract_data today doc = Returns r /\ line_items r = ensure_item items
  | Raises e => e = ValueError /\ extract_data today doc = Raises ValueError
  end.
Proof.
  split; [apply missing_keys_as_empty|].
  rewrite missing_keys_as_empty, extract_data_eq.
  set (text := default "" (doc_text doc)).
  destruct (tables_items _) as [items|e] eqn:E; simpl.
  - destruct (text_stage text) as [Hno Hnum].
    set (r0 := add_items items (extract_from_text text initial)).
    assert (Hli : line_items r0 = items).
    { unfold r0, add_items. cbn [line_items]. by rewrite Hno. }
    destruct (validate_numerals_total today r0) as [r Hr]; [exact Hnum|].
    exists r. split; [done|].
    destruct (validate_fields today r0 r Hr) as (_ & _ & Hl & _). by rewrite Hl, Hli.
  - apply tables_items_error in E. by subst.
Qed.

End PipelineMore.

(** ** [DataExtractor]: the choice of the table and the calls that stop early *)

Module ExtractorMore.
Import PyStr DataExtractor XSpec Spec2 Examples.

Lemma first_with_headers_first tables i t :
  tables !! i = Some t -> meets_threshold t = true ->
  (forall j t', j < i -> tables !! j = Some t' -> meets_threshold t' = false) ->
  first_with_headers tables = Some t.
Proof.
  revert i. induction tables as [|t0 tables IH]; intros i Hi Ht Hbefore; [done|].
  destruct i as [|i]; simpl in Hi.
  - injection Hi as ->. destruct t as [|row0 rows]; [done|].
    cbn [first_with_headers meets_threshold] in *. by rewrite Ht.
  - assert (H0 : meets_threshold t0 = false) by (apply (Hbefore 0); [lia|done]).
    assert (Hrest : first_with_headers tables = Some t).
    { apply (IH i); [done|done|]. intros j t' Hj Hl. apply (Hbefore (S j)); [lia|done]. }
    destruct t0 as [|row0 rows]; cbn [first_with_headers meets_threshold] in *; [done|].
    by rewrite H0.
Qed.

Lemma first_with_headers_member tables t :
  first_with_headers tables = Some t -> t <> [] /\ t ∈ tables.
Proof.
  induction tables as [|t0 tables IH]; [done|].
  destruct t0 as [|row0 rows]; cbn [first_with_headers].
  - intros H. destruct (IH H). split; [done|by right].
  - destruct (3 <=? header_match_count (lowered_header row0)).
    + intros [= <-]. split; [done|by left].
    + intros H. destruct (IH H). split; [done|by right].
Qed.

Lemma largest_from_member tables largest_table max_rows t :
  largest_from largest_table max_rows tables = Some t ->
  largest_table = Some t \/ (t <> [] /\ t ∈ tables).
Proof.
  revert largest_table max_rows.
  induction tables as [|t0 tables IH]; intros lt m; simpl; [by left|].
  destruct (negb (bool_decide (t0 = [])) && (m <? length t0)) eqn:E.
  - intros H. apply IH in H as [[= ->]|[Hne Hin]].
    + right. apply andb_prop in E as [E _].
      apply negb_true_iff, bool_decide_eq_false in E. split; [done|by left].
    + right. split; [done|by right].
  - intros H. apply IH in H as [H|[Hne Hin]]; [by left|].
    right. split; [done|by right].
Qed.

Lemma find_member tables t :
  _find_line_items_table tables = Some t -> t <> [] /\ t ∈ tables.
Proof.
  unfold _find_line_items_table. destruct (first_with_headers tables) eqn:E.
  - intros [= <-]. by apply first_with_headers_member.
  - intros H. by apply largest_from_member in H as [?|?].
Qed.

(** X9. The table [_find_line_items_table] returns is a table of the
    collection and has a row. When a table of the collection holds
    three of the headers in its first row, the first such table is
    returned, whatever the numbers of rows of the tables are. *)
Theorem classifier_prefers_headers tables :
  (forall t, _find_line_items_table tables = Some t -> t <> [] /\ t ∈ tables) /\
  (forall i t, tables !! i = Some t -> meets_threshold t = true ->
     (forall j t', j < i -> tables !! j = Some t' -> meets_threshold t' = false) ->
     _find_line_items_table tables = Some t).
Proof.
  split; [apply find_member|].
  intros i t Hi Ht Hbefore. unfold _find_line_items_table.
  by rewrite (first_with_headers_first tables i t Hi Ht Hbefore).
Qed.

Section Methods.

Variable line_items_of_frame : table -> option parsed_document -> method.
Variable _validate_and_clean : string -> option parsed_document -> method.

(** X10. When no table of the document has more than one row,
    [_extract_from_tables] returns and leaves the record as it is:
    nothing is read from a table that has a header row only, whichever
    table is chosen. *)
Theorem short_tables_are_passed_over tables self_parsed d :
  Forall (fun t : table => length t <= 1) tables ->
  _extract_from_tables line_items_of_frame tables self_parsed d = (d, Returns tt).
Proof.
  intros Hall. unfold _extract_from_tables. destruct tables as [|t0 tables0] eqn:Et; [done|].
  rewrite <- Et in *. destruct (_find_line_items_table tables) as [t|] eqn:E; [|done].
  destruct (find_member tables t E) as [Hne Hin].
  rewrite Forall_forall in Hall. specialize (Hall t Hin).
  destruct t as [|row0 rows]; [done|]. unfold _extract_line_items.
  assert (Hlt : (length (row0 :: rows) <? 2) = true) by (apply Nat.ltb_lt; lia).
  rewrite Hlt. by rewrite orb_true_r.
Qed.

(** X11. [extract] on a dictionary that lacks the key text or the key tables
    raises KeyError. By then the instance is bound to the dictionary and
    to a new record, which holds what the text gave when only the key
    tables is missing, and [_validate_and_clean] has not run. *)
Theorem extract_needs_both_keys today doc s self :
  doc_text doc = None \/ doc_tables doc = None ->
  let res := extract line_items_of_frame _validate_and_clean today doc s self in
  (res.2) = Raises KeyError /\
  parsed_data (self_of res) = Some doc /\
  (extracted_data (self_of res) ∉ dom s) /\
  store_of res !! extracted_data (self_of res) =
    Some (match doc_text doc with
          | Some text => _extract_from_text text empty_data
          | None => empty_data
          end).
Proof.
  intros Hmissing. unfold extract, extract_body, self_of, store_of.
  destruct (doc_text doc) as [text|].
  - destruct Hmissing as [?|Htables]; [done|]. rewrite Htables. simpl.
    split; [done|]. split; [done|]. split; [apply is_fresh|by rewrite lookup_insert_eq].
  - simpl. split; [done|]. split; [done|]. split; [apply is_fresh|by rewrite lookup_insert_eq].
Qed.

End Methods.

Lemma classifier_prefers_headers_witness :
  [notes_table; widget_table; dates_table] !! 1 = Some widget_table /\
  _find_line_items_table [notes_table; widget_table; dates_table] = Some widget_table.
Proof.
  split; [reflexivity|].
  apply (proj2 (classifier_prefers_headers [notes_table; widget_table; dates_table])
           1 widget_table); [reflexivity|reflexivity|].
  intros [|j] t' Hj Ht'; [by injection Ht' as <-|lia].
Defined.

Lemma short_tables_are_passed_over_witness :
  Forall (fun t : table => length t <= 1) [[["Item"; "Qty"; "Price"]]; []] /\
  _extract_from_tables (fun _ => failing) [[["Item"; "Qty"; "Price"]]; []] None empty_data
  = (empty_data, Returns tt).
Proof.
  assert (H : Forall (fun t : table => length t <= 1) [[["Item"; "Qty"; "Price"]]; []]).
  { repeat constructor. }
  split; [exact H|].
  apply (short_tables_are_passed_over (fun _ => failing) _ None empty_data H).
Defined.

Lemma extract_needs_both_keys_witness :
  let res := extract (fun _ => failing) (fun _ => failing) a_day
               (without_tables "PO-12345") ∅ (new ∅).2 in
  (res.2) = Raises KeyError /\
  store_of res !! extracted_data (self_of res) =
    Some (_extract_from_text "PO-12345" empty_data).
Proof.
  intros res.
  destruct (extract_needs_both_keys (fun _ => failing) (fun _ => failing) a_day
              (without_tables "PO-12345") ∅ (new ∅).2 (or_intror eq_refl))
    as (H1 & _ & _ & H4).
  split; [exact H1|exact H4].
Defined.

End ExtractorMore.

(** ** The numbers of the sales orders *)

Module NumberFacts.
Import PyStr PyNum Numeral SalesOrderGenerator SalesOrder Spec3.
Import StrFacts.

Lemma fold_value a l :
  fold_left (fun acc c => (10 * acc + N.of_nat (code c - 48))%N) l a
  = (a * 10 ^ N.of_nat (length l) + digits_value l)%N.
Proof.
  unfold digits_value. revert a. induction l as [|c l IH]; intros a.
  - simpl. lia.
  - cbn [fold_left length]. rewrite IH, (IH (10 * 0 + _)%N).
    rewrite Nat2N.inj_succ, N.pow_succ_r'. lia.
Qed.

Lemma digits_value_cons c l :
  digits_value (c :: l)
  = (N.of_nat (code c - 48) * 10 ^ N.of_nat (length l) + digits_value l)%N.
Proof.
  unfold digits_value at 1. cbn [fold_left]. rewrite fold_value. lia.
Qed.

Lemma code_digit_char k : k < 10 -> code (digit_char k) - 48 = k.
Proof.
  intros Hk. unfold code, digit_char. rewrite nat_ascii_embedding by lia. lia.
Qed.

Lemma pos_digits_value fuel n acc :
  (n < 2 ^ N.of_nat fuel)%N ->
  digits_value (pos_digits fuel n acc)
  = (n * 10 ^ N.of_nat (length acc) + digits_value acc)%N.
Proof.
  revert n acc. induction fuel as [|fuel IH]; intros n acc Hn.
  - simpl in *. assert (n = 0%N) as -> by lia. lia.
  - cbn [pos_digits].
    assert (Hmod : (n mod 10 < 10)%N) by (apply N.mod_lt; lia).
    assert (Hd : code (digit_char (N.to_nat (n mod 10))) - 48 = N.to_nat (n mod 10)).
    { apply code_digit_char. lia. }
    destruct (n <? 10)%N eqn:E.
    + apply N.ltb_lt in E. rewrite digits_value_cons, Hd, N2Nat.id.
      by rewrite N.mod_small.
    + rewrite IH.
      * rewrite digits_value_cons, Hd, N2Nat.id. cbn [length].
        rewrite Nat2N.inj_succ, N.pow_succ_r'.
        pose proof (N.div_mod n 10). nia.
      * rewrite Nat2N.inj_succ, N.pow_succ_r' in Hn.
        apply N.Div0.div_lt_upper_bound. lia.
Qed.

Lemma N_digits_value n : digits_value (N_digits n) = n.
Proof.
  unfold N_digits. rewrite pos_digits_value;
    [change (digits_value []) with 0%N; cbn [length]; rewrite N.pow_0_r; lia|].
  rewrite Nat2N.inj_succ, N2Nat.id. destruct n as [|p]; [done|].
  apply N.log2_spec. lia.
Qed.

Lemma zfill_value width ds : digits_value (zfill width ds) = digits_value ds.
Proof.
  unfold zfill. induction (width - length ds) as [|k IH]; [done|].
  cbn [repeat app]. rewrite digits_value_cons, IH. simpl. lia.
Qed.

Lemma zfill_head width ds :
  digits ds -> ds <> [] -> exists c l, zfill width ds = c :: l /\ is_digit c = true.
Proof.
  intros Hd Hne. unfold zfill. destruct (width - length ds) as [|k].
  - destruct ds as [|c l]; [done|]. exists c, l. split; [done|]. by inversion Hd.
  - by eexists _, _.
Qed.

Lemma format_06d_inj x y : format_06d x = format_06d y -> x = y.
Proof.
  assert (Hmixed : forall p z, (0 <= z)%Z ->
            "-"%char :: zfill 5 (N_digits (N.pos p)) <> zfill 6 (N_digits (Z.to_N z))).
  { intros p z _ H.
    destruct (zfill_head 6 (N_digits (Z.to_N z)) (N_digits_digits _) (N_digits_nonempty _))
      as (c & l & Hz & Hc).
    rewrite Hz in H. injection H as <- _. done. }
  assert (Hpos : forall a b, (0 <= a)%Z -> (0 <= b)%Z ->
            zfill 6 (N_digits (Z.to_N a)) = zfill 6 (N_digits (Z.to_N b)) -> a = b).
  { intros a b Ha Hb H. apply (f_equal digits_value) in H.
    rewrite !zfill_value, !N_digits_value in H. lia. }
  destruct x as [|p|p], y as [|q|q]; unfold format_06d; intros H;
    try (apply Hpos; [lia|lia|exact H]);
    try (by apply Hmixed in H; [|lia]);
    try (symmetry in H; by apply Hmixed in H; [|lia]).
  injection H as H. apply (f_equal digits_value) in H.
  rewrite !zfill_value, !N_digits_value in H. by injection H as ->.
Qed.

Lemma append_inj_r (p a b : string) : p +:+ a = p +:+ b -> a = b.
Proof. induction p as [|c p IH]; simpl; [done|]. intros [= H]. by apply IH. Qed.

Lemma of_chars_inj l1 l2 : of_chars l1 = of_chars l2 -> l1 = l2.
Proof. intros H. apply (f_equal chars) in H. by rewrite !chars_of_chars in H. Qed.

(** different counter values give different numbers *)
Lemma number_for_inj c x y : number_for c x = number_for c y -> x = y.
Proof.
  unfold number_for. intros H. by apply append_inj_r, of_chars_inj, format_06d_inj in H.
Qed.

Lemma _generate_client_info_eq r : _generate_client_info r = Simplified.client_info r.
Proof.
  unfold _generate_client_info.
  apply (map_fold_weak_ind (fun r' (m : dict) => r' = m)); [done|].
  by intros i x m r' _ ->.
Qed.

Lemma _generate_line_items_eq r : _generate_line_items r = Simplified.line_items r.
Proof.
  unfold _generate_line_items. destruct (Simplified.line_items r) as [|it items]; [done|].
  assert (H : forall l, map copy l = l).
  { induction l as [|[] l IH]; [done|]. simpl. by rewrite IH. }
  apply H.
Qed.

Lemma generate_eq today r self fs :
  so_number_format (config self) = "{prefix}{number:06d}" ->
  generate today r self fs =
  Some (order_of (number_for (config self) (last_so_number (config self) + 1)) today r,
        Generator (bump (config self))
                  (Some (number_for (config self) (last_so_number (config self) + 1))),
        _save_config (bump (config self)) fs).
Proof.
  intros Hf. unfold generate, _generate_so_number, format, bump, order_of, number_for.
  simpl. rewrite Hf. simpl.
  by rewrite _generate_client_info_eq, _generate_line_items_eq.
Qed.

Lemma generate_sales_order_eq today r fs :
  so_number_format (starting_config fs) = "{prefix}{number:06d}" ->
  generate_sales_order today r fs =
  Some (order_of (number_for (starting_config fs)
                    (last_so_number (starting_config fs) + 1)) today r,
        _save_config (bump (starting_config fs)) (_load_config fs).2).
Proof.
  intros Hf. unfold generate_sales_order, new, starting_config in *.
  destruct (_load_config fs) as [c fs1]. simpl in *.
  by rewrite generate_eq.
Qed.

Lemma starting_config_saved c fs :
  writable fs = true -> starting_config (_save_config c fs) = c.
Proof. intros Hw. unfold _save_config. by rewrite Hw. Qed.

Lemma writable_saved c fs : writable (_save_config c fs) = writable fs.
Proof. unfold _save_config. by destruct (writable fs) eqn:E. Qed.

Lemma writable_loaded fs : writable (_load_config fs).2 = writable fs.
Proof.
  unfold _load_config. destruct (config_file fs); simpl; by rewrite ?writable_saved.
Qed.

Lemma load_unwritable fs :
  writable fs = false -> (_load_config fs).2 = fs.
Proof.
  intros Hw. unfold _load_config, _save_config. rewrite Hw. by destruct (config_file fs).
Qed.

Lemma save_unwritable c fs : writable fs = false -> _save_config c fs = fs.
Proof. intros Hw. unfold _save_config. by rewrite Hw. Qed.

Lemma numbers_from (c : so_config) (n : nat) :
  map (fun k => number_for c (last_so_number c + Z.of_nat k)) (seq 2 n)
  = map (fun k => number_for (bump c) (last_so_number (bump c) + Z.of_nat k)) (seq 1 n).
Proof.
  rewrite <- (seq_shift n 1), map_map. apply map_ext. intros k.
  unfold number_for. simpl. do 2 f_equal. f_equal. lia.
Qed.

Lemma generate_all_numbers today records : forall fs,
  writable fs = true ->
  so_number_format (starting_config fs) = "{prefix}{number:06d}" ->
  exists orders, generate_all today records fs = Some orders /\
    map so_number orders =
    map (fun k => number_for (starting_config fs)
                    (last_so_number (starting_config fs) + Z.of_nat k))
        (seq 1 (length records)).
Proof.
  induction records as [|r records IH]; intros fs Hw Hf; [by exists []|].
  cbn [generate_all]. rewrite (generate_sales_order_eq today r fs Hf).
  set (c := starting_config fs) in *.
  set (fs' := _save_config (bump c) (_load_config fs).2).
  assert (Hw' : writable fs' = true).
  { unfold fs'. by rewrite writable_saved, writable_loaded. }
  assert (Hc' : starting_config fs' = bump c).
  { unfold fs'. apply starting_config_saved. by rewrite writable_loaded. }
  destruct (IH fs' Hw') as (orders & Hall & Hnums); [by rewrite Hc'|].
  rewrite Hall. eexists. split; [reflexivity|].
  cbn [map length seq so_number order_of]. rewrite Hnums, Hc'. f_equal.
  by rewrite numbers_from.
Qed.

Lemma generate_on_numbers today records : forall self fs,
  so_number_format (config self) = "{prefix}{number:06d}" ->
  exists orders, generate_on today records self fs = Some orders /\
    map so_number orders =
    map (fun k => number_for (config self) (last_so_number (config self) + Z.of_nat k))
        (seq 1 (length records)).
Proof.
  induction records as [|r records IH]; intros self fs Hf; [by exists []|].
  cbn [generate_on]. rewrite (generate_eq today r self fs Hf).
  set (c := config self) in *.
  destruct (IH (Generator (bump c) (Some (number_for c (last_so_number c + 1))))
               (_save_config (bump c) fs)) as (orders & Hall & Hnums); [done|].
  rewrite Hall. eexists. split; [reflexivity|].
  cbn [map length seq so_number order_of]. rewrite Hnums. f_equal.
  cbn [config]. by rewrite numbers_from.
Qed.

Lemma sequence_has_no_duplicate c n :
  NoDup (map (fun k => number_for c (last_so_number c + Z.of_nat k)) (seq 1 n)).
Proof.
  apply (NoDup_fmap_2_strong _).
  - intros x y _ _ H. apply number_for_inj in H. lia.
  - apply NoDup_seq.
Qed.

Lemma generate_all_unwritable today records fs :
  writable fs = false ->
  so_number_format (starting_config fs) = "{prefix}{number:06d}" ->
  exists orders, generate_all today records fs = Some orders /\
    map so_number orders =
    map (fun _ => number_for (starting_config fs)
                    (last_so_number (starting_config fs) + 1)) records.
Proof.
  intros Hw Hf. induction records as [|r records (orders & Hall & Hnums)]; [by exists []|].
  cbn [generate_all]. rewrite (generate_sales_order_eq today r fs Hf).
  rewrite (load_unwritable fs Hw), (save_unwritable _ fs Hw), Hall.
  eexists. split; [reflexivity|]. cbn [map so_number order_of]. by rewrite Hnums.
Qed.





End NumberFacts.

(** ** The two files of the export *)

Module ExportFacts.
Import PyStr PyNum Simplified Spec SalesOrderGenerator SalesOrder CSVExporter Spec3.
Import StrFacts ValidateFacts TextFacts TableFacts PipelineFacts.

(** the row of the first file, column by column *)
Lemma client_row_eq so :
  SalesOrder.client_info so <> ∅ ->
  _export_client_info so =
  Returns (Some (Csv ("client_info_" +:+ SalesOrder.so_number so +:+ ".csv")
                   client_field_order [client_row so])).
Proof.
  destruct so as [n d ci po sh items]. intros Hne.
  unfold _export_client_info, client_row. cbn [SalesOrder.client_info] in *.
  rewrite bool_decide_eq_false_2 by done.
  cbn [SalesOrder.so_number SalesOrder.so_date SalesOrder.po_details SalesOrder.ship_to].
  generalize (field_or_blank ci) (field_or_blank po) (field_or_blank sh).
  intros fc fp fs. generalize ("client_info_" +:+ n +:+ ".csv"). intros p.
  generalize (Text n) (Text d). intros vn vd.
  vm_compute. reflexivity.
Qed.

Lemma item_row_general (vn : value) (g : string -> value) :
  _dict_to_list item_field_order
    (<["so_number" := vn]>
       (foldl (fun row_data field => <[field := g field]> row_data) ∅ item_field_order))
  = Returns [vn; g "item_code"; g "description"; g "quantity"; g "unit_price";
             g "total_price"; g "po_number"; g "creation_date"; g "due_date"].
Proof. vm_compute. reflexivity. Qed.

Lemma item_row_eq n item :
  _dict_to_list item_field_order (item_row_data n item) = Returns (item_row n item).
Proof. unfold item_row_data. rewrite item_row_general. reflexivity. Qed.

Lemma writerows_eq n items :
  writerows item_field_order (map (item_row_data n) items)
  = Returns (map (item_row n) items).
Proof.
  induction items as [|item items IH]; [done|].
  cbn [map writerows]. by rewrite item_row_eq, IH.
Qed.

Lemma item_rows_eq so :
  _export_line_items so =
  Returns (match SalesOrder.line_items so with
           | [] => None
           | items =>
               Some (Csv ("line_items_" +:+ SalesOrder.so_number so +:+ ".csv")
                       item_field_order (map (item_row (SalesOrder.so_number so)) items))
           end).
Proof.
  unfold _export_line_items. destruct (SalesOrder.line_items so) as [|item items]; [done|].
  by rewrite writerows_eq.
Qed.

Lemma item_rows_linked p n (items : list line_item) f :
  f = Csv p item_field_order (map (item_row n) items) ->
  length (rows f) = length items /\
  Forall (fun row => length row = length (fieldnames f) /\
            cell f row "so_number" = Some (Text n)) (rows f).
Proof.
  intros ->. cbn [rows fieldnames]. split; [apply length_map|].
  apply Forall_forall. intros row (it & -> & _)%list_elem_of_fmap. by split.
Qed.


(** *** The keys of the simplified extractor and the columns *)

Lemma keys_in_insert {V} keys k (v : V) (d : gmap string V) :
  k ∈ keys -> keys_in keys d -> keys_in keys (<[k := v]> d).
Proof.
  intros Hk Hd k' Hk'. destruct (decide (k = k')) as [<-|Hne]; [done|].
  apply Hd. by rewrite lookup_insert_ne in Hk'.
Qed.

Lemma keys_in_setdefault keys k v (d : dict) :
  k ∈ keys -> keys_in keys d -> keys_in keys (setdefault k v d).
Proof.
  intros Hk Hd. unfold setdefault. destruct (d !! k); [done|]. by apply keys_in_insert.
Qed.

Ltac po_key := unfold simplified_po_keys; rewrite !elem_of_cons; tauto.

Lemma keys_of_po_details text r :
  keys_in simplified_po_keys (Simplified.po_details r) ->
  keys_in simplified_po_keys (Simplified.po_details (extract_po_details text r)).
Proof.
  intros H. unfold extract_po_details.
  repeat (apply (on_match_invariant
                   (fun r => keys_in simplified_po_keys (Simplified.po_details r)));
          [intros v r' Hr'; cbn [set_po Simplified.po_details];
           apply keys_in_insert; [po_key|exact Hr']|]).
  exact H.
Qed.

Lemma po_details_of_client text r :
  Simplified.po_details (extract_client_info text r) = Simplified.po_details r.
Proof.
  unfold extract_client_info.
  repeat (apply (on_match_invariant
                   (fun x => Simplified.po_details x = Simplified.po_details r));
          [by intros ? ? <-|]).
  done.
Qed.

Lemma po_details_of_shipping text r :
  Simplified.po_details (extract_shipping_info text r) = Simplified.po_details r.
Proof.
  unfold extract_shipping_info.
  repeat (apply (on_match_invariant
                   (fun x => Simplified.po_details x = Simplified.po_details r));
          [by intros ? ? <-|]).
  done.
Qed.

Lemma keys_found_in text : keys_in simplified_po_keys (found_in text).
Proof.
  unfold found_in, extract_from_text. rewrite po_details_of_shipping.
  apply keys_of_po_details. rewrite po_details_of_client.
  intros k [v Hv]. done.
Qed.

Lemma keys_after_completion today r r' :
  validate_and_clean_data today r = Returns r' ->
  keys_in simplified_po_keys (Simplified.po_details r) ->
  keys_in simplified_po_keys (Simplified.po_details r').
Proof.
  unfold validate_and_clean_data, complete_amounts. intros H H0.
  set (po1 := default_po_number _ _) in H.
  assert (H1 : keys_in simplified_po_keys po1).
  { unfold po1, default_po_number.
    destruct (_ !! "PO Number"); [done|]. destruct (_ !! "name"); [|done].
    apply keys_in_insert; [po_key|done]. }
  set (po2 := setdefault "Payment Terms" _ _) in H.
  assert (H2 : keys_in simplified_po_keys po2).
  { unfold po2. repeat (apply keys_in_setdefault; [po_key|]). exact H1. }
  set (po3 := default_subtotal _ po2) in H.
  assert (H3 : keys_in simplified_po_keys po3).
  { unfold po3, default_subtotal. destruct (po2 !! "Subtotal"); [done|].
    destruct (Simplified.line_items r); [done|]. apply keys_in_insert; [po_key|done]. }
  destruct (default_tax po3) as [po4|] eqn:E4; simpl in H; [|done].
  assert (H4 : keys_in simplified_po_keys po4).
  { unfold default_tax in E4. destruct (po3 !! "Tax"); [by injection E4 as <-|].
    destruct (po3 !! "Subtotal"); [|by injection E4 as <-].
    destruct (float _); simpl in E4; [|done]. injection E4 as <-.
    apply keys_in_insert; [po_key|done]. }
  set (po5 := setdefault "Shipping" _ po4) in H.
  assert (H5 : keys_in simplified_po_keys po5).
  { unfold po5. apply keys_in_setdefault; [po_key|done]. }
  destruct (default_total po5) as [po6|] eqn:E6; simpl in H; [|done].
  injection H as <-. cbn [Simplified.po_details].
  unfold default_total in E6. destruct (po5 !! "Total Amount"); [by injection E6 as <-|].
  destruct (float (default "0" (po5 !! "Subtotal"))); simpl in E6; [|done].
  destruct (float (default "0" (po5 !! "Tax"))); simpl in E6; [|done].
  destruct (float (default "0" (po5 !! "Shipping"))); simpl in E6; [|done].
  injection E6 as <-. apply keys_in_insert; [po_key|done].
Qed.

Lemma keys_of_extraction today doc r :
  extract_data today doc = Returns r ->
  keys_in simplified_po_keys (Simplified.po_details r) /\
  Simplified.line_items r <> [].
Proof.
  intros H. unfold extract_data in H.
  set (r0 := match doc_text doc with Some text => _ | None => _ end) in H.
  assert (H0 : keys_in simplified_po_keys (Simplified.po_details r0)).
  { unfold r0. destruct (doc_text doc) as [text|]; [apply keys_found_in|].
    intros k [v Hv]. done. }
  set (c := match doc_tables doc with Some (_ :: _ as tables) => _ | _ => _ end) in H.
  assert (Hc : forall r1, c = Returns r1 ->
                 Simplified.po_details r1 = Simplified.po_details r0).
  { intros r1. unfold c. destruct (doc_tables doc) as [[|t tables]|];
      [by intros [= <-]| |by intros [= <-]].
    rewrite extract_from_tables_eq.
    destruct (tables_items _); simpl; [|done]. by intros [= <-]. }
  destruct c as [r1|]; simpl in H; [|done].
  split.
  - apply (keys_after_completion today r1 r H). by rewrite (Hc r1 eq_refl).
  - destruct (validate_fields today r1 r H) as (_ & _ & Hl & _). rewrite Hl.
    apply ensure_item_nonempty.
Qed.

Lemma blank_po_column (po : dict) field :
  keys_in simplified_po_keys po -> field ∈ po_fields ->
  field_or_blank po field = Text "".
Proof.
  intros Hk Hf. unfold field_or_blank. destruct (po !! field) as [v|] eqn:E; [|done].
  exfalso. assert (Hin : field ∈ simplified_po_keys) by (apply Hk; by eexists).
  unfold po_fields in Hf. unfold simplified_po_keys in Hin.
  rewrite !elem_of_cons, elem_of_nil in Hf.
  rewrite !elem_of_cons, elem_of_nil in Hin.
  repeat (destruct Hf as [->|Hf];
          [repeat (destruct Hin as [Hin|Hin]; [discriminate Hin|]); destruct Hin|]).
  destruct Hf.
Qed.

Lemma generate_sales_order_shape today r fs so fs' :
  generate_sales_order today r fs = Some (so, fs') ->
  exists number, so = order_of number today r.
Proof.
  unfold generate_sales_order, new. destruct (_load_config fs) as [c fs1].
  unfold generate. destruct (_generate_so_number _ fs1) as [[[number g] fs2]|]; [|done].
  intros [= <- _]. exists number. unfold order_of.
  by rewrite NumberFacts._generate_client_info_eq, NumberFacts._generate_line_items_eq.
Qed.



End ExportFacts.

(** ** [DataExtractor]: what the text methods write *)

Module ClassTextFacts.
Import PyStr PyNum DataExtractor CSVExporter Spec3.

Lemma keys_insert {V} keys k (v : V) (d : gmap string V) :
  k ∈ keys -> keys_in keys d -> keys_in keys (<[k := v]> d).
Proof.
  intros Hk Hd k' Hk'. destruct (decide (k = k')) as [<-|Hne]; [done|].
  apply Hd. by rewrite lookup_insert_ne in Hk'.
Qed.

Lemma shape_set_client k v d :
  k ∈ client_fields -> text_shape d -> text_shape (set_client k v d).
Proof.
  intros Hk (H1 & H2 & H3 & H4 & H5). repeat split; try done.
  by apply keys_insert.
Qed.

Lemma shape_set_ship k v d :
  k ∈ ship_to_fields -> text_shape d -> text_shape (set_ship k v d).
Proof.
  intros Hk (H1 & H2 & H3 & H4 & H5). repeat split; try done.
  by apply keys_insert.
Qed.

Lemma typed_insert k v (po : vdict) :
  (if bool_decide (k ∈ class_amounts)
   then exists f, v = VNum (PFloat f) else exists s, v = VStr s) ->
  typed po -> typed (<[k := v]> po).
Proof.
  intros Hv Hpo k' v'. destruct (decide (k = k')) as [<-|Hne].
  - rewrite lookup_insert_eq. by intros [= <-].
  - rewrite lookup_insert_ne by done. apply Hpo.
Qed.

Lemma shape_set_po k v d :
  k ∈ po_fields ->
  (if bool_decide (k ∈ class_amounts)
   then exists f, v = VNum (PFloat f) else exists s, v = VStr s) ->
  text_shape d -> text_shape (set_po k v d).
Proof.
  intros Hk Hv (H1 & H2 & H3 & H4 & H5). repeat split; try done.
  - by apply keys_insert.
  - by apply typed_insert.
Qed.

Ltac in_list := rewrite !elem_of_cons; tauto.

Ltac shape_step :=
  match goal with
  | |- text_shape (match ?x with _ => _ end) => destruct x
  | |- text_shape (if ?b then _ else _) => destruct b
  | |- text_shape (set_client _ _ _) =>
      apply shape_set_client; [unfold client_fields; in_list|]
  | |- text_shape (set_ship _ _ _) =>
      apply shape_set_ship; [unfold ship_to_fields; in_list|]
  end.

Lemma shape_client_info text d :
  text_shape d -> text_shape (_extract_client_info text d).
Proof.
  intros H. unfold _extract_client_info. cbv zeta. repeat shape_step; exact H.
Qed.

Lemma shape_ship_to text d :
  text_shape d -> text_shape (_extract_ship_to text d).
Proof.
  intros H. unfold _extract_ship_to. cbv zeta. repeat shape_step; exact H.
Qed.

Lemma shape_field patterns key text d :
  key ∈ po_fields -> bool_decide (key ∈ class_amounts) = false ->
  text_shape d -> text_shape (extract_field patterns key text d).
Proof.
  intros Hk Ha H. unfold extract_field. destruct (first_match _ _ _); [|done].
  apply shape_set_po; [done| |done]. rewrite Ha. by eexists.
Qed.

Lemma shape_amount patterns key text d :
  key ∈ po_fields -> bool_decide (key ∈ class_amounts) = true ->
  text_shape d -> text_shape (extract_amount patterns key text d).
Proof.
  intros Hk Ha H. unfold extract_amount. destruct (first_match _ _ _); [|done].
  destruct (float_of_str _); [|done].
  apply shape_set_po; [done| |done]. rewrite Ha. by eexists.
Qed.

Lemma shape_po_details text d :
  text_shape d -> text_shape (_extract_po_details text d).
Proof.
  intros H. unfold _extract_po_details. cbv zeta.
  repeat (apply shape_amount; [unfold po_fields; in_list|done|]).
  repeat (apply shape_field; [unfold po_fields; in_list|done|]).
  destruct (Re.search _ _ _).
  - apply shape_set_po; [unfold po_fields; in_list|by eexists|done].
  - by apply shape_field; [unfold po_fields; in_list|done|].
Qed.

Lemma shape_from_text text d :
  text_shape d -> text_shape (_extract_from_text text d).
Proof.
  intros H. unfold _extract_from_text, _extract_comments, _extract_order_total. cbv zeta.
  destruct (first_match comment_patterns _ _).
  - apply shape_set_po; [unfold po_fields; in_list|by eexists|].
    apply shape_amount; [unfold po_fields; in_list|done|].
    by apply shape_ship_to, shape_po_details, shape_client_info.
  - apply shape_amount; [unfold po_fields; in_list|done|].
    by apply shape_ship_to, shape_po_details, shape_client_info.
Qed.

Lemma shape_empty : text_shape empty_data.
Proof.
  repeat split; try (intros k [v Hv]; done). intros k v Hv. done.
Qed.


(** *** The PO number in the direct format *)

Lemma po_number_field patterns key text d :
  key <> "po_number" ->
  po_details (extract_field patterns key text d) !! "po_number"
  = po_details d !! "po_number".
Proof.
  intros Hk. unfold extract_field. destruct (first_match _ _ _); [|done].
  by apply lookup_insert_ne.
Qed.

Lemma po_number_amount patterns key text d :
  key <> "po_number" ->
  po_details (extract_amount patterns key text d) !! "po_number"
  = po_details d !! "po_number".
Proof.
  intros Hk. unfold extract_amount. destruct (first_match _ _ _); [|done].
  destruct (float_of_str _); [|done]. by apply lookup_insert_ne.
Qed.

Ltac po_step :=
  match goal with
  | |- po_details (match ?x with _ => _ end) = _ => destruct x
  | |- po_details (if ?b then _ else _) = _ => destruct b
  | |- po_details (set_client _ _ _) = _ => cbn [set_client po_details]
  | |- po_details (set_ship _ _ _) = _ => cbn [set_ship po_details]
  end.

Lemma po_details_client_info text d :
  po_details (_extract_client_info text d) = po_details d.
Proof. unfold _extract_client_info. cbv zeta. repeat po_step; reflexivity. Qed.

Lemma po_details_ship_to text d :
  po_details (_extract_ship_to text d) = po_details d.
Proof. unfold _extract_ship_to. cbv zeta. repeat po_step; reflexivity. Qed.

(** X17. A PO number in the direct format, PO- and digits, is the one the
    record gets, whatever the labelled patterns would find and whatever
    the record held: the first occurrence in the text, in the case it
    has there. *)
Theorem direct_po_number_wins text d m :
  Re.search "PO-\d+" text Re.no_flags = Some m ->
  po_details (_extract_from_text text d) !! "po_number" = Some (VStr (Re.group m 0)).
Proof.
  intros Hm. unfold _extract_from_text, _extract_comments, _extract_order_total. cbv zeta.
  assert (H : forall d0,
            po_details d0 !! "po_number" = Some (VStr (Re.group m 0)) ->
            po_details
              (match first_match comment_patterns text Re.IM with
               | Some m0 => set_po "comments" (VStr (strip (Re.group m0 1))) d0
               | None => d0
               end) !! "po_number" = Some (VStr (Re.group m 0))).
  { intros d0 H0. destruct (first_match _ _ _); [|done].
    cbn [set_po po_details]. by rewrite lookup_insert_ne. }
  apply H. rewrite po_number_amount by done. rewrite po_details_ship_to.
  unfold _extract_po_details. cbv zeta. rewrite Hm.
  rewrite !po_number_amount by done. rewrite !po_number_field by done.
  cbn [set_po po_details]. by rewrite lookup_insert_eq.
Qed.

Lemma direct_po_number_wins_witness :
  exists m, Re.search "PO-\d+" "Order Number: ABC-999, PO-12345" Re.no_flags = Some m /\
    po_details (_extract_from_text "Order Number: ABC-999, PO-12345" empty_data)
      !! "po_number" = Some (VStr "PO-12345").
Proof.
  destruct (Re.search "PO-\d+" "Order Number: ABC-999, PO-12345" Re.no_flags)
    as [m|] eqn:Hm; [|by vm_compute in Hm].
  exists m. split; [reflexivity|].
  rewrite (direct_po_number_wins "Order Number: ABC-999, PO-12345" empty_data m Hm).
  vm_compute in Hm. injection Hm as <-. reflexivity.
Defined.

End ClassTextFacts.

(** ** The amounts of a returned record *)

Module AmountFacts.
Import PyStr PyNum Simplified Spec Spec2 Numeral Examples.
Import StrFacts ValidateFacts TextFacts TableFacts PipelineFacts.

Lemma found_in_decimals text : decimals (found_in text).
Proof.
  unfold found_in, extract_from_text.
  rewrite TextMore.po_details_shipping. apply TextMore.extract_po_details_decimals.
  rewrite TextMore.po_details_client. intros k' v' _ H.
  change (po_details initial) with (∅ : dict) in H. by rewrite lookup_empty in H.
Qed.

Lemma found_in_parses text k v :
  k ∈ amount_fields -> found_in text !! k = Some v -> is_Some (float_of_str v).
Proof.
  intros Hk Hv. pose proof (found_in_decimals text k v Hk Hv) as Hshape.
  apply float_of_str_decimal in Hshape. by rewrite of_chars_chars in Hshape.
Qed.

Ltac amount_key := unfold amount_fields; rewrite !elem_of_cons; tauto.



End AmountFacts.
